(** * Valve: the per-datapath control logic of faucet/valve.py

    A shallow embedding of class [Valve] (faucet/valve.py) and of the
    [PacketMeta] helper, followed by theorems about the embedded code.

    Conventions of the embedding.

    - Python objects that reference each other (Port <-> VLAN <-> DP) are
      kept in the dictionaries of the DP and referenced by their integer
      keys (port number, VLAN vid); an attribute read through such a
      reference is a lookup in the current DP.
    - A Python [dict] is an association list in insertion order, because
      the order of iteration decides the order of the emitted messages.
      A Python [set] is a duplicate-free list in insertion order.
    - A method that mutates [self] is a function in the monad [M]: it
      takes the Valve, and returns the Valve as the method leaves it
      together with either the returned value or the exception that left
      the method (an exception does not undo the assignments made before
      it).
    - [time.time()] is an explicit argument [now].
    - Calls to the logger are not modelled.
    - The classes the Valve consumes but which live in other modules
      (tables, flood/host/route managers, ACL builder, packet parser,
      configuration equality) are the fields of the class
      [Collaborators]; the data they own is opaque ([Opaque]). *)

From Stdlib Require Import ZArith List Ascii String Bool Lia.
Import ListNotations.
Open Scope Z_scope.
Open Scope list_scope.

Set Implicit Arguments.

(** ** Dictionaries and sets *)

Section Dict.
Context {K V : Type} (eqb : K -> K -> bool).

Fixpoint dict_get (k : K) (d : list (K * V)) : option V :=
  match d with
  | [] => None
  | (k', v) :: d' => if eqb k k' then Some v else dict_get k d'
  end.

Definition dict_mem (k : K) (d : list (K * V)) : bool :=
  match dict_get k d with Some _ => true | None => false end.

(** [d[k] = v]: replaces in place, appends a new key at the end. *)
Fixpoint dict_set (k : K) (v : V) (d : list (K * V)) : list (K * V) :=
  match d with
  | [] => [(k, v)]
  | (k', v') :: d' =>
      if eqb k k' then (k, v) :: d' else (k', v') :: dict_set k v d'
  end.

Definition dict_keys (d : list (K * V)) : list K := map fst d.
Definition dict_values (d : list (K * V)) : list V := map snd d.
End Dict.

Section PySet.
Context {K : Type} (eqb : K -> K -> bool).

Definition set_mem (k : K) (s : list K) : bool := existsb (eqb k) s.

Definition set_add (k : K) (s : list K) : list K :=
  if set_mem k s then s else s ++ [k].

Definition set_add_all (ks : list K) (s : list K) : list K :=
  fold_left (fun acc k => set_add k acc) ks s.

Definition set_of_list (ks : list K) : list K := set_add_all ks [].

Definition set_subset (s t : list K) : bool :=
  forallb (fun k => set_mem k t) s.

Definition set_eqb (s t : list K) : bool :=
  set_subset s t && set_subset t s.
End PySet.

Definition mac := string.
Definition dict (K V : Type) := list (K * V).

Definition zget {V} := @dict_get Z V Z.eqb.
Definition zmem {V} := @dict_mem Z V Z.eqb.
Definition zset {V} := @dict_set Z V Z.eqb.
Definition mget {V} := @dict_get mac V String.eqb.
Definition mmem {V} := @dict_mem mac V String.eqb.

Definition nonempty {A} (l : list A) : bool :=
  match l with [] => false | _ => true end.

Definition is_some {A} (o : option A) : bool :=
  match o with Some _ => true | None => false end.

(** Truthiness of a Python int-or-None attribute. *)
Definition truthy (z : Z) : bool := negb (z =? 0).

(** ** Data owned by the collaborators *)

Class Opaque := {
  rule_conf : Type;     (* one rule of an ACL *)
  acl_match : Type;     (* a match built by valve_acl.build_acl_entry *)
  acl_inst : Type;      (* an instruction built by valve_acl *)
  ext_msg : Type;       (* a message not built through a table method *)
  raw_data : Type;      (* PacketMeta.data *)
  ryu_pkt : Type;       (* PacketMeta.pkt *)
  ryu_eth_pkt : Type;   (* PacketMeta.eth_pkt *)
  route_state : Type;   (* routes and neighbour caches of one VLAN *)
  stack_conf : Type     (* dp.stack / port.stack *)
}.

(** ** OpenFlow messages as the Valve builds them *)

Record table := { table_id : Z; table_name : string }.

Definition table_eqb (a b : table) : bool := table_id a =? table_id b.

Section Messages.
Context `{Opaque}.

(** The keyword arguments [table.match(...)] is called with in valve.py. *)
Record match_fields := {
  m_in_port : option Z;
  m_vlan : option Z;
  m_eth_src : option mac;
  m_eth_dst : option mac;
  m_eth_type : option Z
}.

Inductive ofmatch :=
| Match (f : match_fields)
| AclMatch (m : acl_match).

Inductive action :=
| output_port (port_num : Z)
| push_vlan (vlan_vid : Z).

Inductive instruction :=
| goto_table (t : table)
| apply_actions (acts : list action)
| AclInst (i : acl_inst).

(** [priority] and [match] are optional keyword arguments in the source. *)
Inductive ofmsg :=
| flowmod (t : table) (m : option ofmatch) (priority : Z)
          (inst : list instruction)
| FlowDel (t : table) (m : option ofmatch) (out_port : option Z)
| flowcontroller (t : table) (priority : Z) (inst : list instruction)
| meterdel
| controller_pps_meterdel
| controller_pps_meteradd (pps : Z)
| Ext (e : ext_msg).

(** Modelled from the spec: [flowdrop(match, priority)] is the flowmod
    whose instruction list is empty (ValveTable is not part of
    valve.py). *)
Definition flowdrop (t : table) (m : option ofmatch) (priority : Z) : ofmsg :=
  flowmod t m priority [].

(** Modelled from the spec: [flowdel], with an optional match and
    an optional out_port, returns the list holding the one delete
    message. *)
Definition flowdel (t : table) (m : option ofmatch) (out_port : option Z)
  : list ofmsg :=
  [FlowDel t m out_port].

(** Modelled from the spec: [valve_of.push_vlan_act(vid)] is the action
    list that pushes the VLAN tag [vid]. *)
Definition push_vlan_act (vlan_vid : Z) : list action := [push_vlan vlan_vid].

Definition match_in_port (p : Z) : option ofmatch :=
  Some (Match {| m_in_port := Some p; m_vlan := None; m_eth_src := None;
                 m_eth_dst := None; m_eth_type := None |}).
Definition match_in_port_vlan (p v : Z) : option ofmatch :=
  Some (Match {| m_in_port := Some p; m_vlan := Some v; m_eth_src := None;
                 m_eth_dst := None; m_eth_type := None |}).
Definition match_vlan (v : Z) : option ofmatch :=
  Some (Match {| m_in_port := None; m_vlan := Some v; m_eth_src := None;
                 m_eth_dst := None; m_eth_type := None |}).
Definition match_eth_src (a : mac) : option ofmatch :=
  Some (Match {| m_in_port := None; m_vlan := None; m_eth_src := Some a;
                 m_eth_dst := None; m_eth_type := None |}).
Definition match_eth_dst (a : mac) : option ofmatch :=
  Some (Match {| m_in_port := None; m_vlan := None; m_eth_src := None;
                 m_eth_dst := Some a; m_eth_type := None |}).
Definition match_eth_type (ty : Z) : option ofmatch :=
  Some (Match {| m_in_port := None; m_vlan := None; m_eth_src := None;
                 m_eth_dst := None; m_eth_type := Some ty |}).
End Messages.

(** ** The configuration objects

    Only the attributes valve.py reads or writes are kept. *)

Record vip := { vip_version : Z; vip_text : string }.

Record HostCacheEntry := { hce_port : Z; hce_ts : Z; hce_edge : bool }.

Section DataModel.
Context `{Opaque}.

Record VLAN := {
  vid : Z;
  tagged : list Z;                  (* port numbers *)
  untagged : list Z;                (* port numbers *)
  faucet_mac : mac;
  faucet_vips : list vip;
  vlan_max_hosts : option Z;
  (* dynamic state *)
  host_cache : dict mac HostCacheEntry;
  vlan_learn_ban_count : Z;
  vlan_route_state : route_state
}.

Record Port := {
  number : Z;
  enabled : bool;
  native_vlan : option Z;           (* vid *)
  tagged_vlans : list Z;            (* vids *)
  acl_in : option Z;
  port_stack : option stack_conf;
  mirror : option Z;
  mirror_destination : bool;
  port_max_hosts : option Z;
  permanent_learn : bool;
  (* runtime state *)
  phys_up : bool;
  port_learn_ban_count : Z
}.

Record ACL := { rules : list rule_conf }.

Record Meter := { entry_msg : ofmsg }.

(** [dp.tables], a dict with a fixed set of names. *)
Record Tables := {
  vlan_table : table;
  port_acl_table : table;
  vlan_acl_table : table;
  eth_src_table : table;
  eth_dst_table : table;
  ipv4_fib_table : table;
  ipv6_fib_table : table;
  vip_table : table;
  flood_table : table
}.

(** The methods [all_valve_tables()], [in_port_tables()] and
    [vlan_match_tables()] of the DP are kept as the lists they return. *)
Record DP := {
  dp_id : Z;
  name : string;
  tables : Tables;
  wildcard_table : table;
  all_valve_tables : list table;
  in_port_tables : list table;
  vlan_match_tables : list table;
  lowest_priority : Z;
  low_priority : Z;
  high_priority : Z;
  highest_priority : Z;
  drop_broadcast_source_address : bool;
  drop_spoofed_faucet_mac : bool;
  drop_bpdu : bool;
  drop_lldp : bool;
  group_table : bool;
  packetin_pps : Z;
  ignore_learn_ins : Z;
  advertise_interval : Z;
  meters : dict string Meter;
  acls : dict Z ACL;
  port_acl_in : dict Z Z;
  vlan_acl_in : dict Z Z;
  stack : option stack_conf;
  stack_ports : list Z;
  vlans : dict Z VLAN;
  ports : dict Z Port;
  running : bool
}.

Record Valve := {
  dp : DP;
  L3 : bool;
  _packet_in_count_sec : Z;
  _last_packet_in_sec : Z;
  _last_advertise_sec : Z
}.

Record PacketMeta := {
  pm_data : raw_data;
  pm_pkt : ryu_pkt;
  pm_eth_pkt : ryu_eth_pkt;
  pm_port : Z;                      (* pkt_meta.port.number *)
  pm_vlan : Z;                      (* pkt_meta.vlan.vid *)
  pm_eth_src : mac;
  pm_eth_dst : mac
}.

(** *** Attribute assignment *)

Definition set_host_cache (hc : dict mac HostCacheEntry) (v : VLAN) : VLAN :=
  {| vid := vid v; tagged := tagged v; untagged := untagged v;
     faucet_mac := faucet_mac v; faucet_vips := faucet_vips v;
     vlan_max_hosts := vlan_max_hosts v; host_cache := hc;
     vlan_learn_ban_count := vlan_learn_ban_count v;
     vlan_route_state := vlan_route_state v |}.

Definition set_vlan_learn_ban_count (n : Z) (v : VLAN) : VLAN :=
  {| vid := vid v; tagged := tagged v; untagged := untagged v;
     faucet_mac := faucet_mac v; faucet_vips := faucet_vips v;
     vlan_max_hosts := vlan_max_hosts v; host_cache := host_cache v;
     vlan_learn_ban_count := n;
     vlan_route_state := vlan_route_state v |}.

Definition set_vlan_route_state (r : route_state) (v : VLAN) : VLAN :=
  {| vid := vid v; tagged := tagged v; untagged := untagged v;
     faucet_mac := faucet_mac v; faucet_vips := faucet_vips v;
     vlan_max_hosts := vlan_max_hosts v; host_cache := host_cache v;
     vlan_learn_ban_count := vlan_learn_ban_count v;
     vlan_route_state := r |}.

Definition set_tagged_untagged (t u : list Z) (v : VLAN) : VLAN :=
  {| vid := vid v; tagged := t; untagged := u;
     faucet_mac := faucet_mac v; faucet_vips := faucet_vips v;
     vlan_max_hosts := vlan_max_hosts v; host_cache := host_cache v;
     vlan_learn_ban_count := vlan_learn_ban_count v;
     vlan_route_state := vlan_route_state v |}.

Definition set_phys_up (b : bool) (p : Port) : Port :=
  {| number := number p; enabled := enabled p; native_vlan := native_vlan p;
     tagged_vlans := tagged_vlans p; acl_in := acl_in p;
     port_stack := port_stack p; mirror := mirror p;
     mirror_destination := mirror_destination p;
     port_max_hosts := port_max_hosts p; permanent_learn := permanent_learn p;
     phys_up := b; port_learn_ban_count := port_learn_ban_count p |}.

Definition set_port_learn_ban_count (n : Z) (p : Port) : Port :=
  {| number := number p; enabled := enabled p; native_vlan := native_vlan p;
     tagged_vlans := tagged_vlans p; acl_in := acl_in p;
     port_stack := port_stack p; mirror := mirror p;
     mirror_destination := mirror_destination p;
     port_max_hosts := port_max_hosts p; permanent_learn := permanent_learn p;
     phys_up := phys_up p; port_learn_ban_count := n |}.

Definition set_acl_in (a : option Z) (p : Port) : Port :=
  {| number := number p; enabled := enabled p; native_vlan := native_vlan p;
     tagged_vlans := tagged_vlans p; acl_in := a;
     port_stack := port_stack p; mirror := mirror p;
     mirror_destination := mirror_destination p;
     port_max_hosts := port_max_hosts p; permanent_learn := permanent_learn p;
     phys_up := phys_up p; port_learn_ban_count := port_learn_ban_count p |}.

Definition set_dyn (vs : dict Z VLAN) (ps : dict Z Port) (r : bool) (d : DP) : DP :=
  {| dp_id := dp_id d; name := name d; tables := tables d;
     wildcard_table := wildcard_table d;
     all_valve_tables := all_valve_tables d;
     in_port_tables := in_port_tables d;
     vlan_match_tables := vlan_match_tables d;
     lowest_priority := lowest_priority d; low_priority := low_priority d;
     high_priority := high_priority d; highest_priority := highest_priority d;
     drop_broadcast_source_address := drop_broadcast_source_address d;
     drop_spoofed_faucet_mac := drop_spoofed_faucet_mac d;
     drop_bpdu := drop_bpdu d; drop_lldp := drop_lldp d;
     group_table := group_table d; packetin_pps := packetin_pps d;
     ignore_learn_ins := ignore_learn_ins d;
     advertise_interval := advertise_interval d;
     meters := meters d; acls := acls d; port_acl_in := port_acl_in d;
     vlan_acl_in := vlan_acl_in d; stack := stack d;
     stack_ports := stack_ports d;
     vlans := vs; ports := ps; running := r |}.

Definition set_vlans (vs : dict Z VLAN) (d : DP) : DP :=
  set_dyn vs (ports d) (running d) d.
Definition set_ports (ps : dict Z Port) (d : DP) : DP :=
  set_dyn (vlans d) ps (running d) d.
Definition set_running (r : bool) (d : DP) : DP :=
  set_dyn (vlans d) (ports d) r d.

Definition set_dp (d : DP) (self : Valve) : Valve :=
  {| dp := d; L3 := L3 self;
     _packet_in_count_sec := _packet_in_count_sec self;
     _last_packet_in_sec := _last_packet_in_sec self;
     _last_advertise_sec := _last_advertise_sec self |}.

Definition set_L3 (b : bool) (self : Valve) : Valve :=
  {| dp := dp self; L3 := b;
     _packet_in_count_sec := _packet_in_count_sec self;
     _last_packet_in_sec := _last_packet_in_sec self;
     _last_advertise_sec := _last_advertise_sec self |}.

Definition set_packet_in (count sec : Z) (self : Valve) : Valve :=
  {| dp := dp self; L3 := L3 self;
     _packet_in_count_sec := count;
     _last_packet_in_sec := sec;
     _last_advertise_sec := _last_advertise_sec self |}.

Definition set_last_advertise_sec (now : Z) (self : Valve) : Valve :=
  {| dp := dp self; L3 := L3 self;
     _packet_in_count_sec := _packet_in_count_sec self;
     _last_packet_in_sec := _last_packet_in_sec self;
     _last_advertise_sec := now |}.

(** Writing through a reference to a VLAN or a Port of the DP: the object
    stored under key [k] is replaced. *)
Definition put_vlan (k : Z) (v : VLAN) (self : Valve) : Valve :=
  set_dp (set_vlans (zset k v (vlans (dp self))) (dp self)) self.
Definition put_port (k : Z) (p : Port) (self : Valve) : Valve :=
  set_dp (set_ports (zset k p (ports (dp self))) (dp self)) self.

End DataModel.

(** ** The collaborators of the Valve

    Everything valve.py calls in other modules.  The managers are built
    once in [Valve.__init__]; the flood manager keeps a reference to the
    ports of the DP, so it is given the DP it reads.  A manager method
    that changes a cache of a VLAN returns the new cache. *)

Class Collaborators `{Opaque} := {
  (* valve_of *)
  ignore_port : Z -> bool;
  (* valve_packet *)
  mac_addr_is_unicast : mac -> bool;
  parse_packet_in_pkt : raw_data -> Z -> option ryu_pkt * option Z;
  parse_pkt : ryu_pkt -> ryu_eth_pkt;
  ip_header_len : Z -> Z;
  (* valve_acl *)
  build_acl_entry :
    rule_conf -> instruction -> dict string Meter ->
    option Z (* port_num *) -> option Z (* vlan_vid *) ->
    ofmatch * list instruction * list ofmsg;
  (* dp.groups, dp.shortest_path_port *)
  groups_delete_all : ofmsg;
  shortest_path_port : DP -> string -> option Z;
  (* Conf.__eq__ of ACL, VLAN and Port *)
  acl_eqb : ACL -> ACL -> bool;
  vlan_eqb : VLAN -> VLAN -> bool;
  port_eqb : Port -> Port -> bool;
  (* VLAN.merge_dyn: [merge_dyn new old] is new_vlan.merge_dyn(old_vlan) *)
  merge_dyn : VLAN -> VLAN -> VLAN;
  (* ValveFloodManager *)
  build_flood_rules : DP -> Z (* vid *) -> bool (* modify *) -> list ofmsg;
  (* ValveHostManager *)
  learn_host_on_vlan_port :
    Z (* now *) -> option Z (* port *) -> VLAN -> mac ->
    list ofmsg * dict mac HostCacheEntry;
  temp_ban_host_learning_on_port : Port -> ofmsg;
  temp_ban_host_learning_on_vlan : VLAN -> ofmsg;
  expire_hosts_from_vlan : VLAN -> Z -> dict mac HostCacheEntry;
  src_rule_expire : VLAN -> Z -> mac -> list ofmsg * dict mac HostCacheEntry;
  dst_rule_expire : VLAN -> mac -> list ofmsg * dict mac HostCacheEntry;
  (* ValveRouteManager, one per IP version [ipv] *)
  ETH_TYPE : Z -> Z;
  rm_control_plane_handler : Z -> PacketMeta -> VLAN -> list ofmsg * route_state;
  rm_add_host_fib_route_from_pkt :
    Z -> PacketMeta -> VLAN -> list ofmsg * route_state;
  rm_advertise : Z -> VLAN -> list ofmsg;
  rm_resolve_gateways : Z -> VLAN -> Z -> list ofmsg * route_state;
  rm_add_faucet_vip : Z -> VLAN -> vip -> list ofmsg * route_state;
  rm_add_route : Z -> VLAN -> string -> string -> list ofmsg * route_state;
  rm_del_route : Z -> VLAN -> string -> list ofmsg * route_state
}.

(** ** Exceptions and the monad of the methods *)

Inductive exn := KeyError | AssertionError.

Inductive result (A : Type) :=
| Ok (a : A)
| Raise (e : exn).
Arguments Ok {A} a.
Arguments Raise {A} e.

Section Monad.
Context `{Opaque}.

Definition M (A : Type) : Type := Valve -> result A * Valve.

Definition ret {A} (a : A) : M A := fun self => (Ok a, self).

Definition bind {A B} (m : M A) (k : A -> M B) : M B :=
  fun self =>
    match m self with
    | (Ok a, self') => k a self'
    | (Raise e, self') => (Raise e, self')
    end.

Definition raise {A} (e : exn) : M A := fun self => (Raise e, self).
Definition get_self : M Valve := fun self => (Ok self, self).
Definition modify (f : Valve -> Valve) : M unit := fun self => (Ok tt, f self).

(** [d[k]] on a dict: KeyError when the key is missing. *)
Definition subscript {A} (o : option A) : M A :=
  match o with Some a => ret a | None => raise KeyError end.

End Monad.

Notation "x <- m ;; k" := (bind m (fun x => k))
  (at level 61, m at next level, right associativity).
Notation "m ;;; k" := (bind m (fun _ => k))
  (at level 61, right associativity).
Notation "' pat <- m ;; k" := (bind m (fun x => match x with pat => k end))
  (at level 61, pat pattern, m at next level, right associativity).

Section Loops.
Context `{Opaque}.

(** [for x in xs: ofmsgs.extend(body(x))] *)
Fixpoint for_extend {X} (xs : list X) (body : X -> M (list ofmsg))
  : M (list ofmsg) :=
  match xs with
  | [] => ret []
  | x :: xs' =>
      ms <- body x ;;
      rest <- for_extend xs' body ;;
      ret (ms ++ rest)
  end.

(** [for x in xs: body(x)] for a body that only mutates. *)
Fixpoint for_each {X} (xs : list X) (body : X -> M unit) : M unit :=
  match xs with
  | [] => ret tt
  | x :: xs' => body x ;;; for_each xs' body
  end.

End Loops.

(** ** Methods of VLAN and Port used by the Valve *)

Section ConfMethods.
Context `{Opaque}.

(** Modelled from the spec: [Port.running()] is [phys_up] and configured
    (the port is enabled). *)
Definition port_running (p : Port) : bool := enabled p && phys_up p.

(** Modelled from the spec: [VLAN.get_ports()] is the tagged ports
    followed by the untagged ports. *)
Definition get_ports (v : VLAN) : list Z := tagged v ++ untagged v.

(** Modelled from the spec: [VLAN.mirror_destination_ports()] is the
    ports of the VLAN that are mirror destinations. *)
Definition mirror_destination_ports (d : DP) (v : VLAN) : list Z :=
  filter (fun n => match zget n (ports d) with
                   | Some p => mirror_destination p
                   | None => false
                   end) (get_ports v).

(** Modelled from the spec: [VLAN.faucet_vips_by_ipv(ipv)] is the VIPs of
    that IP version, [VLAN.ipvs()] the versions that have a VIP. *)
Definition faucet_vips_by_ipv (v : VLAN) (ipv : Z) : list vip :=
  filter (fun a => vip_version a =? ipv) (faucet_vips v).

Definition ipvs (v : VLAN) : list Z :=
  filter (fun ipv => nonempty (faucet_vips_by_ipv v ipv)) [4; 6].

(** Modelled from the spec: [hosts_learned_on_vlan_count(vlan)] of the
    host manager is the size of the host cache. *)
Definition hosts_learned_on_vlan_count (v : VLAN) : Z :=
  Z.of_nat (List.length (host_cache v)).

End ConfMethods.

(** ** class Valve *)

Definition BROADCAST_STR : mac := "ff:ff:ff:ff:ff:ff"%string.
Definition ETH_TYPE_LLDP : Z := 0x88cc.
Definition OFPVID_NONE : Z := 0.
Definition OFPVID_PRESENT : Z := 0x1000.
Definition OFPPR_ADD : Z := 0.
Definition OFPPR_DELETE : Z := 1.
Definition OFPPR_MODIFY : Z := 2.

(** [route_manager_by_ipv], keyed by the IP version. *)
Definition route_manager_by_ipv : list Z := [4; 6].

Section ValveMethods.
Context `{Collaborators}.

Definition the_vlan (k : Z) : M VLAN :=
  self <- get_self ;; subscript (zget k (vlans (dp self))).

Definition the_port (k : Z) : M Port :=
  self <- get_self ;; subscript (zget k (ports (dp self))).

Definition _ignore_dpid (self : Valve) (dp_id' : Z) : bool :=
  negb (dp_id' =? dp_id (dp self)).

Definition _delete_all_valve_flows (self : Valve) : list ofmsg :=
  flowdel (wildcard_table (dp self)) None None
  ++ (if nonempty (meters (dp self)) then [meterdel] else [])
  ++ (if group_table (dp self) then [groups_delete_all] else []).

Definition _delete_all_port_match_flows (self : Valve) (port : Port)
  : list ofmsg :=
  flat_map (fun t => flowdel t (match_in_port (number port)) None)
           (in_port_tables (dp self)).

Definition _add_default_drop_flows (self : Valve) : list ofmsg :=
  let d := dp self in
  let vlan_table := vlan_table (tables d) in
  (* default drop on all tables. *)
  map (fun t => flowdrop t None (lowest_priority d)) (all_valve_tables d)
  (* drop broadcast sources *)
  ++ (if drop_broadcast_source_address d
      then [flowdrop vlan_table (match_eth_src BROADCAST_STR)
                     (highest_priority d)]
      else [])
  (* antispoof for FAUCET's MAC address *)
  ++ (if drop_spoofed_faucet_mac d
      then map (fun vlan => flowdrop vlan_table
                              (match_eth_src (faucet_mac vlan))
                              (high_priority d))
               (dict_values (vlans d))
      else [])
  (* drop STP BPDU *)
  ++ (if drop_bpdu d
      then map (fun bpdu_mac => flowdrop vlan_table (match_eth_dst bpdu_mac)
                                  (highest_priority d))
               ["01:80:C2:00:00:00"%string; "01:00:0C:CC:CC:CD"%string]
      else [])
  (* drop LLDP, if configured to. *)
  ++ (if drop_lldp d
      then [flowdrop vlan_table (match_eth_type ETH_TYPE_LLDP)
                     (highest_priority d)]
      else []).

(** The loop over the rules of an ACL, shared by [_add_vlan_acl] and
    [_port_add_acl]; [acl_rule_priority] is decremented after each rule. *)
Fixpoint acl_rule_flows (d : DP) (acl_table : table)
  (acl_allow_inst : instruction) (port_num vlan_vid : option Z)
  (rule_confs : list rule_conf) (acl_rule_priority : Z) : list ofmsg :=
  match rule_confs with
  | [] => []
  | rule_conf :: rest =>
      let '(acl_match, acl_inst, acl_ofmsgs) :=
        build_acl_entry rule_conf acl_allow_inst (meters d) port_num vlan_vid in
      acl_ofmsgs
      ++ [flowmod acl_table (Some acl_match) acl_rule_priority acl_inst]
      ++ acl_rule_flows d acl_table acl_allow_inst port_num vlan_vid rest
           (acl_rule_priority - 1)
  end.

Definition _add_vlan_acl (vid : Z) : M (list ofmsg) :=
  self <- get_self ;;
  let d := dp self in
  match zget vid (vlan_acl_in d) with
  | Some acl_num =>
      acl <- subscript (zget acl_num (acls d)) ;;
      ret (acl_rule_flows d (vlan_acl_table (tables d))
             (goto_table (eth_src_table (tables d))) None (Some vid)
             (rules acl) (highest_priority d))
  | None => ret []
  end.

Definition _add_vlan_flood_flow (self : Valve) : list ofmsg :=
  [flowmod (eth_dst_table (tables (dp self))) None (low_priority (dp self))
           [goto_table (flood_table (tables (dp self)))]].

Definition _add_controller_learn_flow (self : Valve) : list ofmsg :=
  [flowcontroller (eth_src_table (tables (dp self))) (low_priority (dp self))
                  [goto_table (eth_dst_table (tables (dp self)))]].

Definition _add_packetin_meter (self : Valve) : list ofmsg :=
  if truthy (packetin_pps (dp self))
  then [controller_pps_meterdel;
        controller_pps_meteradd (packetin_pps (dp self))]
  else [].

Definition _add_default_flows (self : Valve) : list ofmsg :=
  _delete_all_valve_flows self
  ++ _add_packetin_meter self
  ++ (if nonempty (meters (dp self))
      then map (fun meter => entry_msg meter) (dict_values (meters (dp self)))
      else [])
  ++ _add_default_drop_flows self
  ++ _add_vlan_flood_flow self.

Definition _add_faucet_vips (ipv : Z) (vlan_key : Z) (faucet_vips : list vip)
  : M (list ofmsg) :=
  for_extend faucet_vips (fun faucet_vip =>
    self <- get_self ;;
    if is_some (stack (dp self)) then raise AssertionError else
    vlan <- the_vlan vlan_key ;;
    let '(ofmsgs, rs) := rm_add_faucet_vip ipv vlan faucet_vip in
    modify (put_vlan vlan_key (set_vlan_route_state rs vlan)) ;;;
    modify (set_L3 true) ;;;
    ret ofmsgs).

Definition _add_vlan (vlan_key : Z) (all_port_nums : list Z)
  : M (list ofmsg * list Z) :=
  vlan <- the_vlan vlan_key ;;
  self <- get_self ;;
  let all_port_nums := set_add_all Z.eqb (get_ports vlan) all_port_nums in
  (* add mirror destination ports. *)
  let all_port_nums :=
    set_add_all Z.eqb (mirror_destination_ports (dp self) vlan) all_port_nums in
  (* install eth_dst_table flood ofmsgs *)
  let flood := build_flood_rules (dp self) (vid vlan) false in
  (* add acl rules *)
  acl <- _add_vlan_acl (vid vlan) ;;
  (* add controller IPs if configured. *)
  vips <- for_extend (ipvs vlan) (fun ipv =>
            _add_faucet_vips ipv vlan_key (faucet_vips_by_ipv vlan ipv)) ;;
  ret (flood ++ acl ++ vips, all_port_nums).

Definition _del_vlan (self : Valve) (vlan : VLAN) : list ofmsg :=
  let vlan_table := vlan_table (tables (dp self)) in
  flat_map (fun t => if negb (table_eqb t vlan_table)
                     then flowdel t (match_vlan (vid vlan)) None
                     else [])
           (vlan_match_tables (dp self)).

Definition _port_add_acl (port_num : Z) (cold_start : bool) : M (list ofmsg) :=
  self <- get_self ;;
  let d := dp self in
  let port_acl_table := port_acl_table (tables d) in
  let in_port_match := match_in_port port_num in
  let del := if cold_start then flowdel port_acl_table in_port_match None
             else [] in
  let acl_allow_inst := goto_table (vlan_table (tables d)) in
  match zget port_num (port_acl_in d) with
  | Some acl_num =>
      acl <- subscript (zget acl_num (acls d)) ;;
      ret (del ++ acl_rule_flows d port_acl_table acl_allow_inst
                    (Some port_num) None (rules acl) (highest_priority d))
  | None =>
      ret (del ++ [flowmod port_acl_table in_port_match (highest_priority d)
                           [acl_allow_inst]])
  end.

Definition _port_add_vlan_rules (self : Valve) (port : Port) (vlan_vid : Z)
  (vlan_inst : list instruction) : list ofmsg :=
  [flowmod (vlan_table (tables (dp self)))
           (match_in_port_vlan (number port) vlan_vid)
           (low_priority (dp self)) vlan_inst].

Definition _port_add_vlan_untagged (self : Valve) (port : Port) (vlan : Z)
  (forwarding_table : table) (mirror_act : list action) : list ofmsg :=
  let push_vlan_act := mirror_act ++ push_vlan_act vlan in
  let push_vlan_inst :=
    [apply_actions push_vlan_act; goto_table forwarding_table] in
  _port_add_vlan_rules self port OFPVID_NONE push_vlan_inst.

Definition _port_add_vlan_tagged (self : Valve) (port : Port) (vlan : Z)
  (forwarding_table : table) (mirror_act : list action) : list ofmsg :=
  let vlan_inst := [goto_table forwarding_table] in
  let vlan_inst := if nonempty mirror_act
                   then [apply_actions mirror_act] ++ vlan_inst
                   else vlan_inst in
  _port_add_vlan_rules self port vlan vlan_inst.

Definition _find_forwarding_table (self : Valve) (vlan : Z) : table :=
  if zmem vlan (vlan_acl_in (dp self))
  then vlan_acl_table (tables (dp self))
  else eth_src_table (tables (dp self)).

Definition _port_add_vlans (self : Valve) (port : Port)
  (mirror_act : list action)
  (tagged_vlans_with_port untagged_vlans_with_port : list Z) : list ofmsg :=
  flat_map (fun vlan => _port_add_vlan_tagged self port vlan
                          (_find_forwarding_table self vlan) mirror_act)
           tagged_vlans_with_port
  ++ flat_map (fun vlan => _port_add_vlan_untagged self port vlan
                             (_find_forwarding_table self vlan) mirror_act)
              untagged_vlans_with_port.

Definition _get_eth_srcs_learned_on_port (d : DP) (port_no : Z) : list mac :=
  match zget port_no (ports d) with
  | Some port =>
      flat_map
        (fun vlan =>
           match vlan with
           | None => []
           | Some vid =>
               match zget vid (vlans d) with
               | Some vlan =>
                   map fst (filter (fun item => hce_port (snd item) =? port_no)
                                   (host_cache vlan))
               | None => []
               end
           end)
        (native_vlan port :: map Some (tagged_vlans port))
  | None => []
  end.

Definition _port_delete_flows (self : Valve) (port : Port)
  (old_eth_srcs : list mac) : list ofmsg :=
  _delete_all_port_match_flows self port
  ++ flowdel (eth_dst_table (tables (dp self))) None (Some (number port))
  ++ (if permanent_learn port
      then flat_map (fun eth_src =>
                       flowdel (eth_src_table (tables (dp self)))
                               (match_eth_src eth_src) None)
                    old_eth_srcs
      else []).

(** The body of the loop of [ports_add]; [vlans_with_ports_added] is
    threaded through. *)
Definition ports_add_port (port_num : Z) (vlans_with_ports_added : list Z)
  : M (list ofmsg * list Z) :=
  self <- get_self ;;
  if ignore_port port_num then ret ([], vlans_with_ports_added) else
  match zget port_num (ports (dp self)) with
  | None => ret ([], vlans_with_ports_added)
  | Some port0 =>
      let port := set_phys_up true port0 in
      modify (put_port port_num port) ;;;
      if negb (port_running port) then ret ([], vlans_with_ports_added) else
      self <- get_self ;;
      let d := dp self in
      let vlan_table := vlan_table (tables d) in
      (* Port is a mirror destination; drop all input packets *)
      if mirror_destination port
      then ret ([flowdrop vlan_table (match_in_port port_num)
                          (highest_priority d)],
                vlans_with_ports_added)
      else
      (* Add ACL if any. *)
      acl_ofmsgs <- _port_add_acl port_num false ;;
      let tagged_vlans_with_port := tagged_vlans port in
      let untagged_vlans_with_port :=
        match native_vlan port with Some vlan => [vlan] | None => [] end in
      let port_vlans := tagged_vlans_with_port ++ untagged_vlans_with_port in
      let '(ofmsgs, port_vlans) :=
        (* If this is a stacking port, accept all VLANs *)
        if is_some (port_stack port)
        then ([flowmod vlan_table (match_in_port port_num) (low_priority d)
                       [goto_table (eth_src_table (tables d))]],
              map (fun vlan => vid vlan) (dict_values (vlans d)))
        else
          let mirror_act :=
            match mirror port with
            | Some m => if truthy m then [output_port m] else []
            | None => []
            end in
          (_port_add_vlans self port mirror_act
             tagged_vlans_with_port untagged_vlans_with_port,
           port_vlans) in
      ret (acl_ofmsgs ++ ofmsgs,
           set_add_all Z.eqb port_vlans vlans_with_ports_added)
  end.

Fixpoint ports_add_loop (port_nums : list Z) (vlans_with_ports_added : list Z)
  : M (list ofmsg * list Z) :=
  match port_nums with
  | [] => ret ([], vlans_with_ports_added)
  | port_num :: rest =>
      '(ofmsgs, vlans) <- ports_add_port port_num vlans_with_ports_added ;;
      '(ofmsgs', vlans') <- ports_add_loop rest vlans ;;
      ret (ofmsgs ++ ofmsgs', vlans')
  end.

Definition ports_add (dp_id : Z) (port_nums : list Z) (cold_start : bool)
  : M (list ofmsg) :=
  self <- get_self ;;
  if _ignore_dpid self dp_id then ret [] else
  '(ofmsgs, vlans_with_ports_added) <- ports_add_loop port_nums [] ;;
  self <- get_self ;;
  (* Only update flooding rules if not cold starting. *)
  ret (ofmsgs ++
       if cold_start then []
       else flat_map (fun vlan => build_flood_rules (dp self) vlan false)
                     vlans_with_ports_added).

Definition port_add (dp_id : Z) (port_num : Z) : M (list ofmsg) :=
  ports_add dp_id [port_num] false.

Definition ports_delete_port (port_num : Z) (vlans_with_deleted_ports : list Z)
  : M (list ofmsg * list Z) :=
  self <- get_self ;;
  if ignore_port port_num then ret ([], vlans_with_deleted_ports) else
  match zget port_num (ports (dp self)) with
  | None => ret ([], vlans_with_deleted_ports)
  | Some port0 =>
      let port := set_phys_up false port0 in
      modify (put_port port_num port) ;;;
      self <- get_self ;;
      let ofmsgs :=
        _port_delete_flows self port
          (_get_eth_srcs_learned_on_port (dp self) (number port)) in
      let untagged_vlans_with_port :=
        match native_vlan port with Some vlan => [vlan] | None => [] end in
      let port_vlans := tagged_vlans port ++ untagged_vlans_with_port in
      ret (ofmsgs, set_add_all Z.eqb port_vlans vlans_with_deleted_ports)
  end.

Fixpoint ports_delete_loop (port_nums : list Z)
  (vlans_with_deleted_ports : list Z) : M (list ofmsg * list Z) :=
  match port_nums with
  | [] => ret ([], vlans_with_deleted_ports)
  | port_num :: rest =>
      '(ofmsgs, vlans) <- ports_delete_port port_num vlans_with_deleted_ports ;;
      '(ofmsgs', vlans') <- ports_delete_loop rest vlans ;;
      ret (ofmsgs ++ ofmsgs', vlans')
  end.

Definition ports_delete (dp_id : Z) (port_nums : list Z) : M (list ofmsg) :=
  self <- get_self ;;
  if _ignore_dpid self dp_id then ret [] else
  '(ofmsgs, vlans_with_deleted_ports) <- ports_delete_loop port_nums [] ;;
  self <- get_self ;;
  ret (ofmsgs ++
       flat_map (fun vlan => build_flood_rules (dp self) vlan true)
                vlans_with_deleted_ports).

Definition port_delete (dp_id : Z) (port_num : Z) : M (list ofmsg) :=
  ports_delete dp_id [port_num].

(** The loop over the VLANs in [_add_ports_and_vlans]; [all_port_nums] is
    threaded through. *)
Fixpoint add_vlans_loop (vlan_keys : list Z) (all_port_nums : list Z)
  : M (list ofmsg * list Z) :=
  match vlan_keys with
  | [] => ret ([], all_port_nums)
  | k :: rest =>
      '(ofmsgs, all_port_nums) <- _add_vlan k all_port_nums ;;
      '(ofmsgs', all_port_nums) <- add_vlans_loop rest all_port_nums ;;
      ret (ofmsgs ++ ofmsgs', all_port_nums)
  end.

Definition _add_ports_and_vlans (discovered_port_nums : list Z)
  : M (list ofmsg) :=
  self <- get_self ;;
  (* add stack ports *)
  let all_port_nums := set_add_all Z.eqb (stack_ports (dp self)) [] in
  (* add vlan ports *)
  '(ofmsgs, all_port_nums) <-
     add_vlans_loop (dict_keys (vlans (dp self))) all_port_nums ;;
  (* add any ports discovered but not configured *)
  let all_port_nums :=
    fold_left (fun acc port_num =>
                 if ignore_port port_num then acc
                 else if negb (set_mem Z.eqb port_num acc)
                      then set_add Z.eqb port_num acc
                      else acc)
              discovered_port_nums all_port_nums in
  (* now configure all ports *)
  self <- get_self ;;
  ofmsgs' <- ports_add (dp_id (dp self)) all_port_nums true ;;
  ret (ofmsgs ++ ofmsgs').

Definition port_status_handler (dp_id : Z) (port_no : Z) (reason : Z)
  (port_status : bool) : M (list ofmsg) :=
  if reason =? OFPPR_ADD then port_add dp_id port_no
  else if reason =? OFPPR_DELETE then port_delete dp_id port_no
  else if reason =? OFPPR_MODIFY then
    ofmsgs <- port_delete dp_id port_no ;;
    ofmsgs' <- (if port_status then port_add dp_id port_no else ret []) ;;
    ret (ofmsgs ++ ofmsgs')
  else ret [].

Definition advertise (now : Z) : M (list ofmsg) :=
  self <- get_self ;;
  let d := dp self in
  if truthy (advertise_interval d)
     && (now - _last_advertise_sec self >? advertise_interval d)
  then
    let ofmsgs :=
      flat_map (fun vlan =>
                  flat_map (fun ipv => rm_advertise ipv vlan)
                           route_manager_by_ipv)
               (dict_values (vlans d)) in
    modify (set_last_advertise_sec now) ;;;
    ret ofmsgs
  else ret [].

Definition datapath_connect (dp_id : Z) (discovered_up_port_nums : list Z)
  : M (list ofmsg) :=
  self <- get_self ;;
  if _ignore_dpid self dp_id then ret [] else
  let ofmsgs := _add_default_flows self in
  ofmsgs' <- _add_ports_and_vlans discovered_up_port_nums ;;
  self <- get_self ;;
  let ofmsgs'' := _add_controller_learn_flow self in
  modify (fun self => set_dp (set_running true (dp self)) self) ;;;
  ret (ofmsgs ++ ofmsgs' ++ ofmsgs'').

Definition datapath_disconnect (dp_id : Z) : M unit :=
  self <- get_self ;;
  if negb (_ignore_dpid self dp_id)
  then modify (fun self => set_dp (set_running false (dp self)) self)
  else ret tt.

End ValveMethods.

(** ** class PacketMeta *)

Section PacketMetaMethods.
Context `{Collaborators}.

Definition set_pkt (pkt : ryu_pkt) (eth_pkt : ryu_eth_pkt) (pm : PacketMeta)
  : PacketMeta :=
  {| pm_data := pm_data pm; pm_pkt := pkt; pm_eth_pkt := eth_pkt;
     pm_port := pm_port pm; pm_vlan := pm_vlan pm;
     pm_eth_src := pm_eth_src pm; pm_eth_dst := pm_eth_dst pm |}.

Definition reparse (pm : PacketMeta) (max_len : Z) : PacketMeta :=
  match parse_packet_in_pkt (pm_data pm) max_len with
  | (Some pkt, Some _) => set_pkt pkt (parse_pkt pkt) pm
  | _ => pm
  end.

Definition reparse_all (pm : PacketMeta) : PacketMeta := reparse pm 0.

(** [ip_header_len eth_type] is the length of the serialized header that
    [valve_packet.build_pkt_header] builds for [eth_type]. *)
Definition reparse_ip (pm : PacketMeta) (eth_type : Z) (payload : Z)
  : PacketMeta :=
  reparse pm (ip_header_len eth_type + payload).

End PacketMetaMethods.

(** ** class Valve, continued: packets from the dataplane *)

Section ValvePackets.
Context `{Collaborators}.

(** The loop of [control_plane_handler]: the first route manager that
    returns messages ends it.  The packet is reparsed in place. *)
Fixpoint control_plane_loop (ipvs : list Z) (pkt_meta : PacketMeta)
  : M (list ofmsg * PacketMeta) :=
  match ipvs with
  | [] => ret ([], pkt_meta)
  | ipv :: rest =>
      let pkt_meta := reparse_ip pkt_meta (ETH_TYPE ipv) 0 in
      vlan <- the_vlan (pm_vlan pkt_meta) ;;
      let '(ofmsgs, rs) := rm_control_plane_handler ipv pkt_meta vlan in
      modify (put_vlan (pm_vlan pkt_meta) (set_vlan_route_state rs vlan)) ;;;
      if nonempty ofmsgs then ret (ofmsgs, pkt_meta)
      else control_plane_loop rest pkt_meta
  end.

Definition control_plane_handler (pkt_meta : PacketMeta)
  : M (list ofmsg * PacketMeta) :=
  vlan <- the_vlan (pm_vlan pkt_meta) ;;
  if String.eqb (pm_eth_dst pkt_meta) (faucet_mac vlan)
     || negb (mac_addr_is_unicast (pm_eth_dst pkt_meta))
  then control_plane_loop route_manager_by_ipv pkt_meta
  else ret ([], pkt_meta).

Definition _known_up_dpid_and_port (self : Valve) (dp_id : Z) (in_port : Z)
  : bool :=
  negb (_ignore_dpid self dp_id) && negb (ignore_port in_port)
  && running (dp self) && zmem in_port (ports (dp self)).

Definition _rate_limit_packet_ins (now_sec : Z) : M bool :=
  self <- get_self ;;
  (if negb (_last_packet_in_sec self =? now_sec)
   then modify (set_packet_in 0 now_sec)
   else ret tt) ;;;
  modify (fun self =>
            set_packet_in (_packet_in_count_sec self + 1)
                          (_last_packet_in_sec self) self) ;;;
  self <- get_self ;;
  if truthy (ignore_learn_ins (dp self))
  then if _packet_in_count_sec self mod ignore_learn_ins (dp self) =? 0
       then ret true
       else ret false
  else ret false.

(** [valves] is the dict of all Valves by datapath ID. *)
Fixpoint _edge_dp_for_host (valves : dict Z Valve) (dp_id : Z)
  (pkt_meta : PacketMeta) : result (option DP) :=
  let eth_src := pm_eth_src pkt_meta in
  let vlan_vid := pm_vlan pkt_meta in
  match valves with
  | [] => Ok None
  | (other_dpid, other_valve) :: rest =>
      if other_dpid =? dp_id then _edge_dp_for_host rest dp_id pkt_meta else
      let other_dp := dp other_valve in
      match zget vlan_vid (vlans other_dp) with
      | None => Raise KeyError
      | Some other_vlan =>
          let other_dp_host_cache := host_cache other_vlan in
          match mget eth_src other_dp_host_cache with
          | Some host =>
              if hce_edge host then Ok (Some other_dp)
              else _edge_dp_for_host rest dp_id pkt_meta
          | None => _edge_dp_for_host rest dp_id pkt_meta
          end
      end
  end.

Definition _learn_host (now : Z) (valves : dict Z Valve) (dp_id : Z)
  (pkt_meta : PacketMeta) : M (list ofmsg) :=
  port <- the_port (pm_port pkt_meta) ;;
  let learn here (learn_port : option Z) : M (list ofmsg) :=
    vlan <- the_vlan (pm_vlan pkt_meta) ;;
    let '(ofmsgs, hc) :=
      learn_host_on_vlan_port here learn_port vlan (pm_eth_src pkt_meta) in
    modify (put_vlan (pm_vlan pkt_meta) (set_host_cache hc vlan)) ;;;
    ret ofmsgs in
  if is_some (port_stack port) then
    match _edge_dp_for_host valves dp_id pkt_meta with
    | Raise e => raise e
    (* No edge DP may have learned this host yet. *)
    | Ok None => ret []
    | Ok (Some edge_dp) =>
        self <- get_self ;;
        learn now (shortest_path_port (dp self) (name edge_dp))
    end
  else learn now (Some (number port)).

Definition parse_rcv_packet (in_port : Z) (vlan_vid : Z) (data : raw_data)
  (pkt : ryu_pkt) (eth_src eth_dst : mac) : M PacketMeta :=
  let eth_pkt := parse_pkt pkt in
  vlan <- the_vlan vlan_vid ;;
  port <- the_port in_port ;;
  ret {| pm_data := data; pm_pkt := pkt; pm_eth_pkt := eth_pkt;
         pm_port := number port; pm_vlan := vid vlan;
         pm_eth_src := eth_src; pm_eth_dst := eth_dst |}.

Definition _port_learn_ban_rules (pkt_meta : PacketMeta) : M (list ofmsg) :=
  port <- the_port (pm_port pkt_meta) ;;
  self <- get_self ;;
  let old_eth_srcs := _get_eth_srcs_learned_on_port (dp self) (number port) in
  dp_port <- the_port (number port) ;;
  if match port_max_hosts dp_port with
     | Some max_hosts => Z.of_nat (List.length old_eth_srcs) =? max_hosts
     | None => false
     end
  then
    let ofmsgs := [temp_ban_host_learning_on_port port] in
    modify (put_port (pm_port pkt_meta)
              (set_port_learn_ban_count (port_learn_ban_count port + 1) port)) ;;;
    ret ofmsgs
  else ret [].

Definition _vlan_learn_ban_rules (pkt_meta : PacketMeta) : M (list ofmsg) :=
  vlan <- the_vlan (pm_vlan pkt_meta) ;;
  let eth_src := pm_eth_src pkt_meta in
  let hosts_count := hosts_learned_on_vlan_count vlan in
  if match vlan_max_hosts vlan with
     | Some max_hosts =>
         (hosts_count =? max_hosts) && negb (mmem eth_src (host_cache vlan))
     | None => false
     end
  then
    let ofmsgs := [temp_ban_host_learning_on_vlan vlan] in
    modify (put_vlan (pm_vlan pkt_meta)
              (set_vlan_learn_ban_count (vlan_learn_ban_count vlan + 1) vlan)) ;;;
    ret ofmsgs
  else ret [].

(** The loop that adds FIB entries at the end of [rcv_packet]. *)
Definition add_host_fib_routes (pkt_meta : PacketMeta) : M (list ofmsg) :=
  for_extend route_manager_by_ipv (fun ipv =>
    vlan <- the_vlan (pm_vlan pkt_meta) ;;
    let '(ofmsgs, rs) := rm_add_host_fib_route_from_pkt ipv pkt_meta vlan in
    modify (put_vlan (pm_vlan pkt_meta) (set_vlan_route_state rs vlan)) ;;;
    ret ofmsgs).

(** The first block of [rcv_packet]: the control plane sees the packet
    when the source is unicast and routing is on.  Returns
    [control_plane_handled], the messages and the reparsed packet. *)
Definition rcv_control_plane (pkt_meta : PacketMeta)
  : M (bool * list ofmsg * PacketMeta) :=
  self <- get_self ;;
  if mac_addr_is_unicast (pm_eth_src pkt_meta) then
    if L3 self then
      '(control_plane_ofmsgs, pkt_meta) <- control_plane_handler pkt_meta ;;
      if nonempty control_plane_ofmsgs
      then ret (true, control_plane_ofmsgs, pkt_meta)
      else ret (false, [], pkt_meta)
    else ret (false, [], pkt_meta)
  else ret (false, [], pkt_meta).

(** What [rcv_packet] does once neither ban applies: learn the host, then
    add FIB entries if routing is active and the control plane did not
    handle the packet. *)
Definition rcv_learn (now : Z) (valves : dict Z Valve) (dp_id : Z)
  (pkt_meta : PacketMeta) (control_plane_handled : bool)
  (ofmsgs : list ofmsg) : M (list ofmsg) :=
  learn <- _learn_host now valves dp_id pkt_meta ;;
  self <- get_self ;;
  fib <- (if L3 self && negb control_plane_handled
          then add_host_fib_routes pkt_meta
          else ret []) ;;
  ret (ofmsgs ++ learn ++ fib).

(** The part of [rcv_packet] after the rate limit: the port learn ban,
    then the VLAN learn ban, then learning. *)
Definition rcv_bans_and_learn (now : Z) (valves : dict Z Valve) (dp_id : Z)
  (pkt_meta : PacketMeta) (control_plane_handled : bool)
  (ofmsgs : list ofmsg) : M (list ofmsg) :=
  ban_port_rules <- _port_learn_ban_rules pkt_meta ;;
  if nonempty ban_port_rules then ret (ofmsgs ++ ban_port_rules) else
  ban_vlan_rules <- _vlan_learn_ban_rules pkt_meta ;;
  if nonempty ban_vlan_rules then ret (ofmsgs ++ ban_vlan_rules) else
  rcv_learn now valves dp_id pkt_meta control_plane_handled ofmsgs.

Definition rcv_packet (now : Z) (dp_id : Z) (valves : dict Z Valve)
  (pkt_meta : PacketMeta) : M (list ofmsg) :=
  self <- get_self ;;
  if negb (_known_up_dpid_and_port self dp_id (pm_port pkt_meta))
  then ret [] else
  if negb (zmem (pm_vlan pkt_meta) (vlans (dp self))) then ret [] else
  '(control_plane_handled, ofmsgs, pkt_meta) <- rcv_control_plane pkt_meta ;;
  limited <- _rate_limit_packet_ins now ;;
  if limited then ret ofmsgs else
  rcv_bans_and_learn now valves dp_id pkt_meta control_plane_handled ofmsgs.

Definition host_expire (now : Z) : M unit :=
  self <- get_self ;;
  if negb (running (dp self)) then ret tt else
  for_each (dict_keys (vlans (dp self))) (fun k =>
    vlan <- the_vlan k ;;
    modify (put_vlan k (set_host_cache (expire_hosts_from_vlan vlan now) vlan))).

Definition resolve_gateways (now : Z) : M (list ofmsg) :=
  self <- get_self ;;
  if negb (running (dp self)) then ret [] else
  for_extend (dict_keys (vlans (dp self))) (fun k =>
    for_extend route_manager_by_ipv (fun ipv =>
      vlan <- the_vlan k ;;
      let '(ofmsgs, rs) := rm_resolve_gateways ipv vlan now in
      modify (put_vlan k (set_vlan_route_state rs vlan)) ;;;
      ret ofmsgs)).

End ValvePackets.

(** ** class Valve, continued: configuration reload *)

(** The fields of an OFPMatch that [flow_timeout] looks at. *)
Inductive oxm_field :=
| oxm_eth_src (value : mac)
| oxm_eth_dst (value : mac)
| oxm_vlan_vid (value : Z)
| oxm_in_port (value : Z)
| oxm_other (field : string).

Section ValveReload.
Context `{Collaborators}.

Definition _get_acl_config_changes (self : Valve) (new_dp : DP) : dict Z ACL :=
  fold_left
    (fun changed_acls item =>
       let '(acl_id, new_acl) := item in
       match zget acl_id (acls (dp self)) with
       | None => zset acl_id new_acl changed_acls
       | Some old_acl =>
           if negb (acl_eqb new_acl old_acl)
           then zset acl_id new_acl changed_acls
           else changed_acls
       end)
    (acls new_dp) [].

(** The second loop of [_get_vlan_config_changes], over the items of
    [new_dp.vlans]: returns [changed_vlans] and the VLANs of [new_dp],
    the unchanged ones after [merge_dyn]. *)
Fixpoint vlan_changes_loop (self : Valve) (items : list (Z * VLAN))
  (changed_vlans : list Z) : list Z * dict Z VLAN :=
  match items with
  | [] => (changed_vlans, [])
  | (vid, new_vlan) :: rest =>
      let '(changed_vlans, new_vlan) :=
        match zget vid (vlans (dp self)) with
        | None => (set_add Z.eqb vid changed_vlans, new_vlan)
        | Some old_vlan =>
            if negb (vlan_eqb old_vlan new_vlan) then
              let old_vlan_new_ports :=
                set_tagged_untagged (tagged new_vlan) (untagged new_vlan)
                                    old_vlan in
              if negb (vlan_eqb old_vlan_new_ports new_vlan)
              then (set_add Z.eqb vid changed_vlans, new_vlan)
              else (changed_vlans, new_vlan)
            else
              (* Preserve current VLAN including current dynamic state *)
              (changed_vlans, merge_dyn new_vlan old_vlan)
        end in
      let '(changed_vlans, rest') := vlan_changes_loop self rest changed_vlans in
      (changed_vlans, (vid, new_vlan) :: rest')
  end.

(** Returns [(deleted_vlans, changed_vlans)] and [new_dp] as the method
    leaves it. *)
Definition _get_vlan_config_changes (self : Valve) (new_dp : DP)
  : list Z * list Z * DP :=
  let deleted_vlans :=
    fold_left (fun acc vid => if negb (zmem vid (vlans new_dp))
                              then set_add Z.eqb vid acc else acc)
              (dict_keys (vlans (dp self))) [] in
  let '(changed_vlans, new_vlans) :=
    vlan_changes_loop self (vlans new_dp) [] in
  (deleted_vlans, changed_vlans, set_vlans new_vlans new_dp).

(** Returns [(all_ports_changed, deleted_ports, changed_ports,
    changed_acl_ports)]. *)
Definition _get_port_config_changes (self : Valve) (new_dp : DP)
  (changed_vlans : list Z) (changed_acls : dict Z ACL)
  : bool * list Z * list Z * list Z :=
  let '(changed_ports, changed_acl_ports) :=
    fold_left
      (fun acc item =>
         let '(changed_ports, changed_acl_ports) := acc in
         let '(port_no, new_port) := item in
         match zget port_no (ports (dp self)) with
         | None =>
             (* Detected a newly configured port *)
             (set_add Z.eqb port_no changed_ports, changed_acl_ports)
         | Some old_port =>
             (* An existing port has configs changed *)
             if negb (port_eqb new_port old_port) then
               let old_port_ignore_acl := set_acl_in (acl_in new_port) old_port in
               (* Did config other than ACL change *)
               if negb (port_eqb new_port old_port_ignore_acl)
               then (set_add Z.eqb port_no changed_ports, changed_acl_ports)
               else (changed_ports, set_add Z.eqb port_no changed_acl_ports)
             else if match acl_in new_port with
                     | Some a => zmem a changed_acls
                     | None => false
                     end
             then (changed_ports, set_add Z.eqb port_no changed_acl_ports)
             else (changed_ports, changed_acl_ports)
         end)
      (ports new_dp) ([], []) in
  let changed_ports :=
    fold_left
      (fun acc vid =>
         match zget vid (vlans new_dp) with
         | Some vlan => set_add_all Z.eqb (get_ports vlan) acc
         | None => acc
         end)
      changed_vlans changed_ports in
  let deleted_ports :=
    fold_left (fun acc port_no => if negb (zmem port_no (ports new_dp))
                                  then set_add Z.eqb port_no acc else acc)
              (dict_keys (ports (dp self))) [] in
  let all_ports_changed :=
    set_eqb Z.eqb changed_ports (set_of_list Z.eqb (dict_keys (ports new_dp))) in
  (all_ports_changed, deleted_ports, changed_ports, changed_acl_ports).

Record changes := {
  deleted_ports : list Z;
  changed_ports : list Z;
  changed_acl_ports : list Z;
  deleted_vlans : list Z;
  changed_vlans : list Z;
  all_ports_changed : bool
}.

(** Returns the tuple of changes and [new_dp] as the diff leaves it. *)
Definition _get_config_changes (self : Valve) (new_dp : DP) : changes * DP :=
  let changed_acls := _get_acl_config_changes self new_dp in
  let '(deleted_vlans, changed_vlans, new_dp) :=
    _get_vlan_config_changes self new_dp in
  let '(all_ports_changed, deleted_ports, changed_ports, changed_acl_ports) :=
    _get_port_config_changes self new_dp changed_vlans changed_acls in
  ({| deleted_ports := deleted_ports; changed_ports := changed_ports;
      changed_acl_ports := changed_acl_ports; deleted_vlans := deleted_vlans;
      changed_vlans := changed_vlans;
      all_ports_changed := all_ports_changed |}, new_dp).

(** [for vid in changed_vlans]: delete the VLAN, then add it. *)
Definition readd_vlan (vid : Z) : M (list ofmsg) :=
  vlan <- the_vlan vid ;;
  self <- get_self ;;
  let del := _del_vlan self vlan in
  '(add, _) <- _add_vlan vid [] ;;
  ret (del ++ add).

Definition _apply_config_changes (new_dp : DP) (c : changes)
  : M (bool * list ofmsg) :=
  let new_dp := set_running true new_dp in
  if all_ports_changed c then
    modify (set_dp new_dp) ;;;
    self <- get_self ;;
    ofmsgs <- datapath_connect (dp_id (dp self)) (changed_ports c) ;;
    ret (true, ofmsgs)
  else
    self <- get_self ;;
    m1 <- (if nonempty (deleted_ports c)
           then ports_delete (dp_id (dp self)) (deleted_ports c)
           else ret []) ;;
    m2 <- (if nonempty (deleted_vlans c)
           then for_extend (deleted_vlans c) (fun vid =>
                  vlan <- the_vlan vid ;;
                  self <- get_self ;;
                  ret (_del_vlan self vlan))
           else ret []) ;;
    self <- get_self ;;
    m3 <- (if nonempty (changed_ports c)
           then ports_delete (dp_id (dp self)) (changed_ports c)
           else ret []) ;;
    modify (set_dp new_dp) ;;;
    m4 <- (if nonempty (changed_vlans c)
           then for_extend (changed_vlans c) readd_vlan
           else ret []) ;;
    self <- get_self ;;
    m5 <- (if nonempty (changed_ports c)
           then ports_add (dp_id (dp self)) (changed_ports c) false
           else ret []) ;;
    m6 <- (if nonempty (changed_acl_ports c)
           then for_extend (changed_acl_ports c) (fun port =>
                  _port_add_acl port true)
           else ret []) ;;
    ret (false, m1 ++ m2 ++ m3 ++ m4 ++ m5 ++ m6).

Definition reload_config (new_dp : DP) : M (bool * list ofmsg) :=
  self <- get_self ;;
  if running (dp self) then
    let '(c, new_dp) := _get_config_changes self new_dp in
    _apply_config_changes new_dp c
  else ret (false, []).

(** [ipv] is [ip_dst.version]. *)
Definition add_route (vlan_key : Z) (ipv : Z) (ip_gw ip_dst : string)
  : M (list ofmsg) :=
  if negb (set_mem Z.eqb ipv route_manager_by_ipv) then raise KeyError else
  vlan <- the_vlan vlan_key ;;
  let '(ofmsgs, rs) := rm_add_route ipv vlan ip_gw ip_dst in
  modify (put_vlan vlan_key (set_vlan_route_state rs vlan)) ;;;
  ret ofmsgs.

Definition del_route (vlan_key : Z) (ipv : Z) (ip_dst : string)
  : M (list ofmsg) :=
  if negb (set_mem Z.eqb ipv route_manager_by_ipv) then raise KeyError else
  vlan <- the_vlan vlan_key ;;
  let '(ofmsgs, rs) := rm_del_route ipv vlan ip_dst in
  modify (put_vlan vlan_key (set_vlan_route_state rs vlan)) ;;;
  ret ofmsgs.

(** The four variables the loop of [flow_timeout] assigns:
    [(in_port, eth_src, eth_dst, vid)]. *)
Definition flow_timeout_fields (match_oxm_fields : list oxm_field)
  : option Z * option mac * option mac * option Z :=
  fold_left
    (fun acc field =>
       let '(in_port, eth_src, eth_dst, vid) := acc in
       match field with
       | oxm_eth_src value => (in_port, Some value, eth_dst, vid)
       | oxm_eth_dst value => (in_port, eth_src, Some value, vid)
       | oxm_vlan_vid value =>
           (in_port, eth_src, eth_dst,
            Some (Z.land value (Z.lnot OFPVID_PRESENT)))
       | oxm_in_port value => (Some value, eth_src, eth_dst, vid)
       | oxm_other _ => acc
       end)
    match_oxm_fields (None, None, None, None).

Definition truthy_int (o : option Z) : bool :=
  match o with Some z => truthy z | None => false end.
Definition truthy_str (o : option string) : bool :=
  match o with Some s => negb (String.eqb s "") | None => false end.

Definition flow_timeout (table_id' : Z) (match_oxm_fields : list oxm_field)
  : M (list ofmsg) :=
  self <- get_self ;;
  let d := dp self in
  if (table_id' =? table_id (eth_src_table (tables d)))
     || (table_id' =? table_id (eth_dst_table (tables d)))
  then
    let '(in_port, eth_src, eth_dst, vid) :=
      flow_timeout_fields match_oxm_fields in
    if truthy_str eth_src && truthy_int vid && truthy_int in_port then
      match eth_src, vid, in_port with
      | Some eth_src, Some vid, Some in_port =>
          vlan <- the_vlan vid ;;
          let '(ofmsgs, hc) := src_rule_expire vlan in_port eth_src in
          modify (put_vlan vid (set_host_cache hc vlan)) ;;;
          ret ofmsgs
      | _, _, _ => ret []
      end
    else if truthy_str eth_dst && truthy_int vid then
      match eth_dst, vid with
      | Some eth_dst, Some vid =>
          vlan <- the_vlan vid ;;
          let '(ofmsgs, hc) := dst_rule_expire vlan eth_dst in
          modify (put_vlan vid (set_host_cache hc vlan)) ;;;
          ret ofmsgs
      | _, _ => ret []
      end
    else ret []
  else ret [].

End ValveReload.

(** [Valve.__init__]: the managers are the collaborators. *)
Definition Valve_init `{Opaque} (d : DP) : Valve :=
  {| dp := d; L3 := false; _packet_in_count_sec := 0;
     _last_packet_in_sec := 0; _last_advertise_sec := 0 |}.

(** ** The Valve classes and the hardware they serve *)

(** The classes [Valve], [TfmValve] and [ArubaValve]. *)
Inductive valve_class := Valve_class | TfmValve_class | ArubaValve_class.

(** The class attribute [DEC_TTL], overridden by [ArubaValve]. *)
Definition DEC_TTL (c : valve_class) : bool :=
  match c with
  | ArubaValve_class => false
  | _ => true
  end.

(** The class attribute [PIPELINE_CONF] of the classes that have one. *)
Definition PIPELINE_CONF (c : valve_class) : option string :=
  match c with
  | Valve_class => None
  | TfmValve_class => Some "tfm_pipeline.json"%string
  | ArubaValve_class => Some "aruba_pipeline.json"%string
  end.

Definition SUPPORTED_HARDWARE : list (string * valve_class) :=
  [("Allied-Telesis"%string, Valve_class);
   ("Aruba"%string, ArubaValve_class);
   ("GenericTFM"%string, TfmValve_class);
   ("Lagopus"%string, Valve_class);
   ("Netronome"%string, Valve_class);
   ("NoviFlow"%string, Valve_class);
   ("Open vSwitch"%string, Valve_class);
   ("ZodiacFX"%string, Valve_class)].

(** [valve_factory(dp)], as a function of [dp.hardware]. *)
Definition valve_factory (hardware : string) : option valve_class :=
  if dict_mem String.eqb hardware SUPPORTED_HARDWARE
  then dict_get String.eqb hardware SUPPORTED_HARDWARE
  else None.

(** ** A concrete pipeline and concrete collaborators

    A small instance of the collaborators, used to run the embedding on
    concrete datapaths. *)

Module Demo.
Local Open Scope string_scope.
Local Open Scope Z_scope.
Local Open Scope list_scope.

#[export] Instance opaque : Opaque := {|
  rule_conf := string;
  acl_match := string;
  acl_inst := string;
  ext_msg := string;
  raw_data := unit;
  ryu_pkt := unit;
  ryu_eth_pkt := unit;
  route_state := list string;
  stack_conf := unit
|}.

Definition T (i : Z) (n : string) : table := {| table_id := i; table_name := n |}.

Definition demo_tables : Tables := {|
  vlan_table := T 0 "vlan"; port_acl_table := T 1 "port_acl";
  vlan_acl_table := T 2 "vlan_acl"; eth_src_table := T 3 "eth_src";
  ipv4_fib_table := T 4 "ipv4_fib"; ipv6_fib_table := T 5 "ipv6_fib";
  vip_table := T 6 "vip"; eth_dst_table := T 7 "eth_dst";
  flood_table := T 8 "flood"
|}.

Definition all_tables : list table :=
  [T 0 "vlan"; T 1 "port_acl"; T 2 "vlan_acl"; T 3 "eth_src"; T 4 "ipv4_fib";
   T 5 "ipv6_fib"; T 6 "vip"; T 7 "eth_dst"; T 8 "flood"].

Definition option_eqb {A} (eqb : A -> A -> bool) (a b : option A) : bool :=
  match a, b with
  | Some x, Some y => eqb x y
  | None, None => true
  | _, _ => false
  end.

Fixpoint list_eqb {A} (eqb : A -> A -> bool) (a b : list A) : bool :=
  match a, b with
  | [], [] => true
  | x :: a', y :: b' => eqb x y && list_eqb eqb a' b'
  | _, _ => false
  end.

Definition vip_eqb (a b : vip) : bool :=
  (vip_version a =? vip_version b) && String.eqb (vip_text a) (vip_text b).

(** Equality of configuration objects looks at the configured attributes
    only. *)
Definition demo_vlan_eqb (a b : VLAN) : bool :=
  (vid a =? vid b) && list_eqb Z.eqb (tagged a) (tagged b)
  && list_eqb Z.eqb (untagged a) (untagged b)
  && String.eqb (faucet_mac a) (faucet_mac b)
  && list_eqb vip_eqb (faucet_vips a) (faucet_vips b)
  && option_eqb Z.eqb (vlan_max_hosts a) (vlan_max_hosts b).

Definition demo_port_eqb (a b : Port) : bool :=
  (number a =? number b) && Bool.eqb (enabled a) (enabled b)
  && option_eqb Z.eqb (native_vlan a) (native_vlan b)
  && list_eqb Z.eqb (tagged_vlans a) (tagged_vlans b)
  && option_eqb Z.eqb (acl_in a) (acl_in b)
  && Bool.eqb (is_some (port_stack a)) (is_some (port_stack b))
  && option_eqb Z.eqb (mirror a) (mirror b)
  && Bool.eqb (mirror_destination a) (mirror_destination b)
  && option_eqb Z.eqb (port_max_hosts a) (port_max_hosts b)
  && Bool.eqb (permanent_learn a) (permanent_learn b).

Definition demo_merge_dyn (new_vlan old_vlan : VLAN) : VLAN :=
  set_vlan_route_state (vlan_route_state old_vlan)
    (set_vlan_learn_ban_count (vlan_learn_ban_count old_vlan)
       (set_host_cache (host_cache old_vlan) new_vlan)).

(** The second hexadecimal digit of a unicast address is even. *)
Definition demo_is_unicast (a : mac) : bool :=
  match a with
  | String _ (String c _) =>
      existsb (fun e => Ascii.eqb c e)
        ["0"; "2"; "4"; "6"; "8"; "a"; "c"; "e"; "A"; "C"; "E"]%char
  | _ => false
  end.

Definition demo_flood (d : DP) (vid : Z) (modify : bool) : list ofmsg :=
  match zget vid (vlans d) with
  | Some vlan =>
      [flowmod (T 8 "flood") (match_vlan vid) 9000
         [apply_actions
            (map output_port
               (filter (fun n => match zget n (ports d) with
                                 | Some p => port_running p
                                 | None => false
                                 end) (get_ports vlan)))]]
  | None => []
  end.

Definition demo_learn (now : Z) (learn_port : option Z) (vlan : VLAN)
  (eth_src : mac) : list ofmsg * dict mac HostCacheEntry :=
  match learn_port with
  | Some p =>
      ([flowmod (T 3 "eth_src")
          (Some (Match {| m_in_port := Some p; m_vlan := Some (vid vlan);
                          m_eth_src := Some eth_src; m_eth_dst := None;
                          m_eth_type := None |}))
          9001 [goto_table (T 7 "eth_dst")];
        flowmod (T 7 "eth_dst")
          (Some (Match {| m_in_port := None; m_vlan := Some (vid vlan);
                          m_eth_src := None; m_eth_dst := Some eth_src;
                          m_eth_type := None |}))
          9001 [apply_actions [output_port p]]],
       dict_set String.eqb eth_src
         {| hce_port := p; hce_ts := now; hce_edge := true |}
         (host_cache vlan))
  | None => ([], host_cache vlan)
  end.

Definition demo_control_plane (ipv : Z) (pm : PacketMeta) (vlan : VLAN)
  : list ofmsg * list string :=
  if (ipv =? 4) && String.eqb (pm_eth_dst pm) (faucet_mac vlan)
     && nonempty (faucet_vips_by_ipv vlan ipv)
  then ([Ext "arp reply"%string],
        (pm_eth_src pm) :: vlan_route_state vlan)
  else ([], vlan_route_state vlan).

Definition demo_host_fib (ipv : Z) (pm : PacketMeta) (vlan : VLAN)
  : list ofmsg * list string :=
  if nonempty (faucet_vips_by_ipv vlan ipv)
  then ([Ext "host fib route"%string], (pm_eth_src pm) :: vlan_route_state vlan)
  else ([], vlan_route_state vlan).

Definition demo_advertise (ipv : Z) (vlan : VLAN) : list ofmsg :=
  if (ipv =? 6) && nonempty (faucet_vips_by_ipv vlan ipv)
  then [Ext "router advertisement"%string] else [].

#[export] Instance collaborators : Collaborators := {|
  ignore_port := fun p => p >? 0xF0000000;
  mac_addr_is_unicast := demo_is_unicast;
  parse_packet_in_pkt := fun _ _ => (Some tt, Some 0);
  parse_pkt := fun _ => tt;
  ip_header_len := fun _ => 34;
  build_acl_entry := fun rule allow _ _ _ => (AclMatch rule, [allow], []);
  groups_delete_all := Ext "delete all groups"%string;
  shortest_path_port := fun _ _ => None;
  acl_eqb := fun a b => list_eqb String.eqb (rules a) (rules b);
  vlan_eqb := demo_vlan_eqb;
  port_eqb := demo_port_eqb;
  merge_dyn := demo_merge_dyn;
  build_flood_rules := demo_flood;
  learn_host_on_vlan_port := demo_learn;
  temp_ban_host_learning_on_port := fun port =>
    flowdrop (T 3 "eth_src") (match_in_port (number port)) 9001;
  temp_ban_host_learning_on_vlan := fun vlan =>
    flowdrop (T 3 "eth_src") (match_vlan (vid vlan)) 9001;
  expire_hosts_from_vlan := fun vlan now =>
    filter (fun item => now - hce_ts (snd item) <=? 300) (host_cache vlan);
  src_rule_expire := fun vlan _ _ => ([], host_cache vlan);
  dst_rule_expire := fun vlan _ => ([], host_cache vlan);
  ETH_TYPE := fun ipv => if ipv =? 4 then 0x0800 else 0x86dd;
  rm_control_plane_handler := demo_control_plane;
  rm_add_host_fib_route_from_pkt := demo_host_fib;
  rm_advertise := demo_advertise;
  rm_resolve_gateways := fun _ vlan _ => ([], vlan_route_state vlan);
  rm_add_faucet_vip := fun ipv vlan a =>
    ([flowcontroller (T 6 "vip") 9099 []], vip_text a :: vlan_route_state vlan);
  rm_add_route := fun _ vlan _ _ => ([], vlan_route_state vlan);
  rm_del_route := fun _ vlan _ => ([], vlan_route_state vlan)
|}.

Definition mk_vlan (v : Z) (untagged_ports : list Z) (vips : list vip)
  (max_hosts : option Z) : VLAN :=
  {| vid := v; tagged := []; untagged := untagged_ports;
     faucet_mac := "0e:00:00:00:00:01"; faucet_vips := vips;
     vlan_max_hosts := max_hosts; host_cache := [];
     vlan_learn_ban_count := 0; vlan_route_state := [] |}.

Definition mk_port (n : Z) (native : Z) (max_hosts : option Z) : Port :=
  {| number := n; enabled := true; native_vlan := Some native;
     tagged_vlans := []; acl_in := None; port_stack := None; mirror := None;
     mirror_destination := false; port_max_hosts := max_hosts;
     permanent_learn := false; phys_up := false; port_learn_ban_count := 0 |}.

Definition mk_dp (vs : dict Z VLAN) (ps : dict Z Port) (stk : option unit)
  (ignore_ins adv : Z) : DP :=
  {| dp_id := 1; name := "sw1"; tables := demo_tables;
     wildcard_table := T 255 "all";
     all_valve_tables := all_tables; in_port_tables := all_tables;
     vlan_match_tables := all_tables;
     lowest_priority := 0; low_priority := 9000; high_priority := 9001;
     highest_priority := 9099;
     drop_broadcast_source_address := true; drop_spoofed_faucet_mac := true;
     drop_bpdu := true; drop_lldp := true; group_table := false;
     packetin_pps := 0; ignore_learn_ins := ignore_ins;
     advertise_interval := adv;
     meters := []; acls := []; port_acl_in := []; vlan_acl_in := [];
     stack := stk; stack_ports := [];
     vlans := vs; ports := ps; running := false |}.

(** One VLAN, vid 10, with the two untagged ports 1 and 2. *)
Definition dp_s1 : DP :=
  mk_dp [(10, mk_vlan 10 [1; 2] [] None)]
        [(1, mk_port 1 10 (Some 255)); (2, mk_port 2 10 (Some 255))]
        None 0 0.

Definition pkt (in_port vid : Z) (src dst : mac) : PacketMeta :=
  {| pm_data := tt; pm_pkt := tt; pm_eth_pkt := tt; pm_port := in_port;
     pm_vlan := vid; pm_eth_src := src; pm_eth_dst := dst |}.

(** The Valve as the call [m] leaves it. *)
Definition after {A} (m : M A) (v : Valve) : Valve := snd (m v).

(** The datapath of [dp_s1] after a cold start with both ports up. *)
Definition v_s1 : Valve := after (datapath_connect 1 [1; 2]) (Valve_init dp_s1).

(** A datapath that routes IPv6 on VLAN 10 and advertises every 5
    seconds; it was connected and then disconnected. *)
Definition dp_ra : DP :=
  mk_dp [(10, mk_vlan 10 [1; 2]
                [{| vip_version := 6; vip_text := "fc00::1:254/112" |}] None)]
        [(1, mk_port 1 10 (Some 255)); (2, mk_port 2 10 (Some 255))]
        None 0 5.

Definition v_ra : Valve := after (datapath_connect 1 [1; 2]) (Valve_init dp_ra).

Definition v_ra_down : Valve := after (datapath_disconnect 1) v_ra.

(** Two stacked datapaths: sw1 carries VLAN 10 and has the stack port 1,
    sw2 carries VLAN 20 only. *)
Definition stack_port (n : Z) : Port :=
  {| number := n; enabled := true; native_vlan := None;
     tagged_vlans := []; acl_in := None; port_stack := Some tt; mirror := None;
     mirror_destination := false; port_max_hosts := Some 255;
     permanent_learn := false; phys_up := false; port_learn_ban_count := 0 |}.

Definition dp_stack1 : DP :=
  mk_dp [(10, mk_vlan 10 [2] [] None)]
        [(1, stack_port 1); (2, mk_port 2 10 (Some 255))]
        (Some tt) 0 0.

Definition dp_stack2 : DP :=
  set_dyn [(20, mk_vlan 20 [2] [] None)]
          [(1, stack_port 1); (2, mk_port 2 20 (Some 255))] false
          {| dp_id := 2; name := "sw2"; tables := demo_tables;
             wildcard_table := T 255 "all";
             all_valve_tables := all_tables; in_port_tables := all_tables;
             vlan_match_tables := all_tables;
             lowest_priority := 0; low_priority := 9000;
             high_priority := 9001; highest_priority := 9099;
             drop_broadcast_source_address := true;
             drop_spoofed_faucet_mac := true;
             drop_bpdu := true; drop_lldp := true; group_table := false;
             packetin_pps := 0; ignore_learn_ins := 0;
             advertise_interval := 0;
             meters := []; acls := []; port_acl_in := []; vlan_acl_in := [];
             stack := Some tt; stack_ports := [1];
             vlans := []; ports := []; running := false |}.

Definition v_stack1 : Valve :=
  after (datapath_connect 1 [1; 2]) (Valve_init dp_stack1).
Definition v_stack2 : Valve :=
  after (datapath_connect 2 [1; 2]) (Valve_init dp_stack2).

(** VLAN 10 is routed (an IPv4 VIP) and holds at most one host. *)
Definition dp_routed : DP :=
  mk_dp [(10, mk_vlan 10 [1; 2]
                [{| vip_version := 4; vip_text := "10.0.0.254/24" |}] (Some 1))]
        [(1, mk_port 1 10 (Some 255)); (2, mk_port 2 10 (Some 255))]
        None 0 0.

Definition v_routed : Valve :=
  after (datapath_connect 1 [1; 2]) (Valve_init dp_routed).

Definition pkt_aa : PacketMeta := pkt 1 10 "aa:aa:aa:aa:aa:aa" "bb:bb:bb:bb:bb:bb".
Definition pkt_cc : PacketMeta := pkt 1 10 "cc:cc:cc:cc:cc:cc" "bb:bb:bb:bb:bb:bb".

(** The host aa:aa:aa:aa:aa:aa was learned: VLAN 10 is full. *)
Definition v_routed_full : Valve := after (rcv_packet 100 1 [] pkt_aa) v_routed.

(** VLAN 10 holds at most one host, port 1 too; every second packet-in of
    a second is ignored. *)
Definition dp_caps : DP :=
  mk_dp [(10, mk_vlan 10 [1; 2] [] (Some 1))]
        [(1, mk_port 1 10 (Some 1)); (2, mk_port 2 10 (Some 255))]
        None 2 0.

Definition v_caps : Valve := after (datapath_connect 1 [1; 2]) (Valve_init dp_caps).

(** The host aa:aa:aa:aa:aa:aa was learned on port 1 at second 100. *)
Definition v_caps_full : Valve := after (rcv_packet 100 1 [] pkt_aa) v_caps.

(** The VLAN stored under [k], for a key that is configured. *)
Definition vlan_of (k : Z) (v : Valve) : VLAN :=
  match zget k (vlans (dp v)) with
  | Some vlan => vlan
  | None => mk_vlan k [] [] None
  end.

(** A datapath with one VLAN and no configured port. *)
Definition dp_noports : DP :=
  mk_dp [(10, mk_vlan 10 [] [] None)] [] None 0 0.

Definition v_noports : Valve :=
  after (datapath_connect 1 []) (Valve_init dp_noports).

(** Two VLANs: ports 1 and 2 on VLAN 10, port 3 on VLAN 20.  In the new
    configuration VLAN 10 holds at most 5 hosts. *)
Definition dp_two : DP :=
  mk_dp [(10, mk_vlan 10 [1; 2] [] None); (20, mk_vlan 20 [3] [] None)]
        [(1, mk_port 1 10 (Some 255)); (2, mk_port 2 10 (Some 255));
         (3, mk_port 3 20 (Some 255))]
        None 0 0.

Definition dp_two_new : DP :=
  mk_dp [(10, mk_vlan 10 [1; 2] [] (Some 5)); (20, mk_vlan 20 [3] [] None)]
        [(1, mk_port 1 10 (Some 255)); (2, mk_port 2 10 (Some 255));
         (3, mk_port 3 20 (Some 255))]
        None 0 0.

Definition v_two : Valve :=
  after (datapath_connect 1 [1; 2; 3]) (Valve_init dp_two).

(** The messages of a reload that returns. *)
Definition reload_msgs (new_dp : DP) (v : Valve) : list ofmsg :=
  match fst (reload_config new_dp v) with
  | Ok (_, ofmsgs) => ofmsgs
  | Raise _ => []
  end.

End Demo.

(** ** More concrete datapaths *)

Module Cases.
Import Demo.
Local Open Scope string_scope.
Local Open Scope Z_scope.
Local Open Scope list_scope.

(** Port 1 mirrors to port 3. *)
Definition mirrored_port : Port :=
  {| number := 1; enabled := true; native_vlan := Some 10;
     tagged_vlans := []; acl_in := None; port_stack := None;
     mirror := Some 3; mirror_destination := false;
     port_max_hosts := Some 255; permanent_learn := false;
     phys_up := false; port_learn_ban_count := 0 |}.

Definition mirror_destination_port : Port :=
  {| number := 3; enabled := true; native_vlan := Some 10;
     tagged_vlans := []; acl_in := None; port_stack := None;
     mirror := None; mirror_destination := true;
     port_max_hosts := Some 255; permanent_learn := false;
     phys_up := false; port_learn_ban_count := 0 |}.

(** Port 4 is configured down. *)
Definition disabled_port : Port :=
  {| number := 4; enabled := false; native_vlan := Some 10;
     tagged_vlans := []; acl_in := None; port_stack := None;
     mirror := None; mirror_destination := false;
     port_max_hosts := Some 255; permanent_learn := false;
     phys_up := false; port_learn_ban_count := 0 |}.

(** The three ports are untagged members of VLAN 10. *)
Definition dp_mirror : DP :=
  mk_dp [(10, mk_vlan 10 [1; 3; 4] [] None)]
        [(1, mirrored_port); (3, mirror_destination_port);
         (4, disabled_port)]
        None 0 0.

Definition v_mirror : Valve := Valve_init dp_mirror.

(** A stacked datapath whose VLAN 10 is routed. *)
Definition routed_vlan : VLAN :=
  mk_vlan 10 [2] [{| vip_version := 4; vip_text := "10.0.0.254/24" |}] None.

Definition dp_stack_routed : DP :=
  mk_dp [(10, routed_vlan)]
        [(1, stack_port 1); (2, mk_port 2 10 (Some 255))]
        (Some tt) 0 0.

Definition v_stack_routed : Valve := Valve_init dp_stack_routed.

(** A packet for the faucet MAC of VLAN 10. *)
Definition pkt_vip : PacketMeta :=
  pkt 1 10 "aa:aa:aa:aa:aa:aa" "0e:00:00:00:00:01".

(** ACL 5 is bound to port 1; port 2 is bound to ACL 6, which is not
    defined. *)
Definition acl5 : ACL := {| rules := ["allow arp"; "deny all"] |}.

Definition dp_acl : DP :=
  {| dp_id := 1; name := "sw1"; tables := demo_tables;
     wildcard_table := T 255 "all";
     all_valve_tables := all_tables; in_port_tables := all_tables;
     vlan_match_tables := all_tables;
     lowest_priority := 0; low_priority := 9000; high_priority := 9001;
     highest_priority := 9099;
     drop_broadcast_source_address := true; drop_spoofed_faucet_mac := true;
     drop_bpdu := true; drop_lldp := true; group_table := false;
     packetin_pps := 0; ignore_learn_ins := 0; advertise_interval := 0;
     meters := []; acls := [(5, acl5)];
     port_acl_in := [(1, 5); (2, 6)]; vlan_acl_in := [];
     stack := None; stack_ports := [];
     vlans := [(10, mk_vlan 10 [1; 2] [] None)];
     ports := [(1, mk_port 1 10 (Some 255)); (2, mk_port 2 10 (Some 255))];
     running := false |}.

Definition v_acl : Valve := Valve_init dp_acl.

(** Port 1 has [permanent_learn].  After the cold start the host
    aa:aa:aa:aa:aa:aa is learned on port 1 and the host
    cc:cc:cc:cc:cc:cc on port 2. *)
Definition permanent_port : Port :=
  {| number := 1; enabled := true; native_vlan := Some 10;
     tagged_vlans := []; acl_in := None; port_stack := None;
     mirror := None; mirror_destination := false;
     port_max_hosts := Some 255; permanent_learn := true;
     phys_up := false; port_learn_ban_count := 0 |}.

Definition dp_perm : DP :=
  mk_dp [(10, mk_vlan 10 [1; 2] [] None)]
        [(1, permanent_port); (2, mk_port 2 10 (Some 255))]
        None 0 0.

Definition pkt_cc_on_2 : PacketMeta :=
  pkt 2 10 "cc:cc:cc:cc:cc:cc" "bb:bb:bb:bb:bb:bb".

Definition v_perm : Valve :=
  after (rcv_packet 101 1 [] pkt_cc_on_2)
    (after (rcv_packet 100 1 [] pkt_aa)
       (after (datapath_connect 1 [1; 2]) (Valve_init dp_perm))).

(** A running Valve that holds the routed configuration and has not yet
    added a VIP. *)
Definition v_routed_fresh : Valve :=
  set_dp (set_running true dp_routed) (Valve_init dp_routed).

(** The port stored under [n], for a port that is configured. *)
Definition port_of (n : Z) (v : Valve) : Port :=
  match zget n (ports (dp v)) with
  | Some port => port
  | None => mk_port n 0 None
  end.

End Cases.

(** ** Notions used to state the properties *)

Section Notions.
Context {O : Opaque}.

(** Every call of [m], whether it returns or raises, relates the Valve
    before to the Valve after by [R]. *)
Definition preserves (R : Valve -> Valve -> Prop) {A} (m : M A) : Prop :=
  forall s, R s (snd (m s)).

(** Routing, once on, is still on. *)
Definition L3_kept (s s' : Valve) : Prop := L3 s = true -> L3 s' = true.

(** The packet-in counter and its second are untouched. *)
Definition counters_kept (s s' : Valve) : Prop :=
  _packet_in_count_sec s' = _packet_in_count_sec s /\
  _last_packet_in_sec s' = _last_packet_in_sec s.

(** The configuration of a DP without its VLANs, ports and running flag. *)
Definition static (d : DP) : DP := set_dyn [] [] false d.

(** What the guards of [rcv_packet] read is untouched: the static
    configuration and the running flag are the same, and every configured
    VLAN and port is still configured. *)
Definition guards_kept (s s' : Valve) : Prop :=
  static (dp s') = static (dp s) /\
  running (dp s') = running (dp s) /\
  (forall k, zmem k (vlans (dp s)) = true -> zmem k (vlans (dp s')) = true) /\
  (forall k, zmem k (ports (dp s)) = true -> zmem k (ports (dp s')) = true).

Definition opt_rel {A} (r : A -> A -> Prop) (a b : option A) : Prop :=
  match a, b with
  | Some x, Some y => r x y
  | None, None => True
  | _, _ => False
  end.

(** [v'] is [v] up to the state of the route managers. *)
Definition same_but_route (v v' : VLAN) : Prop :=
  v' = set_vlan_route_state (vlan_route_state v') v.

(** Only the route state of VLANs differs between [s] and [s']. *)
Definition route_only (s s' : Valve) : Prop :=
  (exists vs', s' = set_dp (set_vlans vs' (dp s)) s) /\
  forall k, opt_rel same_but_route (zget k (vlans (dp s)))
                                   (zget k (vlans (dp s'))).

(** The value of the per-second packet-in counter after one more
    packet-in at second [now]: the counter restarts when the second
    changed. *)
Definition next_count (now : Z) (self : Valve) : Z :=
  if _last_packet_in_sec self =? now then _packet_in_count_sec self + 1 else 1.

(** Reparsing a packet changes neither its port, VLAN nor addresses. *)
Definition same_headers (pm pm' : PacketMeta) : Prop :=
  pm_port pm' = pm_port pm /\ pm_vlan pm' = pm_vlan pm /\
  pm_eth_src pm' = pm_eth_src pm /\ pm_eth_dst pm' = pm_eth_dst pm.

(** The number of MACs learned on the port, over its native and tagged
    VLANs, is the [max_hosts] of the port. *)
Definition port_at_cap (d : DP) (port : Port) : bool :=
  match port_max_hosts port with
  | Some max_hosts =>
      Z.of_nat (List.length (_get_eth_srcs_learned_on_port d (number port)))
      =? max_hosts
  | None => false
  end.

(** The host cache of the VLAN holds [max_hosts] MACs. *)
Definition vlan_full (vlan : VLAN) : bool :=
  match vlan_max_hosts vlan with
  | Some max_hosts => hosts_learned_on_vlan_count vlan =? max_hosts
  | None => false
  end.

(** The packet-in that brings the counter to [next_count] is dropped by
    the rate limit. *)
Definition rate_limited (now : Z) (self : Valve) : bool :=
  truthy (ignore_learn_ins (dp self))
  && (next_count now self mod ignore_learn_ins (dp self) =? 0).

(** The static configuration of the DP is untouched. *)
Definition static_kept (s s' : Valve) : Prop := static (dp s') = static (dp s).

(** [m] deletes, in table [t], the flows that match VLAN [vlan_vid]. *)
Definition deletes_vlan_flows (t : table) (vlan_vid : Z) (m : ofmsg) : bool :=
  match m with
  | FlowDel t' (Some (Match f)) None =>
      table_eqb t' t
      && match m_vlan f with Some v => v =? vlan_vid | None => false end
  | _ => false
  end.

(** The deletes [_del_vlan] emits for VLAN [vlan_vid] under the
    configuration [d]: one for each table that matches on the VLAN,
    except the vlan table. *)
Definition vlan_deletes (d : DP) (vlan_vid : Z) : list ofmsg :=
  map (fun t => FlowDel t (match_vlan vlan_vid) None)
      (filter (fun t => negb (table_eqb t (vlan_table (tables d))))
              (vlan_match_tables d)).

End Notions.

(** ** The Valve as a state machine

    The calls the controller makes on a Valve. *)

Section Events.
Context {O : Opaque} {C : Collaborators}.

Inductive event :=
| ev_datapath_connect (dp_id : Z) (discovered_up_port_nums : list Z)
| ev_datapath_disconnect (dp_id : Z)
| ev_port_status_handler (dp_id port_no reason : Z) (port_status : bool)
| ev_ports_add (dp_id : Z) (port_nums : list Z) (cold_start : bool)
| ev_ports_delete (dp_id : Z) (port_nums : list Z)
| ev_rcv_packet (now dp_id : Z) (valves : dict Z Valve) (pkt_meta : PacketMeta)
| ev_reload_config (new_dp : DP)
| ev_flow_timeout (table_id : Z) (match_oxm_fields : list oxm_field)
| ev_host_expire (now : Z)
| ev_resolve_gateways (now : Z)
| ev_advertise (now : Z)
| ev_add_route (vlan ipv : Z) (ip_gw ip_dst : string)
| ev_del_route (vlan ipv : Z) (ip_dst : string).

(** The Valve after one call, whether the call returned or raised. *)
Definition handle (e : event) (self : Valve) : Valve :=
  match e with
  | ev_datapath_connect dp_id ns => snd (datapath_connect dp_id ns self)
  | ev_datapath_disconnect dp_id => snd (datapath_disconnect dp_id self)
  | ev_port_status_handler dp_id n reason st =>
      snd (port_status_handler dp_id n reason st self)
  | ev_ports_add dp_id ns cold => snd (ports_add dp_id ns cold self)
  | ev_ports_delete dp_id ns => snd (ports_delete dp_id ns self)
  | ev_rcv_packet now dp_id valves pm => snd (rcv_packet now dp_id valves pm self)
  | ev_reload_config new_dp => snd (reload_config new_dp self)
  | ev_flow_timeout tid fields => snd (flow_timeout tid fields self)
  | ev_host_expire now => snd (host_expire now self)
  | ev_resolve_gateways now => snd (resolve_gateways now self)
  | ev_advertise now => snd (advertise now self)
  | ev_add_route k ipv gw dst => snd (add_route k ipv gw dst self)
  | ev_del_route k ipv dst => snd (del_route k ipv dst self)
  end.

Definition run (es : list event) (self : Valve) : Valve :=
  fold_left (fun s e => handle e s) es self.

(** What the specification of routing says of [rcv_packet], once the packet
    passed the guards, its source is unicast and routing is on: the
    control plane handler is called; if the packet is then neither rate
    limited nor banned, the host is learned and, when the control plane
    returned no message, the route managers are asked for a host FIB
    route. *)
Definition rcv_packet_routed (now : Z) (dp_id : Z) (valves : dict Z Valve)
  (pkt_meta : PacketMeta) : M (list ofmsg) :=
  '(reply, pkt_meta) <- control_plane_handler pkt_meta ;;
  limited <- _rate_limit_packet_ins now ;;
  if limited then ret reply else
  ban_port_rules <- _port_learn_ban_rules pkt_meta ;;
  if nonempty ban_port_rules then ret (reply ++ ban_port_rules) else
  ban_vlan_rules <- _vlan_learn_ban_rules pkt_meta ;;
  if nonempty ban_vlan_rules then ret (reply ++ ban_vlan_rules) else
  learn <- _learn_host now valves dp_id pkt_meta ;;
  fib <- (if nonempty reply then ret [] else add_host_fib_routes pkt_meta) ;;
  ret (reply ++ learn ++ fib).

End Events.

(** ** Notions used to state the properties of a reload *)

Section ReloadNotions.
Context {O : Opaque} {C : Collaborators}.

(** The comparisons of [_get_config_changes] find no difference between
    the current DP and [new_dp]: every ACL, VLAN and port of [new_dp] is
    configured and compares equal, and no VLAN or port is missing from
    [new_dp]. *)
Definition no_config_difference (self : Valve) (new_dp : DP) : Prop :=
  (forall acl_id new_acl, In (acl_id, new_acl) (acls new_dp) ->
     exists old_acl, zget acl_id (acls (dp self)) = Some old_acl /\
                     acl_eqb new_acl old_acl = true) /\
  (forall vid new_vlan, In (vid, new_vlan) (vlans new_dp) ->
     exists old_vlan, zget vid (vlans (dp self)) = Some old_vlan /\
                      vlan_eqb old_vlan new_vlan = true) /\
  (forall port_no new_port, In (port_no, new_port) (ports new_dp) ->
     exists old_port, zget port_no (ports (dp self)) = Some old_port /\
                      port_eqb new_port old_port = true) /\
  (forall vid, In vid (dict_keys (vlans (dp self))) ->
     zmem vid (vlans new_dp) = true) /\
  (forall port_no, In port_no (dict_keys (ports (dp self))) ->
     zmem port_no (ports new_dp) = true).

(** The VLANs of [new_dp], each with the dynamic state of the current
    VLAN of the same vid merged in. *)
Definition carry_over (self : Valve) (new_vlans : dict Z VLAN) : dict Z VLAN :=
  map (fun item : Z * VLAN =>
         (fst item,
          match zget (fst item) (vlans (dp self)) with
          | Some old_vlan => merge_dyn (snd item) old_vlan
          | None => snd item
          end))
      new_vlans.

End ReloadNotions.

(** ** Notions used to state the properties of a cold start *)

Section ConnectNotions.
Context {O : Opaque} {C : Collaborators}.

(** A flow that drops every packet of a table: no match and no
    instruction. *)
Definition table_wide_drop (m : ofmsg) : bool :=
  match m with
  | flowmod _ None _ [] => true
  | _ => false
  end.

(** The default drop of table [t]: the table-wide drop of [t] at the
    lowest priority of the DP. *)
Definition is_default_drop (d : DP) (t : table) (m : ofmsg) : bool :=
  match m with
  | flowmod t' None priority [] =>
      table_eqb t' t && (priority =? lowest_priority d)
  | _ => false
  end.

(** What is assumed of the managers, which are not part of valve.py: the
    messages they build are not table-wide drops. *)
Definition managers_emit_no_table_wide_drop : Prop :=
  table_wide_drop groups_delete_all = false /\
  (forall d vid modify m,
     In m (build_flood_rules d vid modify) -> table_wide_drop m = false) /\
  (forall rule allow ms port_num vlan_vid m,
     In m (snd (build_acl_entry rule allow ms port_num vlan_vid)) ->
     table_wide_drop m = false) /\
  (forall ipv vlan a m,
     In m (fst (rm_add_faucet_vip ipv vlan a)) -> table_wide_drop m = false).

(** A configuration a cold start can program: no routing together with
    stacking, the ACL bound to a VLAN or a port exists, the tables have
    distinct ids, and no meter entry is a table-wide drop. *)
Definition config_ok (d : DP) : Prop :=
  (stack d = None \/
   forall vid vlan, In (vid, vlan) (vlans d) -> faucet_vips vlan = []) /\
  (forall k a, zget k (vlan_acl_in d) = Some a ->
     exists acl, zget a (acls d) = Some acl) /\
  (forall k a, zget k (port_acl_in d) = Some a ->
     exists acl, zget a (acls d) = Some acl) /\
  NoDup (map table_id (all_valve_tables d)) /\
  (forall k meter, In (k, meter) (meters d) ->
     table_wide_drop (entry_msg meter) = false).

(** Between [s] and [s'] the static configuration and the ports are the
    same and the VLANs differ in route state only. *)
Definition vips_added (s s' : Valve) : Prop :=
  static (dp s') = static (dp s) /\
  ports (dp s') = ports (dp s) /\
  forall k, opt_rel same_but_route (zget k (vlans (dp s)))
                                   (zget k (vlans (dp s'))).

(** The ACL bindings of the DP resolve. *)
Definition acl_refs_ok (d : DP) : Prop :=
  (forall k a, zget k (vlan_acl_in d) = Some a ->
     exists acl, zget a (acls d) = Some acl) /\
  (forall k a, zget k (port_acl_in d) = Some a ->
     exists acl, zget a (acls d) = Some acl).

(** No message of the list is a table-wide drop. *)
Definition clean (ms : list ofmsg) : Prop :=
  Forall (fun m => table_wide_drop m = false) ms.

End ConnectNotions.

(** ** The MACs learned on a port, as the specification words them *)

Section LearnedNotions.
Context {O : Opaque}.

(** The VLANs the port belongs to and the DP configures: its native
    VLAN, then its tagged VLANs. *)
Definition vlans_of_port (d : DP) (port : Port) : list VLAN :=
  flat_map (fun vlan_vid => match zget vlan_vid (vlans d) with
                            | Some vlan => [vlan]
                            | None => []
                            end)
           (match native_vlan port with Some v => [v] | None => [] end
            ++ tagged_vlans port).

(** The MACs of the host cache of [vlan] that were learned on port [p]. *)
Definition macs_learned_in (p : Z) (vlan : VLAN) : list mac :=
  map fst (filter (fun item => hce_port (snd item) =? p) (host_cache vlan)).

(** Every MAC learned on port [p]: over the VLANs of the port, the MACs
    whose host cache entry points at [p]. *)
Definition macs_learned_on_port (d : DP) (p : Z) (port : Port) : list mac :=
  flat_map (macs_learned_in p) (vlans_of_port d port).

End LearnedNotions.

(** ** Notions used to state further properties *)

Section MoreNotions.
Context {O : Opaque} {C : Collaborators}.

(** [m] packet-ins in a row at second [now_sec]: what
    [_rate_limit_packet_ins] answers each time, and the Valve after the
    last one. *)
Fixpoint packet_ins (now_sec : Z) (m : nat) (self : Valve)
  : list (result bool) * Valve :=
  match m with
  | 0%nat => ([], self)
  | S m' =>
      let '(r, self') := _rate_limit_packet_ins now_sec self in
      let '(rs, self'') := packet_ins now_sec m' self' in
      (r :: rs, self'')
  end.

(** The Valve [self] with the VLANs [vs]. *)
Definition with_vlans (vs : dict Z VLAN) (self : Valve) : Valve :=
  set_dp (set_vlans vs (dp self)) self.

(** Between [s] and [s'] nothing but host caches of VLANs differs. *)
Definition hosts_only (s s' : Valve) : Prop :=
  (exists vs', s' = with_vlans vs' s) /\
  forall k, opt_rel (fun v v' => v' = set_host_cache (host_cache v') v)
                    (zget k (vlans (dp s))) (zget k (vlans (dp s'))).

(** Ports only go up in [ports_add]: a configured port is as it was, or
    as it was but physically up. *)
Definition ups (s s' : Valve) : Prop :=
  forall n port, zget n (ports (dp s)) = Some port ->
    zget n (ports (dp s')) = Some port \/
    zget n (ports (dp s')) = Some (set_phys_up true port).

(** Whether the diff reports the VLAN [vid'], configured as [new_vlan] in
    the new DP, as changed. *)
Definition vlan_changed (self : Valve) (vid' : Z) (new_vlan : VLAN) : bool :=
  match zget vid' (vlans (dp self)) with
  | None => true
  | Some old_vlan =>
      negb (vlan_eqb old_vlan new_vlan)
      && negb (vlan_eqb (set_tagged_untagged (tagged new_vlan)
                           (untagged new_vlan) old_vlan) new_vlan)
  end.

(** The VLAN the diff leaves in the new DP for [new_vlan]. *)
Definition vlan_carried (self : Valve) (vid' : Z) (new_vlan : VLAN) : VLAN :=
  match zget vid' (vlans (dp self)) with
  | None => new_vlan
  | Some old_vlan =>
      if vlan_eqb old_vlan new_vlan then merge_dyn new_vlan old_vlan
      else new_vlan
  end.

(** The messages of rule number [i] of an ACL whose first rule gets the
    priority [top]. *)
Definition acl_rule_msgs (d : DP) (acl_table : table)
  (acl_allow_inst : instruction) (port_num vlan_vid : option Z) (top : Z)
  (i : nat) (rule : rule_conf) : list ofmsg :=
  let '(acl_match, acl_inst, acl_ofmsgs) :=
    build_acl_entry rule acl_allow_inst (meters d) port_num vlan_vid in
  acl_ofmsgs
  ++ [flowmod acl_table (Some acl_match) (top - Z.of_nat i) acl_inst].

End MoreNotions.

(** * Properties of the embedded code *)

Section DictFacts.
Context {V : Type}.

Lemma zget_zset_same (k : Z) (v : V) (d : list (Z * V)) :
  zget k (zset k v d) = Some v.
Proof.
  unfold zget, zset. induction d as [|[k' v'] d IH]; simpl.
  - now rewrite Z.eqb_refl.
  - destruct (k =? k') eqn:E; simpl; rewrite ?Z.eqb_refl, ?E; auto.
Qed.

Lemma zget_zset_other (k k' : Z) (v : V) (d : list (Z * V)) :
  k' <> k -> zget k' (zset k v d) = zget k' d.
Proof.
  intros Hne. unfold zget, zset.
  induction d as [|[k0 v0] d IH]; simpl.
  - destruct (k' =? k) eqn:E; auto. apply Z.eqb_eq in E. contradiction.
  - destruct (k =? k0) eqn:E; simpl.
    + apply Z.eqb_eq in E. subst k0.
      destruct (k' =? k) eqn:E'; auto. apply Z.eqb_eq in E'. contradiction.
    + destruct (k' =? k0); auto.
Qed.

Lemma dict_keys_zset (k : Z) (v v0 : V) (d : list (Z * V)) :
  zget k d = Some v0 -> dict_keys (zset k v d) = dict_keys d.
Proof.
  unfold zget, zset, dict_keys.
  induction d as [|[k' v'] d IH]; simpl; [discriminate|].
  destruct (k =? k') eqn:E; simpl; intros Hg.
  - apply Z.eqb_eq in E. now subst.
  - f_equal. auto.
Qed.

Lemma zmem_zget (k : Z) (d : list (Z * V)) :
  zmem k d = true <-> exists v, zget k d = Some v.
Proof.
  unfold zmem, zget, dict_mem. destruct (dict_get Z.eqb k d); split; eauto.
  - discriminate.
  - intros [v Hv]. discriminate.
Qed.

Lemma zget_In (k : Z) (v : V) (d : list (Z * V)) :
  zget k d = Some v -> In (k, v) d.
Proof.
  unfold zget. induction d as [|[k' v'] d IH]; simpl; [discriminate|].
  destruct (k =? k') eqn:E.
  - apply Z.eqb_eq in E. intros [= ->]. subst. now left.
  - intros Hg. right. auto.
Qed.

Lemma zget_In_keys (k : Z) (d : list (Z * V)) :
  In k (dict_keys d) -> exists v, zget k d = Some v.
Proof.
  unfold zget, dict_keys. induction d as [|[k' v'] d IH]; simpl; [tauto|].
  intros [->|Hin].
  - rewrite Z.eqb_refl. eauto.
  - destruct (k =? k'); eauto.
Qed.

End DictFacts.

Section RecordFacts.
Context {O : Opaque}.

Lemma set_dyn_id (d : DP) : set_dyn (vlans d) (ports d) (running d) d = d.
Proof. now destruct d. Qed.

Lemma set_dp_id (self : Valve) : set_dp (dp self) self = self.
Proof. now destruct self. Qed.

Lemma set_dyn_set_dyn vs ps r vs' ps' r' (d : DP) :
  set_dyn vs' ps' r' (set_dyn vs ps r d) = set_dyn vs' ps' r' d.
Proof. reflexivity. Qed.

End RecordFacts.

(** ** Deleting a port *)

Section PortsDelete.
Context {O : Opaque} {C : Collaborators}.

Lemma flat_map_singleton {A B} (f : A -> B) (l : list A) :
  flat_map (fun x => [f x]) l = map f l.
Proof. induction l; simpl; congruence. Qed.

(** Marking a port up or down does not change what was learned on any
    port. *)
Lemma learned_on_port_put_port (d : DP) (k n : Z) (b : bool) (port : Port) :
  zget k (ports d) = Some port ->
  _get_eth_srcs_learned_on_port
    (set_ports (zset k (set_phys_up b port) (ports d)) d) n
  = _get_eth_srcs_learned_on_port d n.
Proof.
  intros Hk. unfold _get_eth_srcs_learned_on_port. simpl.
  destruct (Z.eq_dec n k) as [->|Hne].
  - rewrite zget_zset_same, Hk. reflexivity.
  - rewrite zget_zset_other by assumption. reflexivity.
Qed.

Lemma flat_map_flat_map {A B D} (f : B -> list D) (g : A -> list B)
  (l : list A) :
  flat_map f (flat_map g l) = flat_map (fun x => flat_map f (g x)) l.
Proof.
  induction l as [|a l IH]; simpl; [reflexivity|].
  now rewrite flat_map_app, IH.
Qed.

(** What the code collects for a port that is stored under its own
    number is what the specification calls the MACs learned on it. *)
Lemma learned_on_port_is_spec (d : DP) (p : Z) (port : Port) :
  zget p (ports d) = Some port ->
  _get_eth_srcs_learned_on_port d p = macs_learned_on_port d p port.
Proof.
  intros Hp. unfold _get_eth_srcs_learned_on_port, macs_learned_on_port,
    vlans_of_port. rewrite Hp, flat_map_flat_map.
  assert (Hone : forall vlan_vid,
            match zget vlan_vid (vlans d) with
            | Some vlan =>
                map fst (filter (fun item => hce_port (snd item) =? p)
                                (host_cache vlan))
            | None => []
            end
            = flat_map (macs_learned_in p)
                (match zget vlan_vid (vlans d) with
                 | Some vlan => [vlan]
                 | None => []
                 end)).
  { intros vlan_vid. destruct (zget vlan_vid (vlans d)); simpl;
      [now rewrite app_nil_r | reflexivity]. }
  destruct (native_vlan port) as [v|]; simpl.
  - rewrite Hone. f_equal.
    induction (tagged_vlans port) as [|t l IH]; simpl; [reflexivity|].
    now rewrite Hone, IH.
  - induction (tagged_vlans port) as [|t l IH]; simpl; [reflexivity|].
    now rewrite Hone, IH.
Qed.

(** C8.  For a configured port [p] (stored under its own number) that is
    not an ignored port, [ports_delete([p])] marks the port down and
    returns, in this order: a flow-delete matching [in_port] = [p] for
    every table of [in_port_tables()]; the flow-delete of table eth_dst
    with [out_port] = [p]; when the port has [permanent_learn], a
    flow-delete in table eth_src for every MAC learned on [p], that is
    for every MAC whose entry in the host cache of the native VLAN or of
    a tagged VLAN of the port points at [p]; and then the flood rules,
    rebuilt with [modify=True], of every VLAN the port is a tagged or
    native member of. *)
Theorem ports_delete_wipes_port (self : Valve) (p : Z) (port : Port) :
  zget p (ports (dp self)) = Some port ->
  number port = p ->
  ignore_port p = false ->
  ports_delete (dp_id (dp self)) [p] self =
  (Ok (map (fun t => FlowDel t (match_in_port p) None)
          (in_port_tables (dp self))
      ++ [FlowDel (eth_dst_table (tables (dp self))) None (Some p)]
      ++ (if permanent_learn port
          then map (fun eth_src =>
                      FlowDel (eth_src_table (tables (dp self)))
                              (match_eth_src eth_src) None)
                   (macs_learned_on_port (dp self) p port)
          else [])
      ++ flat_map
           (fun vlan =>
              build_flood_rules
                (dp (put_port p (set_phys_up false port) self)) vlan true)
           (set_of_list Z.eqb
              (tagged_vlans port
               ++ match native_vlan port with Some v => [v] | None => [] end))),
   put_port p (set_phys_up false port) self).
Proof.
  intros Hp Hn Hig.
  unfold ports_delete, bind, get_self, _ignore_dpid. simpl.
  rewrite Z.eqb_refl. simpl.
  unfold ports_delete_port, bind, get_self, modify, ret. simpl.
  rewrite Hig, Hp. simpl.
  rewrite learned_on_port_put_port by exact Hp.
  rewrite Hn, (learned_on_port_is_spec _ _ Hp).
  unfold _port_delete_flows, _delete_all_port_match_flows, flowdel. simpl.
  rewrite flat_map_singleton, Hn.
  rewrite app_nil_r, <- !app_assoc. simpl.
  destruct (permanent_learn port); [rewrite flat_map_singleton|]; reflexivity.
Qed.

End PortsDelete.

(** ** Periodic operations and the running flag *)

Section Periodic.
Context {O : Opaque} {C : Collaborators}.

Lemma host_expire_not_running (now : Z) (self : Valve) :
  running (dp self) = false -> host_expire now self = (Ok tt, self).
Proof.
  intros Hr. unfold host_expire, bind, get_self. now rewrite Hr.
Qed.

Lemma resolve_gateways_not_running (now : Z) (self : Valve) :
  running (dp self) = false -> resolve_gateways now self = (Ok [], self).
Proof.
  intros Hr. unfold resolve_gateways, bind, get_self. now rewrite Hr.
Qed.

(** [advertise] does not read [dp.running]: changing the flag changes
    neither the messages nor the new time stamp. *)
Lemma advertise_ignores_running (now : Z) (self : Valve) (r : bool) :
  advertise now (set_dp (set_running r (dp self)) self)
  = (fst (advertise now self),
     set_dp (set_running r (dp (snd (advertise now self))))
            (snd (advertise now self))).
Proof.
  unfold advertise, bind, get_self, modify, ret. simpl.
  destruct (truthy (advertise_interval (dp self))
            && (now - _last_advertise_sec self >? advertise_interval (dp self)));
    reflexivity.
Qed.

End Periodic.

Section PeriodicConcrete.
#[local] Existing Instance Demo.opaque.
#[local] Existing Instance Demo.collaborators.

(** C4.  On a datapath that is not running, [advertise] still emits the
    router advertisement of the route manager and moves
    [_last_advertise_sec]: a Valve that was connected and disconnected,
    with [advertise_interval] 5, called at time 10. *)
Theorem advertise_while_not_running :
  running (dp Demo.v_ra_down) = false /\
  _last_advertise_sec Demo.v_ra_down = 0 /\
  exists self',
    advertise 10 Demo.v_ra_down
    = (Ok [Ext "router advertisement"%string], self') /\
    _last_advertise_sec self' = 10 /\
    self' <> Demo.v_ra_down.
Proof.
  split; [reflexivity|]. split; [reflexivity|].
  eexists. split; [vm_compute; reflexivity|].
  split; [reflexivity|].
  intros Heq. apply (f_equal (@_last_advertise_sec _)) in Heq.
  vm_compute in Heq. discriminate.
Qed.

End PeriodicConcrete.

(** ** Exceptions that leave the Valve *)

Section ExceptionsConcrete.
#[local] Existing Instance Demo.opaque.
#[local] Existing Instance Demo.collaborators.

(** C5.  [flow_timeout] raises KeyError when the removed flow matched a
    VLAN that is not configured (here vid 20 on the datapath of one
    VLAN, vid 10); [rcv_packet] raises KeyError on a stack port when
    another datapath does not carry the VLAN of the packet. *)
Theorem flow_timeout_unknown_vlan_raises :
  flow_timeout 3
    [oxm_in_port 1; oxm_vlan_vid (Z.lor OFPVID_PRESENT 20);
     oxm_eth_src "aa:aa:aa:aa:aa:aa"%string]
    Demo.v_s1 = (Raise KeyError, Demo.v_s1)
  /\ fst (rcv_packet 100 1 [(1, Demo.v_stack1); (2, Demo.v_stack2)]
            (Demo.pkt 1 10 "aa:aa:aa:aa:aa:aa"%string
                      "bb:bb:bb:bb:bb:bb"%string)
            Demo.v_stack1) = Raise KeyError.
Proof. split; vm_compute; reflexivity. Qed.

End ExceptionsConcrete.

(** ** Reasoning about methods that return *)

Section PreservesRules.
Context {O : Opaque}.
Variable R : Valve -> Valve -> Prop.
Hypothesis R_refl : forall s, R s s.
Hypothesis R_trans : forall a b c, R a b -> R b c -> R a c.

Lemma preserves_ret {A} (a : A) : preserves R (ret a).
Proof. intros s. apply R_refl. Qed.

Lemma preserves_raise {A} (e : exn) : preserves R (@raise _ A e).
Proof. intros s. apply R_refl. Qed.

Lemma preserves_get_self : preserves R get_self.
Proof. intros s. apply R_refl. Qed.

Lemma preserves_subscript {A} (o : option A) : preserves R (subscript o).
Proof. destruct o; [apply preserves_ret | apply preserves_raise]. Qed.

Lemma preserves_modify (f : Valve -> Valve) :
  (forall s, R s (f s)) -> preserves R (modify f).
Proof. intros Hf s. apply Hf. Qed.

Lemma preserves_bind {A B} (m : M A) (k : A -> M B) :
  preserves R m -> (forall a, preserves R (k a)) -> preserves R (bind m k).
Proof.
  intros Hm Hk s. unfold bind. specialize (Hm s).
  destruct (m s) as [[a|e] s1]; simpl in *; [|assumption].
  eapply R_trans; [eassumption | apply Hk].
Qed.

Lemma preserves_for_extend {X} (xs : list X) (body : X -> M (list ofmsg)) :
  (forall x, preserves R (body x)) -> preserves R (for_extend xs body).
Proof.
  intros Hb. induction xs as [|x xs IH]; simpl.
  - apply preserves_ret.
  - apply preserves_bind; [apply Hb|]. intros ms.
    apply preserves_bind; [apply IH|]. intros rest. apply preserves_ret.
Qed.

Lemma preserves_for_each {X} (xs : list X) (body : X -> M unit) :
  (forall x, preserves R (body x)) -> preserves R (for_each xs body).
Proof.
  intros Hb. induction xs as [|x xs IH]; simpl.
  - apply preserves_ret.
  - apply preserves_bind; [apply Hb|]. intros _. apply IH.
Qed.

End PreservesRules.

(** The rules above as a tactic: it walks down the body of a method and
    leaves the calls of other methods and the assignments. *)
Ltac pres_walk refl trans :=
  lazymatch goal with
  | |- preserves _ (bind _ _) =>
      eapply preserves_bind;
      [ exact trans | pres_walk refl trans | intro; pres_walk refl trans ]
  | |- preserves _ (ret _) => eapply preserves_ret; exact refl
  | |- preserves _ (raise _) => apply preserves_raise
  | |- preserves _ get_self => eapply preserves_get_self; exact refl
  | |- preserves _ (subscript _) => eapply preserves_subscript; exact refl
  | |- preserves _ (the_vlan _) => unfold the_vlan; pres_walk refl trans
  | |- preserves _ (the_port _) => unfold the_port; pres_walk refl trans
  | |- preserves _ (modify _) => apply preserves_modify; intro
  | |- preserves _ (for_extend _ _) =>
      eapply preserves_for_extend;
      [ exact refl | exact trans | intro; pres_walk refl trans ]
  | |- preserves _ (for_each _ _) =>
      eapply preserves_for_each;
      [ exact refl | exact trans | intro; pres_walk refl trans ]
  | |- preserves _ (if ?b then _ else _) => destruct b; pres_walk refl trans
  | |- preserves _ (match ?x with _ => _ end) =>
      destruct x; pres_walk refl trans
  | |- _ => idtac
  end.

Section Frames.
Context {O : Opaque} {C : Collaborators}.
Variable R : Valve -> Valve -> Prop.
Hypothesis R_refl : forall s, R s s.
Hypothesis R_trans : forall a b c, R a b -> R b c -> R a c.
Hypothesis R_put_vlan : forall k v s, R s (put_vlan k v s).
Hypothesis R_put_port : forall k p s, R s (put_port k p s).
Hypothesis R_set_L3 : forall s, R s (set_L3 true s).
Hypothesis R_set_packet_in : forall c t s, R s (set_packet_in c t s).
Hypothesis R_set_last_advertise_sec :
  forall t s, R s (set_last_advertise_sec t s).
Hypothesis R_set_dp : forall d s, R s (set_dp d s).

Ltac pres := pres_walk R_refl R_trans; auto.

Lemma frame__add_vlan_acl vid : preserves R (_add_vlan_acl vid).
Proof. unfold _add_vlan_acl. pres. Qed.

Lemma frame__add_faucet_vips ipv k vips :
  preserves R (_add_faucet_vips ipv k vips).
Proof. unfold _add_faucet_vips. pres. Qed.

Lemma frame__add_vlan k all : preserves R (_add_vlan k all).
Proof.
  unfold _add_vlan. pres.
  - apply frame__add_vlan_acl.
  - apply frame__add_faucet_vips.
Qed.

Lemma frame__port_add_acl n b : preserves R (_port_add_acl n b).
Proof. unfold _port_add_acl. pres. Qed.

Lemma frame_ports_add_port n acc : preserves R (ports_add_port n acc).
Proof. unfold ports_add_port. pres; apply frame__port_add_acl. Qed.

Lemma frame_ports_add_loop ns acc : preserves R (ports_add_loop ns acc).
Proof.
  revert acc. induction ns as [|n ns IH]; intros acc; simpl; pres.
  apply frame_ports_add_port.
Qed.

Lemma frame_ports_add dp_id ns b : preserves R (ports_add dp_id ns b).
Proof. unfold ports_add. pres. apply frame_ports_add_loop. Qed.

Lemma frame_ports_delete_port n acc : preserves R (ports_delete_port n acc).
Proof. unfold ports_delete_port. pres. Qed.

Lemma frame_ports_delete_loop ns acc : preserves R (ports_delete_loop ns acc).
Proof.
  revert acc. induction ns as [|n ns IH]; intros acc; simpl; pres.
  apply frame_ports_delete_port.
Qed.

Lemma frame_ports_delete dp_id ns : preserves R (ports_delete dp_id ns).
Proof. unfold ports_delete. pres. apply frame_ports_delete_loop. Qed.

Lemma frame_add_vlans_loop ks all : preserves R (add_vlans_loop ks all).
Proof.
  revert all. induction ks as [|k ks IH]; intros all; simpl; pres.
  apply frame__add_vlan.
Qed.

Lemma frame__add_ports_and_vlans ns : preserves R (_add_ports_and_vlans ns).
Proof.
  unfold _add_ports_and_vlans. pres.
  - apply frame_add_vlans_loop.
  - apply frame_ports_add.
Qed.

Lemma frame_port_status_handler dp_id n reason st :
  preserves R (port_status_handler dp_id n reason st).
Proof.
  unfold port_status_handler, port_add, port_delete. pres;
    first [apply frame_ports_add | apply frame_ports_delete].
Qed.

Lemma frame_advertise now : preserves R (advertise now).
Proof. unfold advertise. pres. Qed.

Lemma frame_datapath_connect dp_id ns : preserves R (datapath_connect dp_id ns).
Proof. unfold datapath_connect. pres. apply frame__add_ports_and_vlans. Qed.

Lemma frame_datapath_disconnect dp_id : preserves R (datapath_disconnect dp_id).
Proof. unfold datapath_disconnect. pres. Qed.

Lemma frame_control_plane_loop ipvs pm : preserves R (control_plane_loop ipvs pm).
Proof.
  revert pm. induction ipvs as [|ipv ipvs IH]; intros pm; simpl; pres.
Qed.

Lemma frame_control_plane_handler pm : preserves R (control_plane_handler pm).
Proof. unfold control_plane_handler. pres. apply frame_control_plane_loop. Qed.

Lemma frame__rate_limit_packet_ins now : preserves R (_rate_limit_packet_ins now).
Proof. unfold _rate_limit_packet_ins. pres. Qed.

Lemma frame__learn_host now valves dp_id pm :
  preserves R (_learn_host now valves dp_id pm).
Proof. unfold _learn_host. pres. Qed.

Lemma frame__port_learn_ban_rules pm : preserves R (_port_learn_ban_rules pm).
Proof. unfold _port_learn_ban_rules. pres. Qed.

Lemma frame__vlan_learn_ban_rules pm : preserves R (_vlan_learn_ban_rules pm).
Proof. unfold _vlan_learn_ban_rules. pres. Qed.

Lemma frame_add_host_fib_routes pm : preserves R (add_host_fib_routes pm).
Proof. unfold add_host_fib_routes. pres. Qed.

Lemma frame_rcv_control_plane pm : preserves R (rcv_control_plane pm).
Proof. unfold rcv_control_plane. pres. apply frame_control_plane_handler. Qed.

Lemma frame_rcv_learn now valves dp_id pm h ms :
  preserves R (rcv_learn now valves dp_id pm h ms).
Proof.
  unfold rcv_learn. pres.
  - apply frame__learn_host.
  - apply frame_add_host_fib_routes.
Qed.

Lemma frame_rcv_bans_and_learn now valves dp_id pm h ms :
  preserves R (rcv_bans_and_learn now valves dp_id pm h ms).
Proof.
  unfold rcv_bans_and_learn. pres.
  - apply frame__port_learn_ban_rules.
  - apply frame__vlan_learn_ban_rules.
  - apply frame_rcv_learn.
Qed.

Lemma frame_rcv_packet now dp_id valves pm :
  preserves R (rcv_packet now dp_id valves pm).
Proof.
  unfold rcv_packet. pres.
  - apply frame_rcv_control_plane.
  - apply frame__rate_limit_packet_ins.
  - apply frame_rcv_bans_and_learn.
Qed.

Lemma frame_host_expire now : preserves R (host_expire now).
Proof. unfold host_expire. pres. Qed.

Lemma frame_resolve_gateways now : preserves R (resolve_gateways now).
Proof. unfold resolve_gateways. pres. Qed.

Lemma frame_readd_vlan vid : preserves R (readd_vlan vid).
Proof. unfold readd_vlan. pres. apply frame__add_vlan. Qed.

Lemma frame__apply_config_changes new_dp c :
  preserves R (_apply_config_changes new_dp c).
Proof.
  unfold _apply_config_changes. pres;
    first [ apply frame_datapath_connect | apply frame_ports_delete
          | apply frame_ports_add | apply frame_readd_vlan
          | apply frame__port_add_acl ].
Qed.

Lemma frame_reload_config new_dp : preserves R (reload_config new_dp).
Proof. unfold reload_config. pres. apply frame__apply_config_changes. Qed.

Lemma frame_add_route k ipv gw dst : preserves R (add_route k ipv gw dst).
Proof. unfold add_route. pres. Qed.

Lemma frame_del_route k ipv dst : preserves R (del_route k ipv dst).
Proof. unfold del_route. pres. Qed.

Lemma frame_flow_timeout tid fields : preserves R (flow_timeout tid fields).
Proof. unfold flow_timeout. pres. Qed.

End Frames.

(** ** The routing flag *)

Section Routing.
Context {O : Opaque} {C : Collaborators}.

Lemma L3_kept_refl (s : Valve) : L3_kept s s.
Proof. unfold L3_kept. auto. Qed.

Lemma L3_kept_trans (a b c : Valve) : L3_kept a b -> L3_kept b c -> L3_kept a c.
Proof. unfold L3_kept. auto. Qed.

Ltac L3_frame lem :=
  apply lem;
  first [ exact L3_kept_refl | exact L3_kept_trans
        | unfold L3_kept; intros; simpl; auto ].

Lemma handle_keeps_L3 (e : event) (s : Valve) : L3_kept s (handle e s).
Proof.
  destruct e; simpl.
  - L3_frame frame_datapath_connect.
  - L3_frame frame_datapath_disconnect.
  - L3_frame frame_port_status_handler.
  - L3_frame frame_ports_add.
  - L3_frame frame_ports_delete.
  - L3_frame frame_rcv_packet.
  - L3_frame frame_reload_config.
  - L3_frame frame_flow_timeout.
  - L3_frame frame_host_expire.
  - L3_frame frame_resolve_gateways.
  - L3_frame frame_advertise.
  - L3_frame frame_add_route.
  - L3_frame frame_del_route.
Qed.

Lemma run_keeps_L3 (es : list event) (s : Valve) : L3_kept s (run es s).
Proof.
  unfold run. revert s. induction es as [|e es IH]; intros s; simpl.
  - apply L3_kept_refl.
  - eapply L3_kept_trans; [apply handle_keeps_L3 | apply IH].
Qed.

Lemma for_extend_cons_ok {X} (a : X) (rest : list X)
  (body : X -> M (list ofmsg)) (s : Valve) (ofmsgs : list ofmsg) :
  fst (for_extend (a :: rest) body s) = Ok ofmsgs ->
  exists r s1, body a s = (Ok r, s1) /\
    snd (for_extend (a :: rest) body s) = snd (for_extend rest body s1).
Proof.
  simpl. unfold bind. destruct (body a s) as [[r|e] s1]; simpl;
    [|intros Hx; discriminate Hx].
  intros _. exists r, s1. split; [reflexivity|].
  destruct (for_extend rest body s1) as [[r'|e'] s2]; reflexivity.
Qed.

Lemma _add_faucet_vips_sets_L3 (ipv k : Z) (vips : list vip) (s : Valve) :
  vips <> [] ->
  (exists ofmsgs, fst (_add_faucet_vips ipv k vips s) = Ok ofmsgs) ->
  L3 (snd (_add_faucet_vips ipv k vips s)) = true.
Proof.
  destruct vips as [|a rest]; [congruence|]. intros _ [ofmsgs Hok].
  unfold _add_faucet_vips in *.
  destruct (for_extend_cons_ok _ _ _ _ Hok) as (r & s1 & Hbody & ->).
  assert (HL3 : L3 s1 = true).
  { revert Hbody.
    cbv beta iota delta
      [bind get_self the_vlan raise subscript modify ret].
    destruct (is_some (stack (dp s))); simpl; [intros Hx; discriminate Hx|].
    destruct (zget k (vlans (dp s))) as [vlan|]; simpl;
      [|intros Hx; discriminate Hx].
    destruct (rm_add_faucet_vip ipv vlan a) as [ms rs].
    now intros [= _ <-]. }
  revert HL3. apply (preserves_for_extend L3_kept_refl L3_kept_trans).
  intros x.
  pres_walk L3_kept_refl L3_kept_trans; unfold L3_kept; intros; simpl; auto.
Qed.

Lemma bind_ext_on {A B} (m : M A) (k k' : A -> M B) (s : Valve) :
  (forall a s1, m s = (Ok a, s1) -> k a s1 = k' a s1) ->
  bind m k s = bind m k' s.
Proof.
  intros Hk. unfold bind. destruct (m s) as [[a|e] s1]; [|reflexivity].
  now apply Hk.
Qed.

Lemma L3_after {A} (m : M A) (s s1 : Valve) (r : result A) :
  preserves L3_kept m -> L3 s = true -> m s = (r, s1) -> L3 s1 = true.
Proof. intros Hm HL3 E. specialize (Hm s HL3). now rewrite E in Hm. Qed.

Ltac L3_call lem :=
  eapply L3_after; [L3_frame lem | eassumption | eassumption].

(** With routing on, the tail of [rcv_packet] adds host FIB routes exactly
    when the control plane did not handle the packet. *)
Lemma rcv_bans_and_learn_routed now valves dp_id pm (reply : list ofmsg)
  (s : Valve) :
  L3 s = true ->
  rcv_bans_and_learn now valves dp_id pm (nonempty reply) reply s
  = (ban_port_rules <- _port_learn_ban_rules pm ;;
     if nonempty ban_port_rules then ret (reply ++ ban_port_rules) else
     ban_vlan_rules <- _vlan_learn_ban_rules pm ;;
     if nonempty ban_vlan_rules then ret (reply ++ ban_vlan_rules) else
     learn <- _learn_host now valves dp_id pm ;;
     fib <- (if nonempty reply then ret [] else add_host_fib_routes pm) ;;
     ret (reply ++ learn ++ fib)) s.
Proof.
  intros HL3. unfold rcv_bans_and_learn, rcv_learn.
  apply bind_ext_on. intros bp s1 E1.
  assert (HL1 : L3 s1 = true) by L3_call frame__port_learn_ban_rules.
  destruct (nonempty bp); [reflexivity|].
  apply bind_ext_on. intros bv s2 E2.
  assert (HL2 : L3 s2 = true) by L3_call frame__vlan_learn_ban_rules.
  destruct (nonempty bv); [reflexivity|].
  apply bind_ext_on. intros learn s3 E3.
  assert (HL3' : L3 s3 = true) by L3_call frame__learn_host.
  unfold bind at 1. simpl. rewrite HL3'. simpl.
  destruct (nonempty reply); reflexivity.
Qed.

Lemma bind_get_self {B} (k : Valve -> M B) (s : Valve) :
  bind get_self k s = k s s.
Proof. reflexivity. Qed.

Lemma bind_ret {A B} (a : A) (k : A -> M B) (s : Valve) :
  bind (ret a) k s = k a s.
Proof. reflexivity. Qed.

Lemma bind_assoc {A B D} (m : M A) (f : A -> M B) (g : B -> M D) (s : Valve) :
  bind (bind m f) g s = bind m (fun a => bind (f a) g) s.
Proof.
  unfold bind. destruct (m s) as [[a|e] s1]; reflexivity.
Qed.

Lemma bind_cong_l {A B} (m m' : M A) (k : A -> M B) (s : Valve) :
  m s = m' s -> bind m k s = bind m' k s.
Proof. intros E. unfold bind. now rewrite E. Qed.

(** With routing on and a unicast source, the control plane handler is
    called. *)
Lemma rcv_control_plane_routed pm (s : Valve) :
  L3 s = true ->
  mac_addr_is_unicast (pm_eth_src pm) = true ->
  rcv_control_plane pm s
  = bind (control_plane_handler pm)
         (fun r => ret (nonempty (fst r), fst r, snd r)) s.
Proof.
  intros HL3 Hu. unfold rcv_control_plane.
  rewrite bind_get_self, Hu, HL3.
  apply bind_ext_on. intros [cp pm'] s1 _. destruct cp; reflexivity.
Qed.

Lemma rcv_packet_with_routing now dp_id valves pm (s : Valve) :
  L3 s = true ->
  _known_up_dpid_and_port s dp_id (pm_port pm) = true ->
  zmem (pm_vlan pm) (vlans (dp s)) = true ->
  mac_addr_is_unicast (pm_eth_src pm) = true ->
  rcv_packet now dp_id valves pm s = rcv_packet_routed now dp_id valves pm s.
Proof.
  intros HL3 Hg Hv Hu. unfold rcv_packet, rcv_packet_routed.
  rewrite bind_get_self, Hg, Hv. cbn [negb].
  rewrite (@bind_cong_l _ _ _ _ _ _ (@rcv_control_plane_routed pm s HL3 Hu)).
  rewrite bind_assoc.
  apply bind_ext_on. intros [reply pm'] s1 E1.
  assert (HL1 : L3 s1 = true) by L3_call frame_control_plane_handler.
  rewrite bind_ret. cbn [fst snd].
  apply bind_ext_on. intros limited s2 E2.
  assert (HL2 : L3 s2 = true) by L3_call frame__rate_limit_packet_ins.
  destruct limited; [reflexivity|].
  now apply rcv_bans_and_learn_routed.
Qed.


End Routing.

Section RoutingConcrete.
#[local] Existing Instance Demo.opaque.
#[local] Existing Instance Demo.collaborators.



End RoutingConcrete.

Section PortsDeleteConcrete.
#[local] Existing Instance Demo.opaque.
#[local] Existing Instance Demo.collaborators.

(** Port 1 has [permanent_learn]; the host aa:aa:aa:aa:aa:aa was learned
    on it and the host cc:cc:cc:cc:cc:cc on port 2.  Deleting port 1
    deletes the eth_src flow of the first host only. *)
Lemma ports_delete_wipes_port_witness :
  zget 1 (ports (dp Cases.v_perm)) = Some (Cases.port_of 1 Cases.v_perm) /\
  number (Cases.port_of 1 Cases.v_perm) = 1 /\
  ignore_port 1 = false /\
  permanent_learn (Cases.port_of 1 Cases.v_perm) = true /\
  map fst (host_cache (Demo.vlan_of 10 Cases.v_perm))
  = ["aa:aa:aa:aa:aa:aa"%string; "cc:cc:cc:cc:cc:cc"%string] /\
  fst (ports_delete (dp_id (dp Cases.v_perm)) [1] Cases.v_perm)
  = Ok (map (fun t => FlowDel t (match_in_port 1) None) Demo.all_tables
        ++ [FlowDel (Demo.T 7 "eth_dst") None (Some 1)]
        ++ [FlowDel (Demo.T 3 "eth_src")
              (match_eth_src "aa:aa:aa:aa:aa:aa"%string) None]
        ++ [flowmod (Demo.T 8 "flood") (match_vlan 10) 9000
              [apply_actions [output_port 2]]]).
Proof.
  split; [vm_compute; reflexivity|]. split; [vm_compute; reflexivity|].
  split; [reflexivity|]. split; [vm_compute; reflexivity|].
  split; [vm_compute; reflexivity|].
  rewrite (@ports_delete_wipes_port Demo.opaque Demo.collaborators
             Cases.v_perm 1 (Cases.port_of 1 Cases.v_perm));
    [vm_compute; reflexivity | vm_compute; reflexivity
    | vm_compute; reflexivity | reflexivity].
Defined.

End PortsDeleteConcrete.

(** ** Packets from the dataplane *)

Section PacketIn.
Context {O : Opaque} {C : Collaborators}.

Lemma counters_kept_refl (s : Valve) : counters_kept s s.
Proof. unfold counters_kept. auto. Qed.

Lemma counters_kept_trans (a b c : Valve) :
  counters_kept a b -> counters_kept b c -> counters_kept a c.
Proof. unfold counters_kept. intros [? ?] [? ?]. split; congruence. Qed.

Lemma guards_kept_refl (s : Valve) : guards_kept s s.
Proof. unfold guards_kept. auto. Qed.

Lemma guards_kept_trans (a b c : Valve) :
  guards_kept a b -> guards_kept b c -> guards_kept a c.
Proof.
  unfold guards_kept. intros (? & ? & ? & ?) (? & ? & ? & ?).
  repeat split; try congruence; auto.
Qed.

Lemma zmem_zset {V} (k k' : Z) (v : V) (d : list (Z * V)) :
  zmem k' d = true -> zmem k' (zset k v d) = true.
Proof.
  intros Hm. apply zmem_zget. apply zmem_zget in Hm. destruct Hm as [v0 Hv0].
  destruct (Z.eq_dec k' k) as [->|Hne].
  - rewrite zget_zset_same. eauto.
  - rewrite zget_zset_other by assumption. eauto.
Qed.

Lemma guards_kept_put_vlan k v (s : Valve) : guards_kept s (put_vlan k v s).
Proof.
  unfold guards_kept. simpl. repeat split; auto.
  intros k'. apply zmem_zset.
Qed.

Lemma guards_kept_put_port k p (s : Valve) : guards_kept s (put_port k p s).
Proof.
  unfold guards_kept. simpl. repeat split; auto.
  intros k'. apply zmem_zset.
Qed.

Lemma guards_kept_set_packet_in c t (s : Valve) :
  guards_kept s (set_packet_in c t s).
Proof. unfold guards_kept. simpl. auto. Qed.

Lemma rcv_packet_keeps_guards now dp_id valves pm :
  preserves guards_kept (rcv_packet now dp_id valves pm).
Proof.
  apply frame_rcv_packet.
  - exact guards_kept_refl.
  - exact guards_kept_trans.
  - exact guards_kept_put_vlan.
  - exact guards_kept_put_port.
  - exact guards_kept_set_packet_in.
Qed.

Lemma rcv_bans_and_learn_keeps_counters now valves dp_id pm h ms :
  preserves counters_kept (rcv_bans_and_learn now valves dp_id pm h ms).
Proof.
  apply frame_rcv_bans_and_learn.
  - exact counters_kept_refl.
  - exact counters_kept_trans.
  - intros; unfold counters_kept; simpl; auto.
  - intros; unfold counters_kept; simpl; auto.
Qed.

(** *** Only route state changes in the control plane *)

Lemma opt_rel_refl {A} (r : A -> A -> Prop) (o : option A) :
  (forall a, r a a) -> opt_rel r o o.
Proof. destruct o; simpl; auto. Qed.

Lemma same_but_route_refl (v : VLAN) : same_but_route v v.
Proof. unfold same_but_route. now destruct v. Qed.

Lemma same_but_route_trans (a b c : VLAN) :
  same_but_route a b -> same_but_route b c -> same_but_route a c.
Proof.
  unfold same_but_route. intros Hab Hbc. rewrite Hbc at 1. rewrite Hab at 1.
  reflexivity.
Qed.

Lemma route_only_refl (s : Valve) : route_only s s.
Proof.
  split.
  - exists (vlans (dp s)). unfold set_vlans. now rewrite set_dyn_id, set_dp_id.
  - intros k. apply opt_rel_refl. apply same_but_route_refl.
Qed.

Lemma route_only_trans (a b c : Valve) :
  route_only a b -> route_only b c -> route_only a c.
Proof.
  intros [[vb ->] Hab] [[vc ->] Hbc]. split.
  - exists vc. reflexivity.
  - intros k. specialize (Hab k). specialize (Hbc k). simpl in *.
    destruct (zget k (vlans (dp a))), (zget k vb), (zget k vc);
      simpl in *; try tauto.
    eapply same_but_route_trans; eassumption.
Qed.

Lemma route_only_put_vlan k v rs (s : Valve) :
  zget k (vlans (dp s)) = Some v ->
  route_only s (put_vlan k (set_vlan_route_state rs v) s).
Proof.
  intros Hk. split.
  - eexists. reflexivity.
  - intros k'. simpl. destruct (Z.eq_dec k' k) as [->|Hne].
    + rewrite zget_zset_same, Hk. reflexivity.
    + rewrite zget_zset_other by assumption.
      apply opt_rel_refl. apply same_but_route_refl.
Qed.

Lemma route_only_zget k v (s s1 : Valve) :
  route_only s s1 -> zget k (vlans (dp s)) = Some v ->
  exists v1, zget k (vlans (dp s1)) = Some v1 /\ same_but_route v v1.
Proof.
  intros [_ Hr] Hk. specialize (Hr k). rewrite Hk in Hr.
  destruct (zget k (vlans (dp s1))) as [v1|]; simpl in Hr; [eauto|tauto].
Qed.

Lemma route_only_zmem k (s s1 : Valve) :
  route_only s s1 -> zmem k (vlans (dp s)) = true ->
  zmem k (vlans (dp s1)) = true.
Proof.
  intros Hr Hm. apply zmem_zget in Hm. destruct Hm as [v Hv].
  destruct (route_only_zget k Hr Hv) as (v1 & Hv1 & _).
  apply zmem_zget. eauto.
Qed.

Lemma learned_on_port_ext (d d1 : DP) n :
  ports d1 = ports d ->
  (forall k, opt_rel (fun v v1 => host_cache v1 = host_cache v)
                     (zget k (vlans d)) (zget k (vlans d1))) ->
  _get_eth_srcs_learned_on_port d1 n = _get_eth_srcs_learned_on_port d n.
Proof.
  intros Hp Hv. unfold _get_eth_srcs_learned_on_port. rewrite Hp.
  destruct (zget n (ports d)) as [port|]; [|reflexivity].
  apply flat_map_ext. intros o. destruct o as [vid|]; [|reflexivity].
  specialize (Hv vid).
  destruct (zget vid (vlans d)) as [v|], (zget vid (vlans d1)) as [v1|];
    simpl in Hv; try tauto.
  now rewrite Hv.
Qed.

Lemma route_only_learned (s s1 : Valve) n :
  route_only s s1 ->
  _get_eth_srcs_learned_on_port (dp s1) n
  = _get_eth_srcs_learned_on_port (dp s) n.
Proof.
  intros [[vs1 ->] Hr]. apply learned_on_port_ext; [reflexivity|].
  intros k. specialize (Hr k).
  destruct (zget k (vlans (dp s))) as [v|],
           (zget k (vlans (dp (set_dp (set_vlans vs1 (dp s)) s)))) as [v1|];
    simpl in *; try tauto.
  rewrite Hr. reflexivity.
Qed.

Lemma same_headers_refl (pm : PacketMeta) : same_headers pm pm.
Proof. unfold same_headers. auto. Qed.

Lemma same_headers_trans (a b c : PacketMeta) :
  same_headers a b -> same_headers b c -> same_headers a c.
Proof.
  unfold same_headers. intros (? & ? & ? & ?) (? & ? & ? & ?).
  repeat split; congruence.
Qed.

Lemma reparse_ip_headers (pm : PacketMeta) (eth_type payload : Z) :
  same_headers pm (reparse_ip pm eth_type payload).
Proof.
  unfold reparse_ip, reparse.
  destruct (parse_packet_in_pkt (pm_data pm) (ip_header_len eth_type + payload))
    as [[pkt|] [v|]]; unfold same_headers; simpl; auto.
Qed.

Ltac munfold :=
  cbv beta iota delta
    [bind the_vlan the_port get_self subscript modify ret raise].

Ltac unchanged :=
  split; [reflexivity | split; [apply route_only_refl | apply same_headers_refl]].

(** The control plane returns, and touches nothing but route state. *)
Lemma control_plane_loop_ok (ipvs : list Z) (pm : PacketMeta) (s : Valve) :
  zmem (pm_vlan pm) (vlans (dp s)) = true ->
  exists ofmsgs pm' s1,
    control_plane_loop ipvs pm s = (Ok (ofmsgs, pm'), s1) /\
    route_only s s1 /\ same_headers pm pm'.
Proof.
  revert pm s. induction ipvs as [|ipv ipvs IH]; intros pm s Hm; simpl.
  - exists [], pm, s. unchanged.
  - pose proof (reparse_ip_headers pm (ETH_TYPE ipv) 0) as Hh.
    set (pm1 := reparse_ip pm (ETH_TYPE ipv) 0) in *.
    assert (Hv : pm_vlan pm1 = pm_vlan pm) by apply Hh.
    pose proof Hm as Hm'. apply zmem_zget in Hm'. destruct Hm' as [v Hv0].
    munfold. rewrite Hv, Hv0.
    destruct (rm_control_plane_handler ipv pm1 v) as [ofmsgs rs].
    pose proof (route_only_put_vlan (pm_vlan pm) rs s Hv0) as Hr.
    destruct (nonempty ofmsgs).
    + eexists _, _, _. split; [reflexivity|]. split; [exact Hr | exact Hh].
    + destruct (IH pm1 (put_vlan (pm_vlan pm) (set_vlan_route_state rs v) s))
        as (ms & pm' & s1 & E & Hr1 & Hh1).
      { rewrite Hv. eapply route_only_zmem; eassumption. }
      exists ms, pm', s1. split; [exact E|]. split.
      * eapply route_only_trans; eassumption.
      * eapply same_headers_trans; eassumption.
Qed.

Lemma control_plane_handler_ok (pm : PacketMeta) (s : Valve) :
  zmem (pm_vlan pm) (vlans (dp s)) = true ->
  exists ofmsgs pm' s1,
    control_plane_handler pm s = (Ok (ofmsgs, pm'), s1) /\
    route_only s s1 /\ same_headers pm pm'.
Proof.
  intros Hm. unfold control_plane_handler.
  pose proof Hm as Hm'. apply zmem_zget in Hm'. destruct Hm' as [v Hv0].
  unfold the_vlan. rewrite bind_assoc, bind_get_self. unfold subscript.
  rewrite Hv0, bind_ret.
  destruct (String.eqb (pm_eth_dst pm) (faucet_mac v)
            || negb (mac_addr_is_unicast (pm_eth_dst pm))).
  - now apply control_plane_loop_ok.
  - exists [], pm, s. unchanged.
Qed.

Lemma rcv_control_plane_ok (pm : PacketMeta) (s : Valve) :
  zmem (pm_vlan pm) (vlans (dp s)) = true ->
  exists handled reply pm' s1,
    rcv_control_plane pm s = (Ok (handled, reply, pm'), s1) /\
    route_only s s1 /\ same_headers pm pm'.
Proof.
  intros Hm. unfold rcv_control_plane. rewrite bind_get_self.
  destruct (mac_addr_is_unicast (pm_eth_src pm));
    [|exists false, [], pm, s; unchanged].
  destruct (L3 s); [|exists false, [], pm, s; unchanged].
  destruct (control_plane_handler_ok pm s Hm)
    as (ofmsgs & pm' & s1 & E & Hr & Hh).
  unfold bind. rewrite E.
  destruct (nonempty ofmsgs);
    [exists true, ofmsgs, pm', s1 | exists false, [], pm', s1];
    (split; [reflexivity | split; assumption]).
Qed.

(** The rate limit in closed form. *)
Lemma _rate_limit_packet_ins_eq (now : Z) (s : Valve) :
  _rate_limit_packet_ins now s
  = (Ok (rate_limited now s), set_packet_in (next_count now s) now s).
Proof.
  unfold _rate_limit_packet_ins, rate_limited, next_count. munfold.
  destruct (_last_packet_in_sec s =? now) eqn:E; simpl.
  - apply Z.eqb_eq in E. rewrite E.
    destruct (truthy (ignore_learn_ins (dp s))); simpl; [|reflexivity].
    destruct (_ mod _ =? 0); reflexivity.
  - destruct (truthy (ignore_learn_ins (dp s))); simpl; [|reflexivity].
    destruct (_ mod _ =? 0); reflexivity.
Qed.

(** The two learn bans in closed form. *)
Lemma _port_learn_ban_rules_eq (pm : PacketMeta) (s : Valve) (port : Port) :
  zget (pm_port pm) (ports (dp s)) = Some port ->
  number port = pm_port pm ->
  _port_learn_ban_rules pm s
  = if port_at_cap (dp s) port
    then (Ok [temp_ban_host_learning_on_port port],
          put_port (pm_port pm)
            (set_port_learn_ban_count (port_learn_ban_count port + 1) port) s)
    else (Ok [], s).
Proof.
  intros Hp Hn. unfold _port_learn_ban_rules, port_at_cap. munfold.
  rewrite Hp, Hn, Hp. destruct (port_max_hosts port) as [m|]; [|reflexivity].
  destruct (_ =? m); reflexivity.
Qed.

Lemma _vlan_learn_ban_rules_eq (pm : PacketMeta) (s : Valve) (vlan : VLAN) :
  zget (pm_vlan pm) (vlans (dp s)) = Some vlan ->
  _vlan_learn_ban_rules pm s
  = if vlan_full vlan && negb (mmem (pm_eth_src pm) (host_cache vlan))
    then (Ok [temp_ban_host_learning_on_vlan vlan],
          put_vlan (pm_vlan pm)
            (set_vlan_learn_ban_count (vlan_learn_ban_count vlan + 1) vlan) s)
    else (Ok [], s).
Proof.
  intros Hv. unfold _vlan_learn_ban_rules, vlan_full. munfold. rewrite Hv.
  destruct (vlan_max_hosts vlan) as [m|]; [|reflexivity].
  destruct ((hosts_learned_on_vlan_count vlan =? m)
            && negb (mmem (pm_eth_src pm) (host_cache vlan))); reflexivity.
Qed.

Lemma route_only_rate (now : Z) (s s1 : Valve) :
  route_only s s1 ->
  next_count now s1 = next_count now s /\
  rate_limited now s1 = rate_limited now s.
Proof. intros [[vs ->] _]. split; reflexivity. Qed.

(** A packet that passes the guards: the control plane, then the rate
    limit, then the bans and learning. *)
Lemma rcv_packet_accepted now dp_id valves (pm : PacketMeta) (s : Valve) :
  _known_up_dpid_and_port s dp_id (pm_port pm) = true ->
  zmem (pm_vlan pm) (vlans (dp s)) = true ->
  exists handled reply pm' s1,
    rcv_control_plane pm s = (Ok (handled, reply, pm'), s1) /\
    route_only s s1 /\ same_headers pm pm' /\
    rcv_packet now dp_id valves pm s
    = if rate_limited now s
      then (Ok reply, set_packet_in (next_count now s) now s1)
      else rcv_bans_and_learn now valves dp_id pm' handled reply
             (set_packet_in (next_count now s) now s1).
Proof.
  intros Hg Hv.
  destruct (rcv_control_plane_ok pm s Hv) as (h & reply & pm' & s1 & E & Hr & Hh).
  exists h, reply, pm', s1. repeat (split; [assumption|]).
  unfold rcv_packet. rewrite bind_get_self, Hg, Hv. cbn [negb].
  unfold bind at 1. rewrite E. unfold bind at 1.
  rewrite _rate_limit_packet_ins_eq.
  destruct (route_only_rate now Hr) as [-> ->].
  destruct (rate_limited now s); reflexivity.
Qed.

Lemma guards_kept_known (s s' : Valve) (dpid in_port : Z) :
  guards_kept s s' ->
  _known_up_dpid_and_port s dpid in_port = true ->
  _known_up_dpid_and_port s' dpid in_port = true.
Proof.
  intros (Hs & Hr & _ & Hp). unfold _known_up_dpid_and_port, _ignore_dpid.
  rewrite Hr.
  assert (Hid : dp_id (dp s') = dp_id (dp s))
    by exact (f_equal (@dp_id _) Hs).
  rewrite Hid. intros H.
  apply andb_true_iff in H. destruct H as [H H4].
  rewrite (Hp _ H4), H. reflexivity.
Qed.

Lemma guards_kept_ignore_learn_ins (s s' : Valve) :
  guards_kept s s' -> ignore_learn_ins (dp s') = ignore_learn_ins (dp s).
Proof. intros (Hs & _). exact (f_equal (@ignore_learn_ins _) Hs). Qed.

(** C9.  For every [rcv_packet] call that passes the guards
    (own datapath, known and not ignored port, datapath running, known
    VLAN): the control plane handler returns [reply], having touched
    route state only; the per-second packet-in counter is then
    incremented, after a reset when the second changed; and if
    [ignore_learn_ins] > 0 and the counter modulo [ignore_learn_ins] is 0,
    [rcv_packet] returns [reply] and leaves the Valve as the control plane
    left it, up to the counter: no ban, nothing learned, no FIB route.
    In particular with [ignore_learn_ins] = 2 the second such packet-in of
    a second returns early. *)
Theorem rcv_packet_rate_limit now dpid valves (pm : PacketMeta) (s : Valve) :
  _known_up_dpid_and_port s dpid (pm_port pm) = true ->
  zmem (pm_vlan pm) (vlans (dp s)) = true ->
  exists handled reply pm' s1,
    rcv_control_plane pm s = (Ok (handled, reply, pm'), s1) /\
    route_only s s1 /\
    _packet_in_count_sec (snd (rcv_packet now dpid valves pm s))
    = next_count now s /\
    _last_packet_in_sec (snd (rcv_packet now dpid valves pm s)) = now /\
    (0 < ignore_learn_ins (dp s) ->
     next_count now s mod ignore_learn_ins (dp s) = 0 ->
     rcv_packet now dpid valves pm s
     = (Ok reply, set_packet_in (next_count now s) now s1)) /\
    (ignore_learn_ins (dp s) = 2 ->
     _last_packet_in_sec s <> now ->
     forall valves2 pm2,
       _known_up_dpid_and_port s dpid (pm_port pm2) = true ->
       zmem (pm_vlan pm2) (vlans (dp s)) = true ->
       exists handled2 reply2 pm2' s2,
         rcv_control_plane pm2 (snd (rcv_packet now dpid valves pm s))
         = (Ok (handled2, reply2, pm2'), s2) /\
         route_only (snd (rcv_packet now dpid valves pm s)) s2 /\
         rcv_packet now dpid valves2 pm2 (snd (rcv_packet now dpid valves pm s))
         = (Ok reply2, set_packet_in 2 now s2)).
Proof.
  intros Hg Hv.
  destruct (rcv_packet_accepted now dpid valves pm s Hg Hv)
    as (h & reply & pm' & s1 & E & Hr & Hh & Erp).
  exists h, reply, pm', s1. split; [exact E|]. split; [exact Hr|].
  assert (Hcnt : _packet_in_count_sec (snd (rcv_packet now dpid valves pm s))
                 = next_count now s /\
                 _last_packet_in_sec (snd (rcv_packet now dpid valves pm s))
                 = now).
  { rewrite Erp. destruct (rate_limited now s); [split; reflexivity|].
    exact (rcv_bans_and_learn_keeps_counters now valves dpid pm' h reply
             (set_packet_in (next_count now s) now s1)). }
  destruct Hcnt as [Hc1 Hc2].
  split; [exact Hc1|]. split; [exact Hc2|]. split.
  - intros Hpos Hmod. rewrite Erp. unfold rate_limited, truthy.
    rewrite Hmod. replace (ignore_learn_ins (dp s) =? 0) with false
      by (symmetry; apply Z.eqb_neq; lia).
    reflexivity.
  - intros Hign Hlast valves2 pm2 Hg2 Hv2.
    pose proof (rcv_packet_keeps_guards now dpid valves pm s) as Hk.
    set (s' := snd (rcv_packet now dpid valves pm s)) in *.
    assert (Hg2' := guards_kept_known dpid (pm_port pm2) Hk Hg2).
    assert (Hv2' : zmem (pm_vlan pm2) (vlans (dp s')) = true)
      by (apply Hk; exact Hv2).
    destruct (rcv_packet_accepted now dpid valves2 pm2 s' Hg2' Hv2')
      as (h2 & reply2 & pm2' & s2 & E2 & Hr2 & Hh2 & Erp2).
    exists h2, reply2, pm2', s2. split; [exact E2|]. split; [exact Hr2|].
    rewrite Erp2. unfold rate_limited, next_count.
    rewrite (guards_kept_ignore_learn_ins Hk), Hign, Hc2, Hc1, Z.eqb_refl.
    unfold next_count.
    replace (_last_packet_in_sec s =? now) with false
      by (symmetry; apply Z.eqb_neq; exact Hlast).
    reflexivity.
Qed.

Lemma route_only_host_cache (s s1 : Valve) k v :
  route_only s s1 -> zget k (vlans (dp s)) = Some v ->
  exists v1, zget k (vlans (dp s1)) = Some v1 /\
    host_cache v1 = host_cache v /\
    vlan_learn_ban_count v1 = vlan_learn_ban_count v /\
    vlan_max_hosts v1 = vlan_max_hosts v.
Proof.
  intros Hr Hk. destruct (route_only_zget k Hr Hk) as (v1 & Hv1 & Hs).
  exists v1. split; [exact Hv1|]. unfold same_but_route in Hs.
  rewrite Hs. auto.
Qed.

(** C6.  A packet-in passes the guards and is not dropped by
    the rate limit; it arrives on a port whose number of learned MACs is
    its [max_hosts].  Then [rcv_packet] returns the control plane replies
    followed by the port learn-ban flow, adds one to the
    [learn_ban_count] of the port, and leaves the host cache and the
    [learn_ban_count] of every VLAN as they were: nothing is learned and
    the VLAN check is not reached. *)
Theorem port_learn_ban now dpid valves (pm : PacketMeta) (s : Valve)
  (port : Port) :
  _known_up_dpid_and_port s dpid (pm_port pm) = true ->
  zmem (pm_vlan pm) (vlans (dp s)) = true ->
  rate_limited now s = false ->
  zget (pm_port pm) (ports (dp s)) = Some port ->
  number port = pm_port pm ->
  port_at_cap (dp s) port = true ->
  exists handled reply pm' s1,
    rcv_control_plane pm s = (Ok (handled, reply, pm'), s1) /\
    route_only s s1 /\
    rcv_packet now dpid valves pm s
    = (Ok (reply ++ [temp_ban_host_learning_on_port port]),
       put_port (pm_port pm)
         (set_port_learn_ban_count (port_learn_ban_count port + 1) port)
         (set_packet_in (next_count now s) now s1)) /\
    (forall k v, zget k (vlans (dp s)) = Some v ->
       exists v', zget k (vlans (dp (snd (rcv_packet now dpid valves pm s))))
                  = Some v' /\
         host_cache v' = host_cache v /\
         vlan_learn_ban_count v' = vlan_learn_ban_count v).
Proof.
  intros Hg Hv Hlim Hp Hn Hcap.
  destruct (rcv_packet_accepted now dpid valves pm s Hg Hv)
    as (h & reply & pm' & s1 & E & Hr & Hh & Erp).
  exists h, reply, pm', s1. split; [exact E|]. split; [exact Hr|].
  rewrite Hlim in Erp.
  assert (Hport : pm_port pm' = pm_port pm) by apply Hh.
  assert (Erp' : rcv_packet now dpid valves pm s
    = (Ok (reply ++ [temp_ban_host_learning_on_port port]),
       put_port (pm_port pm)
         (set_port_learn_ban_count (port_learn_ban_count port + 1) port)
         (set_packet_in (next_count now s) now s1))).
  { rewrite Erp. unfold rcv_bans_and_learn. unfold bind at 1.
    rewrite (@_port_learn_ban_rules_eq pm'
               (set_packet_in (next_count now s) now s1) port).
    - replace (port_at_cap (dp (set_packet_in (next_count now s) now s1)) port)
        with true.
      + rewrite Hport. reflexivity.
      + rewrite <- Hcap. unfold port_at_cap. simpl.
        now rewrite (route_only_learned (number port) Hr).
    - rewrite Hport. destruct Hr as [[vs ->] _]. exact Hp.
    - now rewrite Hport. }
  split; [exact Erp'|].
  intros k v Hk. rewrite Erp'. simpl.
  destruct (route_only_host_cache k Hr Hk) as (v1 & Hv1 & Hc & Hb & _).
  exists v1. auto.
Qed.

(** C2.  A packet-in passes the guards, is not dropped by the
    rate limit and does not trigger the port learn ban; the host cache of
    its VLAN holds [max_hosts] MACs.  If the source MAC is not in the host
    cache, [rcv_packet] returns the control plane replies followed by the
    VLAN learn-ban flow and adds one to the [learn_ban_count] of the VLAN,
    whose host cache is unchanged.  If the source MAC is in the host
    cache, no VLAN ban is emitted and [rcv_packet] goes on to learn the
    host. *)
Theorem vlan_learn_ban now dpid valves (pm : PacketMeta) (s : Valve)
  (port : Port) (vlan : VLAN) :
  _known_up_dpid_and_port s dpid (pm_port pm) = true ->
  rate_limited now s = false ->
  zget (pm_port pm) (ports (dp s)) = Some port ->
  number port = pm_port pm ->
  port_at_cap (dp s) port = false ->
  zget (pm_vlan pm) (vlans (dp s)) = Some vlan ->
  vlan_full vlan = true ->
  exists handled reply pm' s1 vlan1,
    rcv_control_plane pm s = (Ok (handled, reply, pm'), s1) /\
    route_only s s1 /\ same_headers pm pm' /\
    zget (pm_vlan pm) (vlans (dp s1)) = Some vlan1 /\
    host_cache vlan1 = host_cache vlan /\
    (mmem (pm_eth_src pm) (host_cache vlan) = false ->
     rcv_packet now dpid valves pm s
     = (Ok (reply ++ [temp_ban_host_learning_on_vlan vlan1]),
        put_vlan (pm_vlan pm)
          (set_vlan_learn_ban_count (vlan_learn_ban_count vlan + 1) vlan1)
          (set_packet_in (next_count now s) now s1))) /\
    (mmem (pm_eth_src pm) (host_cache vlan) = true ->
     rcv_packet now dpid valves pm s
     = rcv_learn now valves dpid pm' handled reply
         (set_packet_in (next_count now s) now s1)).
Proof.
  intros Hg Hlim Hp Hn Hcap Hvl Hfull.
  assert (Hv : zmem (pm_vlan pm) (vlans (dp s)) = true)
    by (apply zmem_zget; eauto).
  destruct (rcv_packet_accepted now dpid valves pm s Hg Hv)
    as (h & reply & pm' & s1 & E & Hr & Hh & Erp).
  destruct (route_only_host_cache (pm_vlan pm) Hr Hvl)
    as (vlan1 & Hv1 & Hc & Hb & Hm).
  exists h, reply, pm', s1, vlan1.
  repeat (split; [assumption|]).
  rewrite Hlim in Erp.
  assert (Hport : pm_port pm' = pm_port pm) by apply Hh.
  assert (Hvid : pm_vlan pm' = pm_vlan pm) by apply Hh.
  assert (Hsrc : pm_eth_src pm' = pm_eth_src pm) by apply Hh.
  set (s2 := set_packet_in (next_count now s) now s1) in *.
  assert (Eport : _port_learn_ban_rules pm' s2 = (Ok [], s2)).
  { rewrite (@_port_learn_ban_rules_eq pm' s2 port).
    - replace (port_at_cap (dp s2) port) with false; [reflexivity|].
      rewrite <- Hcap. unfold port_at_cap. simpl.
      now rewrite (route_only_learned (number port) Hr).
    - rewrite Hport. destruct Hr as [[vs ->] _]. exact Hp.
    - now rewrite Hport. }
  assert (Evlan : _vlan_learn_ban_rules pm' s2
    = if negb (mmem (pm_eth_src pm) (host_cache vlan))
      then (Ok [temp_ban_host_learning_on_vlan vlan1],
            put_vlan (pm_vlan pm)
              (set_vlan_learn_ban_count (vlan_learn_ban_count vlan + 1) vlan1)
              s2)
      else (Ok [], s2)).
  { rewrite (@_vlan_learn_ban_rules_eq pm' s2 vlan1)
      by (rewrite Hvid; exact Hv1).
    replace (vlan_full vlan1) with true.
    - rewrite Hsrc, Hc, Hvid, Hb. reflexivity.
    - rewrite <- Hfull. unfold vlan_full, hosts_learned_on_vlan_count.
      now rewrite Hm, Hc. }
  split.
  - intros Hnew. rewrite Erp. unfold rcv_bans_and_learn.
    unfold bind at 1. rewrite Eport. cbn [nonempty].
    unfold bind at 1. rewrite Evlan, Hnew. reflexivity.
  - intros Hold. rewrite Erp. unfold rcv_bans_and_learn.
    unfold bind at 1. rewrite Eport. cbn [nonempty].
    unfold bind at 1. rewrite Evlan, Hold. reflexivity.
Qed.

End PacketIn.

Section PacketInConcrete.
#[local] Existing Instance Demo.opaque.
#[local] Existing Instance Demo.collaborators.

(** A packet-in for a datapath that is not running: [rcv_packet] returns
    at the guard and the per-second counter is not incremented. *)
Lemma rcv_packet_guard_skips_counter :
  rcv_packet 100 1 [] Demo.pkt_aa (Demo.after (datapath_disconnect 1) Demo.v_s1)
  = (Ok [], Demo.after (datapath_disconnect 1) Demo.v_s1) /\
  _packet_in_count_sec (Demo.after (datapath_disconnect 1) Demo.v_s1) = 0 /\
  next_count 100 (Demo.after (datapath_disconnect 1) Demo.v_s1) = 1.
Proof.
  split; [vm_compute; reflexivity|]. split; vm_compute; reflexivity.
Qed.

Lemma rcv_packet_rate_limit_witness :
  exists handled reply pm' s1,
    rcv_control_plane Demo.pkt_aa Demo.v_caps = (Ok (handled, reply, pm'), s1) /\
    route_only Demo.v_caps s1 /\
    _packet_in_count_sec (snd (rcv_packet 100 1 [] Demo.pkt_aa Demo.v_caps))
    = next_count 100 Demo.v_caps /\
    _last_packet_in_sec (snd (rcv_packet 100 1 [] Demo.pkt_aa Demo.v_caps))
    = 100 /\
    (0 < ignore_learn_ins (dp Demo.v_caps) ->
     next_count 100 Demo.v_caps mod ignore_learn_ins (dp Demo.v_caps) = 0 ->
     rcv_packet 100 1 [] Demo.pkt_aa Demo.v_caps
     = (Ok reply, set_packet_in (next_count 100 Demo.v_caps) 100 s1)) /\
    (ignore_learn_ins (dp Demo.v_caps) = 2 ->
     _last_packet_in_sec Demo.v_caps <> 100 ->
     forall valves2 pm2,
       _known_up_dpid_and_port Demo.v_caps 1 (pm_port pm2) = true ->
       zmem (pm_vlan pm2) (vlans (dp Demo.v_caps)) = true ->
       exists handled2 reply2 pm2' s2,
         rcv_control_plane pm2 (snd (rcv_packet 100 1 [] Demo.pkt_aa Demo.v_caps))
         = (Ok (handled2, reply2, pm2'), s2) /\
         route_only (snd (rcv_packet 100 1 [] Demo.pkt_aa Demo.v_caps)) s2 /\
         rcv_packet 100 1 valves2 pm2
           (snd (rcv_packet 100 1 [] Demo.pkt_aa Demo.v_caps))
         = (Ok reply2, set_packet_in 2 100 s2)).
Proof.
  apply (@rcv_packet_rate_limit _ _ 100 1 [] Demo.pkt_aa Demo.v_caps);
    vm_compute; reflexivity.
Defined.

(** Port 1 holds its one host and a new MAC arrives on it, but the
    packet-in is the second of its second and every second one is
    ignored: no ban flow is returned and the ban count of the port stays
    0. *)
Lemma port_at_cap_but_rate_limited :
  _known_up_dpid_and_port Demo.v_caps_full 1 (pm_port Demo.pkt_cc) = true /\
  option_map (port_at_cap (dp Demo.v_caps_full))
    (zget 1 (ports (dp Demo.v_caps_full))) = Some true /\
  fst (rcv_packet 100 1 [] Demo.pkt_cc Demo.v_caps_full) = Ok [] /\
  option_map (@port_learn_ban_count _)
    (zget 1 (ports (dp (snd (rcv_packet 100 1 [] Demo.pkt_cc
                               Demo.v_caps_full))))) = Some 0.
Proof.
  repeat (split; [vm_compute; reflexivity|]). vm_compute; reflexivity.
Qed.

Lemma port_learn_ban_witness :
  exists handled reply pm' s1,
    rcv_control_plane Demo.pkt_cc Demo.v_caps_full
    = (Ok (handled, reply, pm'), s1) /\
    route_only Demo.v_caps_full s1 /\
    rcv_packet 101 1 [] Demo.pkt_cc Demo.v_caps_full
    = (Ok (reply ++ [temp_ban_host_learning_on_port
                       (set_phys_up true (Demo.mk_port 1 10 (Some 1)))]),
       put_port (pm_port Demo.pkt_cc)
         (set_port_learn_ban_count
            (port_learn_ban_count
               (set_phys_up true (Demo.mk_port 1 10 (Some 1))) + 1)
            (set_phys_up true (Demo.mk_port 1 10 (Some 1))))
         (set_packet_in (next_count 101 Demo.v_caps_full) 101 s1)) /\
    (forall k v, zget k (vlans (dp Demo.v_caps_full)) = Some v ->
       exists v',
         zget k (vlans (dp (snd (rcv_packet 101 1 [] Demo.pkt_cc
                                   Demo.v_caps_full)))) = Some v' /\
         host_cache v' = host_cache v /\
         vlan_learn_ban_count v' = vlan_learn_ban_count v).
Proof.
  apply (@port_learn_ban _ _ 101 1 [] Demo.pkt_cc Demo.v_caps_full
           (set_phys_up true (Demo.mk_port 1 10 (Some 1))));
    vm_compute; reflexivity.
Defined.

(** VLAN 10 holds its one host and a new unicast MAC arrives, on a port
    that is itself at its limit: the port learn ban is returned, not the
    VLAN learn ban, and the ban count of the VLAN stays 0. *)
Lemma vlan_full_but_port_ban_first :
  _known_up_dpid_and_port Demo.v_caps_full 1 (pm_port Demo.pkt_cc) = true /\
  rate_limited 101 Demo.v_caps_full = false /\
  option_map vlan_full (zget 10 (vlans (dp Demo.v_caps_full))) = Some true /\
  option_map (fun v => mmem (pm_eth_src Demo.pkt_cc) (host_cache v))
    (zget 10 (vlans (dp Demo.v_caps_full))) = Some false /\
  mac_addr_is_unicast (pm_eth_src Demo.pkt_cc) = true /\
  fst (rcv_packet 101 1 [] Demo.pkt_cc Demo.v_caps_full)
  = Ok [temp_ban_host_learning_on_port
          (set_phys_up true (Demo.mk_port 1 10 (Some 1)))] /\
  option_map (@vlan_learn_ban_count _)
    (zget 10 (vlans (dp (snd (rcv_packet 101 1 [] Demo.pkt_cc
                                Demo.v_caps_full))))) = Some 0.
Proof.
  repeat (split; [vm_compute; reflexivity|]). vm_compute; reflexivity.
Qed.

Lemma vlan_learn_ban_witness :
  exists handled reply pm' s1 vlan1,
    rcv_control_plane Demo.pkt_cc Demo.v_routed_full
    = (Ok (handled, reply, pm'), s1) /\
    route_only Demo.v_routed_full s1 /\ same_headers Demo.pkt_cc pm' /\
    zget (pm_vlan Demo.pkt_cc) (vlans (dp s1)) = Some vlan1 /\
    host_cache vlan1 = host_cache (Demo.vlan_of 10 Demo.v_routed_full) /\
    (mmem (pm_eth_src Demo.pkt_cc)
       (host_cache (Demo.vlan_of 10 Demo.v_routed_full)) = false ->
     rcv_packet 101 1 [] Demo.pkt_cc Demo.v_routed_full
     = (Ok (reply ++ [temp_ban_host_learning_on_vlan vlan1]),
        put_vlan (pm_vlan Demo.pkt_cc)
          (set_vlan_learn_ban_count
             (vlan_learn_ban_count (Demo.vlan_of 10 Demo.v_routed_full) + 1)
             vlan1)
          (set_packet_in (next_count 101 Demo.v_routed_full) 101 s1))) /\
    (mmem (pm_eth_src Demo.pkt_cc)
       (host_cache (Demo.vlan_of 10 Demo.v_routed_full)) = true ->
     rcv_packet 101 1 [] Demo.pkt_cc Demo.v_routed_full
     = rcv_learn 101 [] 1 pm' handled reply
         (set_packet_in (next_count 101 Demo.v_routed_full) 101 s1)).
Proof.
  apply (@vlan_learn_ban _ _ 101 1 [] Demo.pkt_cc Demo.v_routed_full
           (set_phys_up true (Demo.mk_port 1 10 (Some 255)))
           (Demo.vlan_of 10 Demo.v_routed_full));
    vm_compute; reflexivity.
Defined.

End PacketInConcrete.

(** ** Reloading the configuration *)

Section Reload.
Context {O : Opaque} {C : Collaborators}.

Lemma set_add_nonempty (k : Z) (s : list Z) : set_add Z.eqb k s <> [].
Proof.
  unfold set_add. destruct (set_mem Z.eqb k s) eqn:E.
  - destruct s; [discriminate E | discriminate].
  - destruct s; discriminate.
Qed.

Lemma set_add_all_nonempty (ks s : list Z) :
  s <> [] -> set_add_all Z.eqb ks s <> [].
Proof.
  unfold set_add_all. revert s. induction ks as [|k ks IH]; intros s Hs; simpl.
  - exact Hs.
  - apply IH. apply set_add_nonempty.
Qed.

Lemma set_eqb_nil_false (t : list Z) : t <> [] -> set_eqb Z.eqb [] t = false.
Proof. destruct t; [congruence|]. reflexivity. Qed.

Lemma acl_no_changes (self : Valve) (new_dp : DP) :
  (forall acl_id new_acl, In (acl_id, new_acl) (acls new_dp) ->
     exists old_acl, zget acl_id (acls (dp self)) = Some old_acl /\
                     acl_eqb new_acl old_acl = true) ->
  _get_acl_config_changes self new_dp = [].
Proof.
  unfold _get_acl_config_changes.
  induction (acls new_dp) as [|[acl_id new_acl] l IH]; intros Hall; simpl.
  - reflexivity.
  - destruct (Hall acl_id new_acl (or_introl eq_refl)) as (old & -> & ->).
    simpl. apply IH. intros a b Hin. apply Hall. now right.
Qed.

Lemma vlan_no_changes (self : Valve) (items : list (Z * VLAN)) :
  (forall vid new_vlan, In (vid, new_vlan) items ->
     exists old_vlan, zget vid (vlans (dp self)) = Some old_vlan /\
                      vlan_eqb old_vlan new_vlan = true) ->
  vlan_changes_loop self items [] = ([], carry_over self items).
Proof.
  induction items as [|[vid new_vlan] l IH]; intros Hall; simpl.
  - reflexivity.
  - destruct (Hall vid new_vlan (or_introl eq_refl)) as (old & -> & ->).
    simpl. rewrite IH; [reflexivity|].
    intros a b Hin. apply Hall. now right.
Qed.

Lemma nothing_deleted {V} (old : list Z) (d : list (Z * V)) :
  (forall k, In k old -> zmem k d = true) ->
  fold_left (fun (acc : list Z) (k : Z) =>
               if negb (zmem k d) then set_add Z.eqb k acc else acc) old []
  = [].
Proof.
  intros Hall.
  induction old as [|k l IH]; simpl; [reflexivity|].
  rewrite (Hall k (or_introl eq_refl)). simpl.
  apply IH. intros a Hin. apply Hall. now right.
Qed.

Lemma port_config_no_changes (self : Valve) (new_dp : DP) :
  (forall port_no new_port, In (port_no, new_port) (ports new_dp) ->
     exists old_port, zget port_no (ports (dp self)) = Some old_port /\
                      port_eqb new_port old_port = true) ->
  (forall port_no, In port_no (dict_keys (ports (dp self))) ->
     zmem port_no (ports new_dp) = true) ->
  _get_port_config_changes self new_dp [] []
  = (set_eqb Z.eqb [] (set_of_list Z.eqb (dict_keys (ports new_dp))), [], [], []).
Proof.
  intros Hport Hdel. unfold _get_port_config_changes.
  match goal with
  | |- context [fold_left ?f (ports new_dp) ([], [])] =>
      assert (E : fold_left f (ports new_dp) ([], []) = ([], []))
  end.
  { clear Hdel. induction (ports new_dp) as [|[port_no new_port] l IH]; simpl.
    - reflexivity.
    - destruct (Hport port_no new_port (or_introl eq_refl)) as (old & -> & ->).
      simpl.
      replace (match acl_in new_port with
               | Some a => zmem a ([] : dict Z ACL)
               | None => false
               end) with false by (destruct (acl_in new_port); reflexivity).
      apply IH. intros a b Hin. apply Hport. now right. }
  rewrite E. simpl fold_left at 1.
  rewrite (nothing_deleted _ _ Hdel). reflexivity.
Qed.

Lemma vlan_config_no_changes (self : Valve) (new_dp : DP) :
  (forall vid new_vlan, In (vid, new_vlan) (vlans new_dp) ->
     exists old_vlan, zget vid (vlans (dp self)) = Some old_vlan /\
                      vlan_eqb old_vlan new_vlan = true) ->
  (forall vid, In vid (dict_keys (vlans (dp self))) ->
     zmem vid (vlans new_dp) = true) ->
  _get_vlan_config_changes self new_dp
  = ([], [], set_vlans (carry_over self (vlans new_dp)) new_dp).
Proof.
  intros Hvlan Hdel. unfold _get_vlan_config_changes.
  rewrite (nothing_deleted _ _ Hdel).
  rewrite (vlan_no_changes self (vlans new_dp) Hvlan). reflexivity.
Qed.

Lemma zget_of_In {V} (k : Z) (v : V) (d : list (Z * V)) :
  NoDup (dict_keys d) -> In (k, v) d -> zget k d = Some v.
Proof.
  unfold zget, dict_keys.
  induction d as [|[k' v'] d IH]; simpl; intros Hnd Hin; [tauto|].
  inversion Hnd as [|? ? Hnotin Hnd']; subst.
  destruct Hin as [[= -> ->]|Hin].
  - now rewrite Z.eqb_refl.
  - destruct (k =? k') eqn:E.
    + apply Z.eqb_eq in E. subst k'. exfalso. apply Hnotin.
      apply in_map_iff. exists (k, v). auto.
    + auto.
Qed.

Lemma carry_over_self (self : Valve) :
  NoDup (dict_keys (vlans (dp self))) ->
  (forall vid vlan, In (vid, vlan) (vlans (dp self)) -> merge_dyn vlan vlan = vlan) ->
  carry_over self (vlans (dp self)) = vlans (dp self).
Proof.
  intros Hnd Hm. unfold carry_over.
  transitivity (map (fun item : Z * VLAN => item) (vlans (dp self)));
    [|apply map_id].
  apply map_ext_in. intros [vid vlan] Hin. simpl.
  rewrite (@zget_of_In _ vid vlan _ Hnd Hin). now rewrite (Hm vid vlan Hin).
Qed.

(** C3.  [new_dp] shows no ACL, VLAN or port difference to
    the current configuration and, when the datapath is running,
    configures at least one port.  Then [reload_config] returns
    [(False, [])].  When the datapath is not running the Valve is
    unchanged.  When it is running the only field of the Valve that
    changes is [dp], which becomes [new_dp] with [running] set and with
    the dynamic state of each current VLAN merged into the VLAN of the
    same vid.  In particular, when [new_dp] is the current DP itself and
    merging a VLAN into itself gives the VLAN, the Valve is unchanged. *)
Theorem reload_config_no_difference (self : Valve) (new_dp : DP) :
  no_config_difference self new_dp ->
  (running (dp self) = true -> ports new_dp <> []) ->
  reload_config new_dp self
  = (Ok (false, []),
     if running (dp self)
     then set_dp (set_running true
                    (set_vlans (carry_over self (vlans new_dp)) new_dp)) self
     else self)
  /\ (new_dp = dp self ->
      NoDup (dict_keys (vlans (dp self))) ->
      (forall vid vlan, In (vid, vlan) (vlans (dp self)) ->
         merge_dyn vlan vlan = vlan) ->
      snd (reload_config new_dp self) = self).
Proof.
  intros (Hacl & Hvlan & Hport & Hdv & Hdp) Hne.
  assert (Hmain : reload_config new_dp self
    = (Ok (false, []),
       if running (dp self)
       then set_dp (set_running true
                      (set_vlans (carry_over self (vlans new_dp)) new_dp)) self
       else self)).
  { unfold reload_config. rewrite bind_get_self.
    destruct (running (dp self)) eqn:Hrun; [|reflexivity].
    unfold _get_config_changes.
    rewrite (acl_no_changes self new_dp Hacl).
    rewrite (vlan_config_no_changes self new_dp Hvlan Hdv).
    rewrite (port_config_no_changes self
               (set_vlans (carry_over self (vlans new_dp)) new_dp) Hport Hdp).
    cbn [ports set_vlans set_dyn].
    rewrite set_eqb_nil_false.
    - reflexivity.
    - specialize (Hne eq_refl). unfold set_of_list, dict_keys.
      destruct (ports new_dp) as [|[k p] l]; [congruence|]. simpl.
      apply set_add_all_nonempty. discriminate. }
  split; [exact Hmain|].
  intros -> Hnd Hm. rewrite Hmain. simpl.
  destruct (running (dp self)) eqn:Hrun; [|reflexivity].
  rewrite (carry_over_self self Hnd Hm).
  unfold set_running, set_vlans. simpl.
  rewrite <- Hrun at 1. rewrite set_dyn_set_dyn, set_dyn_id, set_dp_id.
  reflexivity.
Qed.

End Reload.

Section ReloadConcrete.
#[local] Existing Instance Demo.opaque.
#[local] Existing Instance Demo.collaborators.

Ltac finite_dict :=
  repeat match goal with
         | H : In _ _ |- _ => simpl in H
         | H : _ \/ _ |- _ => destruct H
         | H : False |- _ => destruct H
         | H : (_, _) = (_, _) |- _ => inversion H; clear H; subst
         | H : _ = _ |- _ => subst
         end;
  try (eexists; split; vm_compute; reflexivity);
  try (vm_compute; reflexivity).

(** The freshly parsed configuration of the two-port datapath shows no
    difference to the configuration of the running Valve. *)
Lemma fresh_config_no_difference : no_config_difference Demo.v_s1 Demo.dp_s1.
Proof.
  unfold no_config_difference. repeat split; intros; finite_dict.
Qed.

Lemma same_dp_no_difference :
  no_config_difference Demo.v_noports (dp Demo.v_noports).
Proof.
  unfold no_config_difference. repeat split; intros; finite_dict.
Qed.

(** Reloading the very DP of a running Valve that configures no port is a
    cold start: [(True, messages)].  Reloading the freshly parsed, equal
    configuration of the two-port datapath returns [(False, [])], but port
    1, which was up, is down afterwards. *)
Lemma reload_same_config_not_idle :
  no_config_difference Demo.v_noports (dp Demo.v_noports) /\
  running (dp Demo.v_noports) = true /\
  (exists ofmsgs,
     fst (reload_config (dp Demo.v_noports) Demo.v_noports) = Ok (true, ofmsgs) /\
     List.length ofmsgs = 18%nat) /\
  no_config_difference Demo.v_s1 Demo.dp_s1 /\
  fst (reload_config Demo.dp_s1 Demo.v_s1) = Ok (false, []) /\
  option_map (@phys_up _) (zget 1 (ports (dp Demo.v_s1))) = Some true /\
  option_map (@phys_up _)
    (zget 1 (ports (dp (snd (reload_config Demo.dp_s1 Demo.v_s1)))))
  = Some false.
Proof.
  split; [exact same_dp_no_difference|].
  split; [vm_compute; reflexivity|].
  split; [eexists; split; vm_compute; reflexivity|].
  split; [exact fresh_config_no_difference|].
  repeat (split; [vm_compute; reflexivity|]). vm_compute; reflexivity.
Qed.

Lemma reload_config_no_difference_witness :
  reload_config Demo.dp_s1 Demo.v_s1
  = (Ok (false, []),
     if running (dp Demo.v_s1)
     then set_dp (set_running true
                    (set_vlans (carry_over Demo.v_s1 (vlans Demo.dp_s1))
                               Demo.dp_s1)) Demo.v_s1
     else Demo.v_s1)
  /\ (Demo.dp_s1 = dp Demo.v_s1 ->
      NoDup (dict_keys (vlans (dp Demo.v_s1))) ->
      (forall vid vlan, In (vid, vlan) (vlans (dp Demo.v_s1)) ->
         merge_dyn vlan vlan = vlan) ->
      snd (reload_config Demo.dp_s1 Demo.v_s1) = Demo.v_s1).
Proof.
  apply (@reload_config_no_difference _ _ Demo.v_s1 Demo.dp_s1).
  - exact fresh_config_no_difference.
  - intros _. discriminate.
Defined.

End ReloadConcrete.

(** ** The order of the messages of a warm reload *)

Section ReloadOrder.
Context {O : Opaque} {C : Collaborators}.

Lemma static_kept_refl (s : Valve) : static_kept s s.
Proof. reflexivity. Qed.

Lemma static_kept_trans (a b c : Valve) :
  static_kept a b -> static_kept b c -> static_kept a c.
Proof. unfold static_kept. congruence. Qed.

Ltac static_frame lem :=
  apply lem;
  first [ exact static_kept_refl | exact static_kept_trans
        | intros; reflexivity ].

Lemma bind_ok_inv {A B} (m : M A) (k : A -> M B) (s s' : Valve) (b : B) :
  bind m k s = (Ok b, s') ->
  exists a s1, m s = (Ok a, s1) /\ k a s1 = (Ok b, s').
Proof.
  unfold bind. destruct (m s) as [[a|e] s1]; [eauto|].
  intros Hx; discriminate Hx.
Qed.

Lemma ret_ok_inv {A} (a b : A) (s s' : Valve) :
  ret a s = (Ok b, s') -> b = a /\ s' = s.
Proof. intros [= -> ->]. auto. Qed.

(** Each element of a loop that returns contributed its messages, in the
    order of the loop, from a Valve reached from the initial one. *)
Lemma for_extend_In {X} (R : Valve -> Valve -> Prop) (xs : list X)
  (body : X -> M (list ofmsg)) :
  (forall s, R s s) -> (forall a b c, R a b -> R b c -> R a c) ->
  (forall x, preserves R (body x)) ->
  forall s ms s' x,
    for_extend xs body s = (Ok ms, s') -> In x xs ->
    exists pre mx post sx sx',
      ms = pre ++ mx ++ post /\ body x sx = (Ok mx, sx') /\ R s sx.
Proof.
  intros Hrefl Htrans Hbody.
  induction xs as [|y ys IH]; intros s ms s' x Hrun Hin; [destruct Hin|].
  simpl in Hrun.
  apply bind_ok_inv in Hrun. destruct Hrun as (my & s1 & Ey & Hrun).
  apply bind_ok_inv in Hrun. destruct Hrun as (rest & s2 & Erest & Hret).
  apply ret_ok_inv in Hret. destruct Hret as [-> ->].
  destruct Hin as [->|Hin].
  - exists [], my, rest, s, s1. repeat split; auto.
  - destruct (IH s1 rest s2 x Erest Hin)
      as (pre & mx & post & sx & sx' & -> & Ex & HR).
    exists (my ++ pre), mx, post, sx, sx'. split.
    + now rewrite <- app_assoc.
    + split; [exact Ex|]. eapply Htrans; [|exact HR].
      specialize (Hbody y s). now rewrite Ey in Hbody.
Qed.

Lemma _del_vlan_eq (self : Valve) (vlan : VLAN) :
  _del_vlan self vlan = vlan_deletes (dp self) (vid vlan).
Proof.
  unfold _del_vlan, vlan_deletes, flowdel.
  induction (vlan_match_tables (dp self)) as [|t l IH]; simpl; [reflexivity|].
  destruct (negb (table_eqb t (vlan_table (tables (dp self))))); simpl;
    now rewrite IH.
Qed.

Lemma static_vlan_deletes (d d' : DP) (vlan_vid : Z) :
  static d' = static d -> vlan_deletes d' vlan_vid = vlan_deletes d vlan_vid.
Proof.
  intros Hs. unfold vlan_deletes.
  change (vlan_match_tables d') with (vlan_match_tables (static d')).
  change (tables d') with (tables (static d')).
  now rewrite Hs.
Qed.

Lemma readd_vlan_inv (vid' : Z) (s s' : Valve) (ms : list ofmsg) :
  readd_vlan vid' s = (Ok ms, s') ->
  exists vlan adds all,
    zget vid' (vlans (dp s)) = Some vlan /\
    _add_vlan vid' [] s = (Ok (adds, all), s') /\
    ms = vlan_deletes (dp s) (vid vlan) ++ adds.
Proof.
  unfold readd_vlan, the_vlan. rewrite bind_assoc, bind_get_self.
  unfold subscript. destruct (zget vid' (vlans (dp s))) as [vlan|];
    [|intros Hx; discriminate Hx].
  rewrite bind_ret, bind_get_self. intros Hrun.
  apply bind_ok_inv in Hrun. destruct Hrun as ([adds all] & s1 & Eadd & Hret).
  apply ret_ok_inv in Hret. destruct Hret as [-> ->].
  exists vlan, adds, all. rewrite _del_vlan_eq. auto.
Qed.

(** The warm branch of [_apply_config_changes], step by step. *)
Lemma warm_apply_inv (new_dp : DP) (c : changes) (self self' : Valve)
  (cold : bool) (ofmsgs : list ofmsg) :
  all_ports_changed c = false ->
  _apply_config_changes new_dp c self = (Ok (cold, ofmsgs), self') ->
  cold = false /\
  exists m1 m2 m3 m4 m5 m6 s1 s2 s3 s4 s5,
    ofmsgs = m1 ++ m2 ++ m3 ++ m4 ++ m5 ++ m6 /\
    (if nonempty (deleted_ports c)
     then ports_delete (dp_id (dp self)) (deleted_ports c)
     else ret []) self = (Ok m1, s1) /\
    (if nonempty (deleted_vlans c)
     then for_extend (deleted_vlans c)
            (fun vid' => vlan <- the_vlan vid' ;;
                         self <- get_self ;; ret (_del_vlan self vlan))
     else ret []) s1 = (Ok m2, s2) /\
    (if nonempty (changed_ports c)
     then ports_delete (dp_id (dp s2)) (changed_ports c)
     else ret []) s2 = (Ok m3, s3) /\
    (if nonempty (changed_vlans c)
     then for_extend (changed_vlans c) readd_vlan
     else ret []) (set_dp (set_running true new_dp) s3) = (Ok m4, s4) /\
    (if nonempty (changed_ports c)
     then ports_add (dp_id (dp s4)) (changed_ports c) false
     else ret []) s4 = (Ok m5, s5) /\
    (if nonempty (changed_acl_ports c)
     then for_extend (changed_acl_ports c) (fun port => _port_add_acl port true)
     else ret []) s5 = (Ok m6, self').
Proof.
  intros Hall. unfold _apply_config_changes. rewrite Hall.
  rewrite bind_get_self. intros Hrun.
  apply bind_ok_inv in Hrun. destruct Hrun as (m1 & s1 & E1 & Hrun).
  apply bind_ok_inv in Hrun. destruct Hrun as (m2 & s2 & E2 & Hrun).
  rewrite bind_get_self in Hrun.
  apply bind_ok_inv in Hrun. destruct Hrun as (m3 & s3 & E3 & Hrun).
  apply bind_ok_inv in Hrun. destruct Hrun as ([] & s3' & Eswap & Hrun).
  injection Eswap as <-.
  apply bind_ok_inv in Hrun. destruct Hrun as (m4 & s4 & E4 & Hrun).
  rewrite bind_get_self in Hrun.
  apply bind_ok_inv in Hrun. destruct Hrun as (m5 & s5 & E5 & Hrun).
  apply bind_ok_inv in Hrun. destruct Hrun as (m6 & s6 & E6 & Hret).
  apply ret_ok_inv in Hret. destruct Hret as [[= -> ->] ->].
  split; [reflexivity|].
  exists m1, m2, m3, m4, m5, m6, s1, s2, s3, s4, s5. auto 10.
Qed.

Lemma static_after {A} (m : M A) (s s1 : Valve) (r : result A) :
  preserves static_kept m -> m s = (r, s1) -> static (dp s1) = static (dp s).
Proof. intros Hm E. specialize (Hm s). now rewrite E in Hm. Qed.

Lemma nonempty_In {A} (x : A) (l : list A) : In x l -> nonempty l = true.
Proof. destruct l; [intros []|reflexivity]. Qed.

Lemma nonempty_neq {A} (l : list A) : l <> [] -> nonempty l = true.
Proof. destruct l; [congruence|reflexivity]. Qed.

(** C7.  In a warm reload (the datapath is running and not
    all ports changed) that returns, for every VLAN of [changed_vlans]
    the messages contain, for each table of [vlan_match_tables()] other
    than the vlan table, the delete of the flows matching the VLAN,
    immediately followed by the messages of the re-add of the VLAN; both
    are computed on the new DP.  When ports changed, the messages of
    [ports_delete] for them, computed on the old DP, come before the
    messages of all VLAN re-adds, which start from the Valve with the DP
    swapped, and the messages of [ports_add] for them, computed on the
    new DP, come after. *)
Theorem warm_reload_deletes_before_adds (self self' : Valve)
  (new_dp new_dp' : DP) (c : changes) (cold : bool) (ofmsgs : list ofmsg) :
  running (dp self) = true ->
  _get_config_changes self new_dp = (c, new_dp') ->
  all_ports_changed c = false ->
  reload_config new_dp self = (Ok (cold, ofmsgs), self') ->
  cold = false /\
  (forall vid', In vid' (changed_vlans c) ->
     exists pre adds post vlan all sx sx',
       ofmsgs = pre ++ vlan_deletes new_dp' (vid vlan) ++ adds ++ post /\
       zget vid' (vlans (dp sx)) = Some vlan /\
       static (dp sx) = static new_dp' /\
       _add_vlan vid' [] sx = (Ok (adds, all), sx')) /\
  (changed_ports c <> [] ->
     exists before dels between adds after s_old s_old' s_new s_new',
       ofmsgs = before ++ dels ++ between ++ adds ++ after /\
       static (dp s_old) = static (dp self) /\
       ports_delete (dp_id (dp s_old)) (changed_ports c) s_old
       = (Ok dels, s_old') /\
       (if nonempty (changed_vlans c)
        then for_extend (changed_vlans c) readd_vlan
        else ret []) (set_dp (set_running true new_dp') s_old')
       = (Ok between, s_new) /\
       static (dp s_new) = static new_dp' /\
       ports_add (dp_id (dp s_new)) (changed_ports c) false s_new
       = (Ok adds, s_new')).
Proof.
  intros Hrun Hc Hall. unfold reload_config.
  rewrite bind_get_self, Hrun, Hc. intros Happly.
  destruct (warm_apply_inv _ _ _ Hall Happly)
    as (-> & m1 & m2 & m3 & m4 & m5 & m6 & s1 & s2 & s3 & s4 & s5 &
        -> & E1 & E2 & E3 & E4 & E5 & E6).
  split; [reflexivity|].
  assert (H4 : forall s, static_kept s
              (snd ((if nonempty (changed_vlans c)
                     then for_extend (changed_vlans c) readd_vlan
                     else ret []) s))).
  { intros s. destruct (nonempty (changed_vlans c)); [|reflexivity].
    apply (preserves_for_extend static_kept_refl static_kept_trans).
    intros x. static_frame frame_readd_vlan. }
  split.
  - intros vid' Hin. rewrite (nonempty_In _ _ Hin) in E4.
    assert (Hbody : forall x, preserves static_kept (readd_vlan x))
      by (intros x; static_frame frame_readd_vlan).
    destruct (@for_extend_In Z static_kept (changed_vlans c) readd_vlan
                static_kept_refl static_kept_trans Hbody _ _ _ vid' E4 Hin)
      as (pre & mx & post & sx & sx' & -> & Ex & HR).
    destruct (@readd_vlan_inv _ _ _ _ Ex) as (vlan & adds & all & Hv & Eadd & ->).
    exists (m1 ++ m2 ++ m3 ++ pre), adds, (post ++ m5 ++ m6), vlan, all, sx, sx'.
    split.
    + rewrite (@static_vlan_deletes _ _ (vid vlan) HR). simpl.
      rewrite <- !app_assoc. reflexivity.
    + split; [exact Hv|]. split; [exact HR|exact Eadd].
  - intros Hne. rewrite (nonempty_neq Hne) in E3, E5.
    exists (m1 ++ m2), m3, m4, m5, m6, s2, s3, s4, s5.
    split; [now rewrite <- !app_assoc|].
    split.
    + transitivity (static (dp s1)).
      * revert E2. apply static_after.
        destruct (nonempty (deleted_vlans c));
          pres_walk static_kept_refl static_kept_trans.
      * revert E1. apply static_after.
        destruct (nonempty (deleted_ports c));
          [static_frame frame_ports_delete
          |pres_walk static_kept_refl static_kept_trans].
    + split; [exact E3|]. split; [exact E4|]. split; [|exact E5].
      specialize (H4 (set_dp (set_running true new_dp') s3)).
      rewrite E4 in H4. exact H4.
Qed.

End ReloadOrder.

Section ReloadOrderConcrete.
#[local] Existing Instance Demo.opaque.
#[local] Existing Instance Demo.collaborators.

(** A warm reload that changes VLAN 10: the vlan table is one of the
    tables that match on the VLAN, but no message deletes the flows of
    VLAN 10 in it, while table eth_src gets such a delete. *)
Lemma warm_reload_keeps_vlan_table_flows :
  running (dp Demo.v_two) = true /\
  changed_vlans (fst (_get_config_changes Demo.v_two Demo.dp_two_new)) = [10] /\
  all_ports_changed (fst (_get_config_changes Demo.v_two Demo.dp_two_new))
  = false /\
  fst (reload_config Demo.dp_two_new Demo.v_two)
  = Ok (false, Demo.reload_msgs Demo.dp_two_new Demo.v_two) /\
  existsb (table_eqb (vlan_table (tables Demo.dp_two_new)))
          (vlan_match_tables Demo.dp_two_new) = true /\
  existsb (deletes_vlan_flows (vlan_table (tables Demo.dp_two_new)) 10)
          (Demo.reload_msgs Demo.dp_two_new Demo.v_two) = false /\
  existsb (deletes_vlan_flows (eth_src_table (tables Demo.dp_two_new)) 10)
          (Demo.reload_msgs Demo.dp_two_new Demo.v_two) = true.
Proof.
  repeat (split; [vm_compute; reflexivity|]). vm_compute; reflexivity.
Qed.

(** The warm reload of [Demo.v_two] with [Demo.dp_two_new], which changes
    VLAN 10. *)
Lemma warm_reload_deletes_before_adds_witness :
  running (dp Demo.v_two) = true /\
  changed_vlans (fst (_get_config_changes Demo.v_two Demo.dp_two_new)) = [10] /\
  all_ports_changed (fst (_get_config_changes Demo.v_two Demo.dp_two_new))
  = false /\
  fst (reload_config Demo.dp_two_new Demo.v_two)
  = Ok (false, Demo.reload_msgs Demo.dp_two_new Demo.v_two) /\
  exists pre adds post vlan,
    Demo.reload_msgs Demo.dp_two_new Demo.v_two
    = pre ++ vlan_deletes
               (snd (_get_config_changes Demo.v_two Demo.dp_two_new))
               (vid vlan)
          ++ adds ++ post.
Proof.
  split; [vm_compute; reflexivity|].
  split; [vm_compute; reflexivity|].
  split; [vm_compute; reflexivity|].
  split; [vm_compute; reflexivity|].
  destruct (@warm_reload_deletes_before_adds _ _ Demo.v_two
              (snd (reload_config Demo.dp_two_new Demo.v_two))
              Demo.dp_two_new
              (snd (_get_config_changes Demo.v_two Demo.dp_two_new))
              (fst (_get_config_changes Demo.v_two Demo.dp_two_new))
              false (Demo.reload_msgs Demo.dp_two_new Demo.v_two))
    as (_ & Hvlans & _).
  - vm_compute; reflexivity.
  - vm_compute; reflexivity.
  - vm_compute; reflexivity.
  - vm_compute; reflexivity.
  - destruct (Hvlans 10)
      as (pre & adds & post & vlan & all & sx & sx' & E & _).
    + vm_compute. left. reflexivity.
    + exists pre, adds, post, vlan. exact E.
Defined.

End ReloadOrderConcrete.

(** ** Cold start *)

Section Connect.
Context {O : Opaque} {C : Collaborators}.
Hypothesis managers_ok : managers_emit_no_table_wide_drop.

Lemma clean_app (a b : list ofmsg) : clean a -> clean b -> clean (a ++ b).
Proof. intros Ha Hb. apply Forall_app. auto. Qed.

Lemma clean_nil : clean [].
Proof. constructor. Qed.

Lemma clean_of_In (ms : list ofmsg) :
  (forall m, In m ms -> table_wide_drop m = false) -> clean ms.
Proof. intros Hall. apply Forall_forall. exact Hall. Qed.

Lemma clean_not_default (d : DP) (t : table) (ms : list ofmsg) :
  clean ms -> filter (is_default_drop d t) ms = [].
Proof.
  induction 1 as [|m l Hm Hl IH]; simpl; [reflexivity|].
  replace (is_default_drop d t m) with false; [exact IH|].
  destruct m as [t' [mt|] p [|i l']| | | | | |]; simpl in *;
    try reflexivity; discriminate Hm.
Qed.

Lemma acl_rule_flows_clean (d : DP) (tbl : table) (allow : instruction)
  (port_num vlan_vid : option Z) (rs : list rule_conf) (priority : Z) :
  clean (acl_rule_flows d tbl allow port_num vlan_vid rs priority).
Proof.
  destruct managers_ok as (_ & _ & Hacl & _).
  revert priority. induction rs as [|r rs IH]; intros priority; simpl.
  - apply clean_nil.
  - specialize (Hacl r allow (meters d) port_num vlan_vid).
    destruct (build_acl_entry r allow (meters d) port_num vlan_vid)
      as [[mt inst] extra]. simpl in Hacl.
    apply clean_app; [apply clean_of_In; exact Hacl|].
    constructor; [reflexivity|]. apply IH.
Qed.

Lemma _add_vlan_acl_ok (vid' : Z) (s : Valve) :
  (forall k a, zget k (vlan_acl_in (dp s)) = Some a ->
     exists acl, zget a (acls (dp s)) = Some acl) ->
  exists ms, _add_vlan_acl vid' s = (Ok ms, s) /\ clean ms.
Proof.
  intros Hacl. unfold _add_vlan_acl. rewrite bind_get_self.
  destruct (zget vid' (vlan_acl_in (dp s))) as [a|] eqn:E.
  - destruct (Hacl _ _ E) as [acl Ha]. unfold subscript.
    rewrite Ha, bind_ret. eexists. split; [reflexivity|].
    apply acl_rule_flows_clean.
  - exists []. split; [reflexivity | apply clean_nil].
Qed.

Lemma _port_add_acl_ok (port_num : Z) (cold_start : bool) (s : Valve) :
  (forall k a, zget k (port_acl_in (dp s)) = Some a ->
     exists acl, zget a (acls (dp s)) = Some acl) ->
  exists ms, _port_add_acl port_num cold_start s = (Ok ms, s) /\ clean ms.
Proof.
  intros Hacl. unfold _port_add_acl. rewrite bind_get_self.
  assert (Hdel : clean (if cold_start
                        then flowdel (port_acl_table (tables (dp s)))
                               (match_in_port port_num) None
                        else [])).
  { destruct cold_start; [|apply clean_nil].
    constructor; [reflexivity | apply clean_nil]. }
  destruct (zget port_num (port_acl_in (dp s))) as [a|] eqn:E.
  - destruct (Hacl _ _ E) as [acl Ha]. unfold subscript.
    rewrite Ha, bind_ret. eexists. split; [reflexivity|].
    apply clean_app; [exact Hdel | apply acl_rule_flows_clean].
  - eexists. split; [reflexivity|].
    apply clean_app; [exact Hdel|].
    constructor; [reflexivity | apply clean_nil].
Qed.

Lemma vips_added_refl (s : Valve) : vips_added s s.
Proof.
  repeat split. intros k. apply opt_rel_refl. apply same_but_route_refl.
Qed.

Lemma vips_added_trans (a b c : Valve) :
  vips_added a b -> vips_added b c -> vips_added a c.
Proof.
  intros (Hs1 & Hp1 & Hv1) (Hs2 & Hp2 & Hv2). repeat split; try congruence.
  intros k. specialize (Hv1 k). specialize (Hv2 k).
  destruct (zget k (vlans (dp a))), (zget k (vlans (dp b))),
    (zget k (vlans (dp c))); simpl in *; try tauto.
  eapply same_but_route_trans; eassumption.
Qed.

Lemma vips_added_step (k : Z) (v : VLAN) (rs : route_state) (s : Valve) :
  zget k (vlans (dp s)) = Some v ->
  vips_added s (set_L3 true (put_vlan k (set_vlan_route_state rs v) s)).
Proof.
  intros Hk. repeat split. intros k'. simpl.
  destruct (Z.eq_dec k' k) as [->|Hne].
  - rewrite zget_zset_same, Hk. reflexivity.
  - rewrite zget_zset_other by assumption.
    apply opt_rel_refl. apply same_but_route_refl.
Qed.

Lemma vips_added_zget (s s' : Valve) (k : Z) (v : VLAN) :
  vips_added s s' -> zget k (vlans (dp s)) = Some v ->
  exists v', zget k (vlans (dp s')) = Some v' /\ same_but_route v v'.
Proof.
  intros (_ & _ & Hv) Hk. specialize (Hv k). rewrite Hk in Hv.
  destruct (zget k (vlans (dp s'))) as [v'|]; simpl in Hv; [eauto|tauto].
Qed.

Lemma vips_added_stack (s s' : Valve) :
  vips_added s s' -> stack (dp s') = stack (dp s).
Proof. intros (Hs & _). exact (f_equal (@stack _) Hs). Qed.

Lemma _add_faucet_vips_ok (ipv k : Z) (vips : list vip) (s : Valve) (v : VLAN) :
  stack (dp s) = None \/ vips = [] ->
  zget k (vlans (dp s)) = Some v ->
  exists ms s', _add_faucet_vips ipv k vips s = (Ok ms, s') /\
                clean ms /\ vips_added s s'.
Proof.
  destruct managers_ok as (_ & _ & _ & Hvip).
  revert s v. induction vips as [|a rest IH]; intros s v Hstack Hk.
  - exists [], s. split; [reflexivity|].
    split; [apply clean_nil | apply vips_added_refl].
  - destruct Hstack as [Hstack|Hx]; [|discriminate Hx].
    unfold _add_faucet_vips. simpl for_extend. fold (_add_faucet_vips ipv k rest).
    unfold bind at 1. rewrite bind_get_self, Hstack. cbn [is_some].
    unfold the_vlan. rewrite bind_assoc, bind_get_self. unfold subscript.
    rewrite Hk, bind_ret.
    specialize (Hvip ipv v a).
    destruct (rm_add_faucet_vip ipv v a) as [ms rs]. simpl in Hvip.
    cbv beta iota delta [bind modify ret].
    set (s1 := set_L3 true (put_vlan k (set_vlan_route_state rs v) s)).
    destruct (IH s1 (set_vlan_route_state rs v)) as (ms' & s' & E & Hc & Hr).
    + left. exact Hstack.
    + simpl. apply zget_zset_same.
    + fold (bind (_add_faucet_vips ipv k rest)
                 (fun rest0 => ret (ms ++ rest0)) s1).
      unfold bind. rewrite E. exists (ms ++ ms'), s'.
      split; [reflexivity|]. split.
      * apply clean_app; [apply clean_of_In; exact Hvip | exact Hc].
      * eapply vips_added_trans; [|exact Hr]. now apply vips_added_step.
Qed.

Lemma vips_loop_ok (ipvs' : list Z) (k : Z) (v0 v : VLAN) (s : Valve) :
  zget k (vlans (dp s)) = Some v ->
  stack (dp s) = None \/ faucet_vips v0 = [] ->
  exists ms s',
    for_extend ipvs'
      (fun ipv => _add_faucet_vips ipv k (faucet_vips_by_ipv v0 ipv)) s
    = (Ok ms, s') /\ clean ms /\ vips_added s s'.
Proof.
  revert s v. induction ipvs' as [|ipv rest IH]; intros s v Hk Hstack; simpl.
  - exists [], s. split; [reflexivity|].
    split; [apply clean_nil | apply vips_added_refl].
  - destruct (@_add_faucet_vips_ok ipv k (faucet_vips_by_ipv v0 ipv) s v)
      as (ms & s1 & E & Hc & Hr); [|exact Hk|].
    { destruct Hstack as [Hs|Hs]; [now left|right].
      unfold faucet_vips_by_ipv. now rewrite Hs. }
    destruct (@vips_added_zget s s1 k v Hr Hk) as (v1 & Hk1 & _).
    destruct (IH s1 v1 Hk1) as (ms' & s' & E' & Hc' & Hr').
    { rewrite (@vips_added_stack s s1 Hr). exact Hstack. }
    unfold bind. rewrite E, E'. exists (ms ++ ms'), s'.
    split; [reflexivity|]. split; [now apply clean_app|].
    eapply vips_added_trans; eassumption.
Qed.

Lemma static_acl_refs (d d' : DP) :
  static d' = static d -> acl_refs_ok d -> acl_refs_ok d'.
Proof.
  intros Hs. unfold acl_refs_ok.
  change (vlan_acl_in d') with (vlan_acl_in (static d')).
  change (port_acl_in d') with (port_acl_in (static d')).
  change (acls d') with (acls (static d')).
  now rewrite Hs.
Qed.

Lemma _add_vlan_ok (k : Z) (all : list Z) (s : Valve) (v : VLAN) :
  zget k (vlans (dp s)) = Some v ->
  stack (dp s) = None \/ faucet_vips v = [] ->
  acl_refs_ok (dp s) ->
  exists ms all' s',
    _add_vlan k all s = (Ok (ms, all'), s') /\ clean ms /\ vips_added s s'.
Proof.
  destruct managers_ok as (_ & Hflood & _).
  intros Hk Hstack [Hacl _]. unfold _add_vlan, the_vlan.
  rewrite bind_assoc, bind_get_self. unfold subscript.
  rewrite Hk, bind_ret, bind_get_self.
  destruct (@_add_vlan_acl_ok (vid v) s Hacl) as (acl & Eacl & Hcacl).
  unfold bind at 1. rewrite Eacl.
  destruct (@vips_loop_ok (ipvs v) k v v s Hk Hstack) as (ms & s' & E & Hc & Hr).
  unfold bind at 1. rewrite E.
  eexists _, _, s'. split; [reflexivity|]. split; [|exact Hr].
  apply clean_app; [apply clean_of_In; apply Hflood|].
  now apply clean_app.
Qed.

Lemma same_but_route_vips (v v' : VLAN) :
  same_but_route v v' -> faucet_vips v' = faucet_vips v.
Proof. intros Hs. now rewrite Hs. Qed.

Lemma add_vlans_loop_ok (ks : list Z) (all : list Z) (s : Valve) :
  (forall k, In k ks -> exists v, zget k (vlans (dp s)) = Some v) ->
  stack (dp s) = None \/
  (forall k v, zget k (vlans (dp s)) = Some v -> faucet_vips v = []) ->
  acl_refs_ok (dp s) ->
  exists ms all' s',
    add_vlans_loop ks all s = (Ok (ms, all'), s') /\ clean ms /\
    vips_added s s'.
Proof.
  revert all s. induction ks as [|k ks IH]; intros all s Hkeys Hstack Hacl;
    simpl.
  - exists [], all, s. split; [reflexivity|].
    split; [apply clean_nil | apply vips_added_refl].
  - destruct (Hkeys k (or_introl eq_refl)) as [v Hk].
    destruct (@_add_vlan_ok k all s v Hk) as (ms & all1 & s1 & E & Hc & Hr).
    { destruct Hstack as [Hs|Hs]; [now left | right; eauto]. }
    { exact Hacl. }
    destruct (IH all1 s1) as (ms' & all' & s' & E' & Hc' & Hr').
    + intros k' Hin. destruct (Hkeys k' (or_intror Hin)) as [v' Hk'].
      destruct (@vips_added_zget s s1 k' v' Hr Hk') as (v1 & Hv1 & _). eauto.
    + destruct Hstack as [Hs|Hs].
      * left. now rewrite (@vips_added_stack s s1 Hr).
      * right. intros k' v1 Hk1.
        destruct Hr as (_ & _ & Hrel). specialize (Hrel k').
        rewrite Hk1 in Hrel.
        destruct (zget k' (vlans (dp s))) as [v0|] eqn:Hk0;
          simpl in Hrel; [|tauto].
        rewrite (@same_but_route_vips v0 v1 Hrel). eauto.
    + eapply static_acl_refs; [|exact Hacl]. apply Hr.
    + unfold bind. rewrite E, E'. exists (ms ++ ms'), all', s'.
      split; [reflexivity|]. split; [now apply clean_app|].
      eapply vips_added_trans; eassumption.
Qed.

Lemma _port_add_vlans_clean (s : Valve) (port : Port) (mirror_act : list action)
  (tagged' untagged' : list Z) :
  clean (_port_add_vlans s port mirror_act tagged' untagged').
Proof.
  unfold _port_add_vlans. apply clean_app.
  - induction tagged' as [|v l IH]; simpl; [apply clean_nil|].
    constructor; [reflexivity | exact IH].
  - induction untagged' as [|v l IH]; simpl; [apply clean_nil|].
    constructor; [reflexivity | exact IH].
Qed.

Lemma ports_add_port_ok (n : Z) (acc : list Z) (s : Valve) :
  acl_refs_ok (dp s) ->
  exists ms acc' s', ports_add_port n acc s = (Ok (ms, acc'), s') /\ clean ms.
Proof.
  intros [_ Hacl]. unfold ports_add_port. rewrite bind_get_self.
  destruct (ignore_port n);
    [exists [], acc, s; split; [reflexivity | apply clean_nil]|].
  destruct (zget n (ports (dp s))) as [port0|];
    [|exists [], acc, s; split; [reflexivity | apply clean_nil]].
  set (port := set_phys_up true port0).
  unfold bind at 1. cbv beta iota delta [modify].
  set (s1 := put_port n port s).
  destruct (negb (port_running port));
    [exists [], acc, s1; split; [reflexivity | apply clean_nil]|].
  rewrite bind_get_self.
  destruct (mirror_destination port).
  { eexists _, acc, s1. split; [reflexivity|].
    constructor; [reflexivity | apply clean_nil]. }
  destruct (@_port_add_acl_ok n false s1 Hacl) as (acl & Eacl & Hc).
  unfold bind at 1. rewrite Eacl.
  destruct (is_some (port_stack port)).
  - eexists _, _, s1. split; [reflexivity|].
    apply clean_app; [exact Hc|].
    constructor; [reflexivity | apply clean_nil].
  - eexists _, _, s1. split; [reflexivity|].
    apply clean_app; [exact Hc | apply _port_add_vlans_clean].
Qed.

Lemma ports_add_loop_ok (ns : list Z) (acc : list Z) (s : Valve) :
  acl_refs_ok (dp s) ->
  exists ms acc' s', ports_add_loop ns acc s = (Ok (ms, acc'), s') /\ clean ms.
Proof.
  revert acc s. induction ns as [|n ns IH]; intros acc s Hacl; simpl.
  - exists [], acc, s. split; [reflexivity | apply clean_nil].
  - destruct (ports_add_port_ok n acc s Hacl) as (ms & acc1 & s1 & E & Hc).
    assert (Hs : static (dp s1) = static (dp s)).
    { revert E. apply static_after.
      apply frame_ports_add_port;
        first [ exact static_kept_refl | exact static_kept_trans
              | intros; reflexivity ]. }
    destruct (IH acc1 s1 (static_acl_refs Hs Hacl))
      as (ms' & acc' & s' & E' & Hc').
    unfold bind. rewrite E, E'. exists (ms ++ ms'), acc', s'.
    split; [reflexivity | now apply clean_app].
Qed.

Lemma ports_add_cold_ok (ns : list Z) (s : Valve) :
  acl_refs_ok (dp s) ->
  exists ms s', ports_add (dp_id (dp s)) ns true s = (Ok ms, s') /\ clean ms.
Proof.
  intros Hacl. unfold ports_add, _ignore_dpid.
  rewrite bind_get_self, Z.eqb_refl. cbn [negb].
  destruct (ports_add_loop_ok ns [] s Hacl) as (ms & acc & s' & E & Hc).
  unfold bind at 1. rewrite E. rewrite bind_get_self.
  exists (ms ++ []), s'. split; [reflexivity|].
  apply clean_app; [exact Hc | apply clean_nil].
Qed.

Lemma _add_ports_and_vlans_ok (ns : list Z) (s : Valve) :
  config_ok (dp s) ->
  exists ms s',
    _add_ports_and_vlans ns s = (Ok ms, s') /\ clean ms /\
    static (dp s') = static (dp s).
Proof.
  intros (Hstack & Hva & Hpa & _ & _).
  assert (Hacl : acl_refs_ok (dp s)) by (split; assumption).
  unfold _add_ports_and_vlans. rewrite bind_get_self.
  destruct (add_vlans_loop_ok (dict_keys (vlans (dp s)))
              (set_add_all Z.eqb (stack_ports (dp s)) []) s)
    as (ms & all & s1 & E & Hc & Hr).
  - intros k Hin. now apply zget_In_keys.
  - destruct Hstack as [Hs|Hs]; [now left | right].
    intros k v Hk. apply (Hs k v). now apply zget_In.
  - exact Hacl.
  - unfold bind at 1. rewrite E. rewrite bind_get_self.
    assert (Hs1 : static (dp s1) = static (dp s)) by apply Hr.
    assert (Hid : dp_id (dp s1) = dp_id (dp s))
      by exact (f_equal (@dp_id _) Hs1).
    match goal with
    | |- context [ports_add (dp_id (dp s1)) ?l true] => set (all' := l)
    end.
    destruct (ports_add_cold_ok all' s1 (static_acl_refs Hs1 Hacl))
      as (ms' & s' & E' & Hc').
    unfold bind. rewrite E'. exists (ms ++ ms'), s'.
    split; [reflexivity|]. split; [now apply clean_app|].
    transitivity (static (dp s1)); [|exact Hs1].
    revert E'. apply static_after.
    apply frame_ports_add;
      first [ exact static_kept_refl | exact static_kept_trans
            | intros; reflexivity ].
Qed.

Lemma filter_clean_l (d : DP) (t : table) (a b : list ofmsg) :
  clean a ->
  filter (is_default_drop d t) (a ++ b) = filter (is_default_drop d t) b.
Proof.
  intros Ha. now rewrite filter_app, (clean_not_default d t Ha).
Qed.

Lemma filter_clean_r (d : DP) (t : table) (a b : list ofmsg) :
  clean b ->
  filter (is_default_drop d t) (a ++ b) = filter (is_default_drop d t) a.
Proof.
  intros Hb. now rewrite filter_app, (clean_not_default d t Hb), app_nil_r.
Qed.

Lemma default_drops_none (d : DP) (t : table) (ts : list table) :
  (forall t', In t' ts -> table_id t' <> table_id t) ->
  filter (is_default_drop d t)
         (map (fun t' => flowdrop t' None (lowest_priority d)) ts) = [].
Proof.
  induction ts as [|a ts IH]; intros Hne; simpl; [reflexivity|].
  unfold table_eqb.
  destruct (Z.eqb_spec (table_id a) (table_id t)) as [E|_].
  - exfalso. exact (Hne a (or_introl eq_refl) E).
  - simpl. apply IH. intros t' Hin. apply Hne. now right.
Qed.

Lemma default_drops_one (d : DP) (t : table) (ts : list table) :
  NoDup (map table_id ts) -> In t ts ->
  List.length (filter (is_default_drop d t)
                 (map (fun t' => flowdrop t' None (lowest_priority d)) ts))
  = 1%nat.
Proof.
  induction ts as [|a ts IH]; intros Hnd Hin; [destruct Hin|].
  inversion Hnd as [|x l Hnotin Hnd' Heq]; subst x l.
  simpl. unfold table_eqb. destruct Hin as [->|Hin].
  - rewrite !Z.eqb_refl. simpl. rewrite default_drops_none; [reflexivity|].
    intros t' Hin' E. apply Hnotin. rewrite <- E. now apply in_map.
  - destruct (Z.eqb_spec (table_id a) (table_id t)) as [E|_].
    + exfalso. apply Hnotin. rewrite E. now apply in_map.
    + simpl. now apply IH.
Qed.

Lemma clean_drops (t : table) (f : mac -> option ofmatch) (p : Z)
  (l : list mac) :
  (forall a, f a <> None) ->
  clean (map (fun a => flowdrop t (f a) p) l).
Proof.
  intros Hf. induction l as [|a l IH]; simpl; [apply clean_nil|].
  constructor; [|exact IH].
  simpl. destruct (f a) eqn:E; [reflexivity | now apply Hf in E].
Qed.

Lemma _add_default_drop_flows_one (s : Valve) (t : table) :
  NoDup (map table_id (all_valve_tables (dp s))) ->
  In t (all_valve_tables (dp s)) ->
  List.length (filter (is_default_drop (dp s) t) (_add_default_drop_flows s))
  = 1%nat.
Proof.
  intros Hnd Hin. unfold _add_default_drop_flows.
  rewrite filter_clean_r; [now apply default_drops_one|].
  repeat apply clean_app.
  - destruct (drop_broadcast_source_address (dp s)); [|apply clean_nil].
    constructor; [reflexivity | apply clean_nil].
  - destruct (drop_spoofed_faucet_mac (dp s)); [|apply clean_nil].
    induction (dict_values (vlans (dp s))) as [|v l IH]; simpl;
      [apply clean_nil|].
    constructor; [reflexivity | exact IH].
  - destruct (drop_bpdu (dp s)); [|apply clean_nil].
    apply clean_drops. intros a; discriminate.
  - destruct (drop_lldp (dp s)); [|apply clean_nil].
    constructor; [reflexivity | apply clean_nil].
Qed.

Lemma _add_default_flows_one (s : Valve) (t : table) :
  config_ok (dp s) ->
  In t (all_valve_tables (dp s)) ->
  List.length (filter (is_default_drop (dp s) t) (_add_default_flows s))
  = 1%nat.
Proof.
  destruct managers_ok as (Hgroups & _).
  intros (_ & _ & _ & Hnd & Hmeters) Hin. unfold _add_default_flows.
  rewrite filter_clean_l.
  2:{ unfold _delete_all_valve_flows. repeat apply clean_app.
      - constructor; [reflexivity | apply clean_nil].
      - destruct (nonempty (meters (dp s))); [|apply clean_nil].
        constructor; [reflexivity | apply clean_nil].
      - destruct (group_table (dp s)); [|apply clean_nil].
        constructor; [exact Hgroups | apply clean_nil]. }
  rewrite filter_clean_l.
  2:{ unfold _add_packetin_meter.
      destruct (truthy (packetin_pps (dp s))); [|apply clean_nil].
      repeat constructor. }
  rewrite filter_clean_l.
  2:{ destruct (nonempty (meters (dp s))); [|apply clean_nil].
      apply clean_of_In. intros m Hm. apply in_map_iff in Hm.
      destruct Hm as (meter & <- & Hm). unfold dict_values in Hm.
      apply in_map_iff in Hm. destruct Hm as ([k meter'] & <- & Hm).
      exact (Hmeters k meter' Hm). }
  rewrite filter_clean_r; [now apply _add_default_drop_flows_one|].
  constructor; [reflexivity | apply clean_nil].
Qed.

End Connect.

Section ColdStart.
Context {O : Opaque} {C : Collaborators}.

(** C1.  Cold start.  For the Valve's own dp_id and every list of
    discovered up ports: when the managers emit no table-wide drop of
    their own, and the configuration is one a cold start can program (no
    faucet VIP together with stacking, ACL bindings that name ACLs of the
    DP, tables with distinct ids, no meter entry that is a table-wide
    drop), [datapath_connect] returns a message list that begins with the
    wildcard flow-delete, ends with the eth_src controller-learn flow and
    holds exactly one lowest-priority default drop for each table of
    [all_valve_tables]; after the call [dp.running] is true. *)
Theorem datapath_connect_cold_start (self : Valve) (discovered : list Z) :
  managers_emit_no_table_wide_drop ->
  config_ok (dp self) ->
  exists ofmsgs self',
    datapath_connect (dp_id (dp self)) discovered self = (Ok ofmsgs, self') /\
    (exists rest,
       ofmsgs = FlowDel (wildcard_table (dp self)) None None :: rest) /\
    (exists front,
       ofmsgs = front ++
                [flowcontroller (eth_src_table (tables (dp self)))
                   (low_priority (dp self))
                   [goto_table (eth_dst_table (tables (dp self)))]]) /\
    (forall t, In t (all_valve_tables (dp self)) ->
       List.length (filter (is_default_drop (dp self) t) ofmsgs) = 1%nat) /\
    running (dp self') = true.
Proof.
  intros managers_ok Hok.
  destruct (@_add_ports_and_vlans_ok O C managers_ok discovered self Hok)
    as (ms & s1 & E & Hc & Hs).
  unfold datapath_connect, _ignore_dpid.
  rewrite bind_get_self, Z.eqb_refl. cbn [negb].
  unfold bind at 1. rewrite E. rewrite bind_get_self.
  cbv beta iota delta [bind modify ret].
  assert (Hlearn : _add_controller_learn_flow s1
                   = _add_controller_learn_flow self).
  { unfold _add_controller_learn_flow.
    change (tables (dp s1)) with (tables (static (dp s1))).
    change (low_priority (dp s1)) with (low_priority (static (dp s1))).
    now rewrite Hs. }
  rewrite Hlearn.
  eexists _, _. split; [reflexivity|]. split; [|split; [|split]].
  - eexists. unfold _add_default_flows, _delete_all_valve_flows, flowdel.
    simpl. reflexivity.
  - exists (_add_default_flows self ++ ms).
    now rewrite <- app_assoc.
  - intros t Hin. rewrite app_assoc, filter_clean_r.
    + rewrite filter_clean_r by exact Hc.
      now apply (@_add_default_flows_one O C managers_ok).
    + constructor; [reflexivity | apply clean_nil].
  - reflexivity.
Qed.

End ColdStart.

Section ConnectConcrete.
#[local] Existing Instance Demo.opaque.
#[local] Existing Instance Demo.collaborators.

Lemma demo_managers_ok : managers_emit_no_table_wide_drop.
Proof.
  split; [reflexivity|]. split; [|split].
  - intros d vid' modify m. simpl. unfold Demo.demo_flood.
    destruct (zget vid' (vlans d)); simpl; [|tauto].
    intros [<-|[]]. reflexivity.
  - intros rule allow ms port_num vlan_vid m. simpl. tauto.
  - intros ipv vlan a m. simpl. intros [<-|[]]. reflexivity.
Qed.

Lemma demo_config_ok (vs : dict Z VLAN) (ps : dict Z Port) (i a : Z) :
  config_ok (Demo.mk_dp vs ps None i a).
Proof.
  split; [now left|]. split; [intros k x Hx; discriminate Hx|].
  split; [intros k x Hx; discriminate Hx|].
  split; [|intros k meter []].
  simpl. repeat constructor; simpl; intuition discriminate.
Qed.

(** Two configurations on which the cold start returns no message list
    and leaves [dp.running] false: with a stack configuration and a
    routed VLAN [datapath_connect] raises AssertionError, and with a port
    bound to an ACL the DP does not define it raises KeyError. *)
Lemma cold_start_raises_on_contradictory_config :
  fst (datapath_connect 1 [1; 2] Cases.v_stack_routed) = Raise AssertionError /\
  running (dp (snd (datapath_connect 1 [1; 2] Cases.v_stack_routed))) = false /\
  fst (datapath_connect 1 [1; 2] Cases.v_acl) = Raise KeyError /\
  running (dp (snd (datapath_connect 1 [1; 2] Cases.v_acl))) = false.
Proof.
  repeat (split; [vm_compute; reflexivity|]). vm_compute; reflexivity.
Qed.

(** The cold start of the routed datapath [Demo.dp_routed] with the ports
    1 and 2 up. *)
Lemma datapath_connect_cold_start_witness :
  managers_emit_no_table_wide_drop /\
  config_ok (dp (Valve_init Demo.dp_routed)) /\
  exists ofmsgs self',
    datapath_connect 1 [1; 2] (Valve_init Demo.dp_routed)
    = (Ok ofmsgs, self') /\
    (forall t, In t Demo.all_tables ->
       List.length (filter (is_default_drop Demo.dp_routed t) ofmsgs) = 1%nat) /\
    running (dp self') = true.
Proof.
  split; [exact demo_managers_ok|].
  split; [apply demo_config_ok|].
  destruct (@datapath_connect_cold_start Demo.opaque Demo.collaborators
              (Valve_init Demo.dp_routed) [1; 2]
              demo_managers_ok (demo_config_ok _ _ _ _))
    as (ofmsgs & self' & E & _ & _ & Hdrops & Hrun).
  exists ofmsgs, self'. split; [exact E|]. split; [exact Hdrops | exact Hrun].
Defined.

End ConnectConcrete.

(** * Further properties of the embedded code *)

Section MonadSteps.
Context {O : Opaque}.

Lemma bind_ok {A B} (m : M A) (k : A -> M B) (s s' : Valve) (a : A) :
  m s = (Ok a, s') -> bind m k s = k a s'.
Proof. intros E. unfold bind. now rewrite E. Qed.

Lemma bind_raise {A B} (m : M A) (k : A -> M B) (s s' : Valve) (e : exn) :
  m s = (Raise e, s') -> bind m k s = (Raise e, s').
Proof. intros E. unfold bind. now rewrite E. Qed.

End MonadSteps.

(** ** Events for another datapath *)

Section ForeignDatapath.
Context {O : Opaque} {C : Collaborators}.

(** X1.  An event for another datapath is ignored: called with a dp_id
    that is not the Valve's own, [datapath_connect], [datapath_disconnect],
    [ports_add], [ports_delete], [port_status_handler] (whatever the
    reason) and [rcv_packet] return no message and leave the Valve as it
    is. *)
Theorem foreign_dpid_is_ignored (self : Valve) (dpid : Z) :
  dpid <> dp_id (dp self) ->
  (forall ns, datapath_connect dpid ns self = (Ok [], self)) /\
  datapath_disconnect dpid self = (Ok tt, self) /\
  (forall ns cold, ports_add dpid ns cold self = (Ok [], self)) /\
  (forall ns, ports_delete dpid ns self = (Ok [], self)) /\
  (forall n reason st,
     port_status_handler dpid n reason st self = (Ok [], self)) /\
  (forall now valves pm, rcv_packet now dpid valves pm self = (Ok [], self)).
Proof.
  intros Hne.
  assert (Hig : _ignore_dpid self dpid = true).
  { unfold _ignore_dpid. apply negb_true_iff. now apply Z.eqb_neq. }
  assert (Hadd : forall ns cold, ports_add dpid ns cold self = (Ok [], self)).
  { intros ns cold. unfold ports_add. now rewrite bind_get_self, Hig. }
  assert (Hdel : forall ns, ports_delete dpid ns self = (Ok [], self)).
  { intros ns. unfold ports_delete. now rewrite bind_get_self, Hig. }
  split; [|split; [|split; [|split; [|split]]]].
  - intros ns. unfold datapath_connect. now rewrite bind_get_self, Hig.
  - unfold datapath_disconnect. now rewrite bind_get_self, Hig.
  - exact Hadd.
  - exact Hdel.
  - intros n reason st. unfold port_status_handler, port_add, port_delete.
    destruct (reason =? OFPPR_ADD); [apply Hadd|].
    destruct (reason =? OFPPR_DELETE); [apply Hdel|].
    destruct (reason =? OFPPR_MODIFY); [|reflexivity].
    unfold bind. rewrite Hdel. destruct st; [rewrite Hadd|]; reflexivity.
  - intros now valves pm. unfold rcv_packet, _known_up_dpid_and_port.
    rewrite bind_get_self, Hig. reflexivity.
Qed.

End ForeignDatapath.


(** ** Port events *)

Section PortEvents.
Context {O : Opaque} {C : Collaborators}.

Lemma _port_add_acl_state (n : Z) (b : bool) (s : Valve) :
  snd (_port_add_acl n b s) = s.
Proof.
  unfold _port_add_acl. rewrite bind_get_self.
  destruct (zget n (port_acl_in (dp s))); [|reflexivity].
  destruct (zget z (acls (dp s))); reflexivity.
Qed.

(** The Valve after one round of the loop of [ports_add]: the port, when
    it is configured and not ignored, is marked up, whether the round
    returns or raises. *)
Lemma ports_add_port_state (n : Z) (acc : list Z) (s : Valve) :
  snd (ports_add_port n acc s)
  = match (if ignore_port n then None else zget n (ports (dp s))) with
    | Some port0 => put_port n (set_phys_up true port0) s
    | None => s
    end.
Proof.
  unfold ports_add_port. rewrite bind_get_self.
  destruct (ignore_port n); [reflexivity|].
  destruct (zget n (ports (dp s))) as [port0|]; [|reflexivity].
  unfold bind at 1. cbv beta iota delta [modify].
  destruct (negb (port_running (set_phys_up true port0))); [reflexivity|].
  rewrite bind_get_self.
  destruct (mirror_destination (set_phys_up true port0)); [reflexivity|].
  pose proof (_port_add_acl_state n false
                (put_port n (set_phys_up true port0) s)) as Hs.
  unfold bind.
  destruct (_port_add_acl n false (put_port n (set_phys_up true port0) s))
    as [[acl|e] s1]; simpl in Hs; subst s1; [|reflexivity].
  destruct (is_some (port_stack (set_phys_up true port0))); reflexivity.
Qed.

Lemma ports_delete_single_ok (n : Z) (s : Valve) (port : Port) :
  ignore_port n = false ->
  zget n (ports (dp s)) = Some port ->
  exists ms,
    ports_delete (dp_id (dp s)) [n] s
    = (Ok ms, put_port n (set_phys_up false port) s).
Proof.
  intros Hig Hp.
  assert (E : exists ms acc,
             ports_delete_port n [] s
             = (Ok (ms, acc), put_port n (set_phys_up false port) s)).
  { unfold ports_delete_port. rewrite bind_get_self, Hig, Hp.
    eexists _, _. reflexivity. }
  destruct E as (ms & acc & E).
  unfold ports_delete, _ignore_dpid. rewrite bind_get_self, Z.eqb_refl.
  cbn [negb]. simpl ports_delete_loop. unfold bind. rewrite E.
  eexists. reflexivity.
Qed.

Lemma ports_add_single_state (n : Z) (b : bool) (s : Valve) :
  snd (ports_add (dp_id (dp s)) [n] b s) = snd (ports_add_port n [] s).
Proof.
  unfold ports_add, _ignore_dpid. rewrite bind_get_self, Z.eqb_refl.
  cbn [negb]. simpl ports_add_loop. unfold bind.
  destruct (ports_add_port n [] s) as [[[ms acc]|e] s1]; reflexivity.
Qed.

Lemma ports_add_loop_skips (ns acc : list Z) (s : Valve) :
  (forall n, In n ns ->
     ignore_port n = true \/ zmem n (ports (dp s)) = false) ->
  ports_add_loop ns acc s = (Ok ([], acc), s).
Proof.
  induction ns as [|n ns IH]; intros Hall; simpl; [reflexivity|].
  assert (E : ports_add_port n acc s = (Ok ([], acc), s)).
  { unfold ports_add_port. rewrite bind_get_self.
    destruct (Hall n (or_introl eq_refl)) as [Hig|Hm].
    - now rewrite Hig.
    - destruct (ignore_port n); [reflexivity|].
      unfold zmem, dict_mem in Hm. unfold zget.
      destruct (dict_get Z.eqb n (ports (dp s))); [discriminate Hm|reflexivity]. }
  unfold bind. rewrite E, IH; [reflexivity|].
  intros n' Hin. apply Hall. now right.
Qed.

Lemma ports_delete_loop_skips (ns acc : list Z) (s : Valve) :
  (forall n, In n ns ->
     ignore_port n = true \/ zmem n (ports (dp s)) = false) ->
  ports_delete_loop ns acc s = (Ok ([], acc), s).
Proof.
  induction ns as [|n ns IH]; intros Hall; simpl; [reflexivity|].
  assert (E : ports_delete_port n acc s = (Ok ([], acc), s)).
  { unfold ports_delete_port. rewrite bind_get_self.
    destruct (Hall n (or_introl eq_refl)) as [Hig|Hm].
    - now rewrite Hig.
    - destruct (ignore_port n); [reflexivity|].
      unfold zmem, dict_mem in Hm. unfold zget.
      destruct (dict_get Z.eqb n (ports (dp s))); [discriminate Hm|reflexivity]. }
  unfold bind. rewrite E, IH; [reflexivity|].
  intros n' Hin. apply Hall. now right.
Qed.

(** X2.  Port numbers that are reserved ([valve_of.ignore_port]) or not
    in the configuration are skipped: [ports_add] and [ports_delete] on a
    list of such ports return no message, rebuild no flood rule and leave
    the Valve as it is, for a warm and for a cold start. *)
Theorem ports_skip_unconfigured (self : Valve) (dpid : Z) (ns : list Z)
  (cold_start : bool) :
  (forall n, In n ns ->
     ignore_port n = true \/ zmem n (ports (dp self)) = false) ->
  ports_add dpid ns cold_start self = (Ok [], self) /\
  ports_delete dpid ns self = (Ok [], self).
Proof.
  intros Hall. split.
  - unfold ports_add. rewrite bind_get_self.
    destruct (_ignore_dpid self dpid); [reflexivity|].
    unfold bind at 1. rewrite (ports_add_loop_skips ns [] self Hall).
    rewrite bind_get_self. destruct cold_start; reflexivity.
  - unfold ports_delete. rewrite bind_get_self.
    destruct (_ignore_dpid self dpid); [reflexivity|].
    unfold bind at 1. rewrite (ports_delete_loop_skips ns [] self Hall).
    rewrite bind_get_self. reflexivity.
Qed.

(** X3.  A port that is a mirror destination gets one flow when it is
    added: the drop, at the highest priority, of everything that enters
    the vlan table through it.  No ACL, no VLAN rule, and no flood rule is
    rebuilt, also on a warm start.  The port is marked up. *)
Theorem ports_add_mirror_destination (self : Valve) (n : Z) (port : Port)
  (cold_start : bool) :
  zget n (ports (dp self)) = Some port ->
  ignore_port n = false ->
  enabled port = true ->
  mirror_destination port = true ->
  ports_add (dp_id (dp self)) [n] cold_start self
  = (Ok [flowmod (vlan_table (tables (dp self))) (match_in_port n)
                 (highest_priority (dp self)) []],
     put_port n (set_phys_up true port) self).
Proof.
  intros Hp Hig Hen Hmd.
  assert (E : ports_add_port n [] self
              = (Ok ([flowmod (vlan_table (tables (dp self))) (match_in_port n)
                        (highest_priority (dp self)) []], []),
                 put_port n (set_phys_up true port) self)).
  { unfold ports_add_port. rewrite bind_get_self, Hig, Hp.
    cbv beta iota delta [bind modify get_self ret port_running].
    simpl. rewrite Hen, Hmd. reflexivity. }
  unfold ports_add, _ignore_dpid. rewrite bind_get_self, Z.eqb_refl.
  cbn [negb]. simpl ports_add_loop. unfold bind. rewrite E.
  destruct cold_start; reflexivity.
Qed.

(** X4.  A port that is configured but not enabled is marked physically
    up by [ports_add] and gets no flow; no flood rule is rebuilt. *)
Theorem ports_add_disabled_port (self : Valve) (n : Z) (port : Port)
  (cold_start : bool) :
  zget n (ports (dp self)) = Some port ->
  ignore_port n = false ->
  enabled port = false ->
  ports_add (dp_id (dp self)) [n] cold_start self
  = (Ok [], put_port n (set_phys_up true port) self).
Proof.
  intros Hp Hig Hen.
  assert (E : ports_add_port n [] self
              = (Ok ([], []), put_port n (set_phys_up true port) self)).
  { unfold ports_add_port. rewrite bind_get_self, Hig, Hp.
    cbv beta iota delta [bind modify get_self ret port_running].
    simpl. rewrite Hen. reflexivity. }
  unfold ports_add, _ignore_dpid. rewrite bind_get_self, Z.eqb_refl.
  cbn [negb]. simpl ports_add_loop. unfold bind. rewrite E.
  destruct cold_start; reflexivity.
Qed.

(** X5.  What a port status event does to [phys_up] of a configured,
    non-reserved port of the Valve's own datapath, whether the handler
    returns or raises: OFPPR_ADD leaves the port up, OFPPR_DELETE leaves
    it down, OFPPR_MODIFY leaves it as the reported status says (the port
    is deleted, and added again when the status is up), any other reason
    leaves it as it was.  Nothing else of the port changes. *)
Theorem port_status_sets_phys_up (self : Valve) (n reason : Z)
  (port_status : bool) (port : Port) :
  zget n (ports (dp self)) = Some port ->
  ignore_port n = false ->
  zget n (ports (dp (snd (port_status_handler (dp_id (dp self)) n reason
                            port_status self))))
  = Some (set_phys_up
            (if reason =? OFPPR_ADD then true
             else if reason =? OFPPR_DELETE then false
             else if reason =? OFPPR_MODIFY then port_status
             else phys_up port)
            port).
Proof.
  intros Hp Hig.
  assert (Hadd : forall s p, zget n (ports (dp s)) = Some p ->
            snd (ports_add (dp_id (dp s)) [n] false s)
            = put_port n (set_phys_up true p) s).
  { intros s p Hs. rewrite ports_add_single_state, ports_add_port_state.
    now rewrite Hig, Hs. }
  destruct (@ports_delete_single_ok n self port Hig Hp) as [ms Hdel].
  unfold port_status_handler, port_add, port_delete.
  destruct (reason =? OFPPR_ADD).
  { rewrite (Hadd self port Hp). simpl. apply zget_zset_same. }
  destruct (reason =? OFPPR_DELETE).
  { rewrite Hdel. simpl. apply zget_zset_same. }
  destruct (reason =? OFPPR_MODIFY).
  - unfold bind. rewrite Hdel. destruct port_status.
    + set (s1 := put_port n (set_phys_up false port) self).
      assert (Hs1 : zget n (ports (dp s1)) = Some (set_phys_up false port))
        by (simpl; apply zget_zset_same).
      pose proof (Hadd s1 _ Hs1) as Ha.
      change (dp_id (dp s1)) with (dp_id (dp self)) in Ha.
      destruct (ports_add (dp_id (dp self)) [n] false s1) as [[ms'|e] s2];
        simpl in Ha; subst s2; simpl; rewrite zget_zset_same; reflexivity.
    + simpl. apply zget_zset_same.
  - simpl. rewrite Hp. now destruct port.
Qed.

End PortEvents.

(** ** Packets from the dataplane *)

Section EdgeDatapath.
Context {O : Opaque} {C : Collaborators}.

(** X6.  What [_edge_dp_for_host] returns.  A datapath it returns is the
    DP of another Valve of [valves] (never the one of [dp_id]) whose host
    cache, for the VLAN of the packet, holds the source MAC as an edge
    host.  When it returns None, every other Valve carries the VLAN and
    none holds the source MAC as an edge host.  When it raises, the
    exception is KeyError and some other Valve does not carry the VLAN. *)
Theorem edge_dp_for_host_spec (valves : dict Z Valve) (dpid : Z)
  (pm : PacketMeta) :
  match _edge_dp_for_host valves dpid pm with
  | Ok (Some d) =>
      exists k v vlan host,
        In (k, v) valves /\ k <> dpid /\ dp v = d /\
        zget (pm_vlan pm) (vlans d) = Some vlan /\
        mget (pm_eth_src pm) (host_cache vlan) = Some host /\
        hce_edge host = true
  | Ok None =>
      forall k v, In (k, v) valves -> k <> dpid ->
        exists vlan,
          zget (pm_vlan pm) (vlans (dp v)) = Some vlan /\
          forall host, mget (pm_eth_src pm) (host_cache vlan) = Some host ->
                       hce_edge host = false
  | Raise e =>
      e = KeyError /\
      exists k v, In (k, v) valves /\ k <> dpid /\
                  zget (pm_vlan pm) (vlans (dp v)) = None
  end.
Proof.
  induction valves as [|[k v] rest IH]; simpl.
  - intros k0 v0 Hf. destruct Hf.
  - destruct (Z.eqb_spec k dpid) as [->|Hne].
    + destruct (_edge_dp_for_host rest dpid pm) as [[d|]|e].
      * destruct IH as (k' & v' & vlan & host & Hin & H).
        exists k', v', vlan, host. split; [now right | exact H].
      * intros k' v' [Heq|Hin] Hk'; [inversion Heq; subst; tauto|].
        exact (IH k' v' Hin Hk').
      * destruct IH as (-> & k' & v' & Hin & H). split; [reflexivity|].
        exists k', v'. split; [now right | exact H].
    + destruct (zget (pm_vlan pm) (vlans (dp v))) as [vlan|] eqn:Hv.
      2:{ split; [reflexivity|]. exists k, v. split; [now left|]. auto. }
      assert (Hrest :
        (forall host, mget (pm_eth_src pm) (host_cache vlan) = Some host ->
                      hce_edge host = false) ->
        match _edge_dp_for_host rest dpid pm with
        | Ok (Some d) =>
            exists k0 v0 vlan0 host,
              ((k, v) = (k0, v0) \/ In (k0, v0) rest) /\ k0 <> dpid /\
              dp v0 = d /\ zget (pm_vlan pm) (vlans d) = Some vlan0 /\
              mget (pm_eth_src pm) (host_cache vlan0) = Some host /\
              hce_edge host = true
        | Ok None =>
            forall k0 v0, (k, v) = (k0, v0) \/ In (k0, v0) rest -> k0 <> dpid ->
              exists vlan0,
                zget (pm_vlan pm) (vlans (dp v0)) = Some vlan0 /\
                forall host,
                  mget (pm_eth_src pm) (host_cache vlan0) = Some host ->
                  hce_edge host = false
        | Raise e =>
            e = KeyError /\
            exists k0 v0, ((k, v) = (k0, v0) \/ In (k0, v0) rest) /\
                          k0 <> dpid /\
                          zget (pm_vlan pm) (vlans (dp v0)) = None
        end).
      { intros Hnone.
        destruct (_edge_dp_for_host rest dpid pm) as [[d|]|e].
        - destruct IH as (k' & v' & vlan' & host & Hin & H).
          exists k', v', vlan', host. split; [now right | exact H].
        - intros k' v' [Heq|Hin] Hk'; [|exact (IH k' v' Hin Hk')].
          inversion Heq; subst. exists vlan. split; [exact Hv | exact Hnone].
        - destruct IH as (-> & k' & v' & Hin & H). split; [reflexivity|].
          exists k', v'. split; [now right | exact H]. }
      destruct (mget (pm_eth_src pm) (host_cache vlan)) as [host|] eqn:Hh.
      * destruct (hce_edge host) eqn:He.
        -- exists k, v, vlan, host. repeat split; auto.
        -- apply Hrest. intros host' Heq. inversion Heq; subst. exact He.
      * apply Hrest. intros host' Heq. discriminate Heq.
Qed.

End EdgeDatapath.

Section LearnedOnPort.
Context {O : Opaque} {C : Collaborators}.

(** X7.  The MACs [_get_eth_srcs_learned_on_port] returns for a port are
    the keys of the host caches of the VLANs of the port (its native VLAN
    and its tagged VLANs, as far as they are configured) whose entry
    points at this port; for a port that is not configured there is
    none. *)
Theorem eth_srcs_learned_on_port_spec (d : DP) (port_no : Z)
  (eth_src : mac) :
  In eth_src (_get_eth_srcs_learned_on_port d port_no) <->
  exists port vlan_vid vlan entry,
    zget port_no (ports d) = Some port /\
    (native_vlan port = Some vlan_vid \/ In vlan_vid (tagged_vlans port)) /\
    zget vlan_vid (vlans d) = Some vlan /\
    In (eth_src, entry) (host_cache vlan) /\
    hce_port entry = port_no.
Proof.
  unfold _get_eth_srcs_learned_on_port. split.
  - destruct (zget port_no (ports d)) as [port|]; [|intros []].
    intros Hin. apply in_flat_map in Hin. destruct Hin as (o & Ho & Hin).
    destruct o as [vlan_vid|]; [|destruct Hin].
    destruct (zget vlan_vid (vlans d)) as [vlan|] eqn:Hv; [|destruct Hin].
    apply in_map_iff in Hin. destruct Hin as ([m e] & Hm & Hin).
    simpl in Hm. subst m. apply filter_In in Hin. destruct Hin as [Hin He].
    simpl in He. apply Z.eqb_eq in He.
    exists port, vlan_vid, vlan, e. repeat split; auto.
    destruct Ho as [Ho|Ho]; [now left|right].
    apply in_map_iff in Ho. destruct Ho as (x & Hx & Hin'). now inversion Hx; subst.
  - intros (port & vlan_vid & vlan & e & Hp & Hmem & Hv & Hin & He).
    rewrite Hp. apply in_flat_map. exists (Some vlan_vid). split.
    + destruct Hmem as [Hn|Ht]; [left; now symmetry | right; now apply in_map].
    + rewrite Hv. apply in_map_iff. exists (eth_src, e). split; [reflexivity|].
      apply filter_In. split; [exact Hin|]. simpl. now apply Z.eqb_eq.
Qed.

End LearnedOnPort.

Section PacketInTotal.
Context {O : Opaque} {C : Collaborators}.

Lemma _edge_dp_for_host_headers (valves : dict Z Valve) (dpid : Z)
  (pm pm' : PacketMeta) :
  same_headers pm pm' ->
  _edge_dp_for_host valves dpid pm' = _edge_dp_for_host valves dpid pm.
Proof.
  intros (_ & Hv & Hs & _).
  induction valves as [|[k v] rest IH]; simpl; [reflexivity|].
  rewrite IH, Hv, Hs. reflexivity.
Qed.

Lemma for_extend_ok {X} (P : Valve -> Prop) (xs : list X)
  (body : X -> M (list ofmsg)) :
  (forall x s, In x xs -> P s ->
     exists ms s', body x s = (Ok ms, s') /\ P s') ->
  forall s, P s -> exists ms s', for_extend xs body s = (Ok ms, s') /\ P s'.
Proof.
  induction xs as [|x xs IH]; intros Hbody s Hs; simpl.
  - exists [], s. split; [reflexivity | exact Hs].
  - destruct (Hbody x s (or_introl eq_refl) Hs) as (ms & s1 & E & Hs1).
    destruct (IH (fun y s0 Hy => Hbody y s0 (or_intror Hy)) s1 Hs1)
      as (ms' & s' & E' & Hs').
    unfold bind. rewrite E, E'. eexists _, _. split; [reflexivity | exact Hs'].
Qed.

Lemma add_host_fib_routes_ok (pm : PacketMeta) (s : Valve) :
  zmem (pm_vlan pm) (vlans (dp s)) = true ->
  exists ms s', add_host_fib_routes pm s = (Ok ms, s').
Proof.
  intros Hm. unfold add_host_fib_routes.
  destruct (@for_extend_ok Z
              (fun s => zmem (pm_vlan pm) (vlans (dp s)) = true)
              route_manager_by_ipv
              (fun ipv =>
                 vlan <- the_vlan (pm_vlan pm) ;;
                 (let '(ofmsgs, rs) :=
                    rm_add_host_fib_route_from_pkt ipv pm vlan in
                  modify (put_vlan (pm_vlan pm)
                            (set_vlan_route_state rs vlan)) ;;;
                  ret ofmsgs))) with (s := s) as (ms & s' & E & _).
  - intros ipv s0 _ Hs0. apply zmem_zget in Hs0. destruct Hs0 as [v Hv].
    cbv beta iota delta [bind the_vlan get_self subscript modify ret].
    rewrite Hv.
    destruct (rm_add_host_fib_route_from_pkt ipv pm v) as [ms rs].
    eexists _, _. split; [reflexivity|].
    apply zmem_zget. simpl. rewrite zget_zset_same. eauto.
  - exact Hm.
  - eexists _, _. exact E.
Qed.

Lemma _learn_host_ok (now : Z) (valves : dict Z Valve) (dpid : Z)
  (pm : PacketMeta) (s : Valve) (port : Port) :
  zget (pm_port pm) (ports (dp s)) = Some port ->
  zmem (pm_vlan pm) (vlans (dp s)) = true ->
  port_stack port = None \/
  (exists r, _edge_dp_for_host valves dpid pm = Ok r) ->
  exists ms s', _learn_host now valves dpid pm s = (Ok ms, s') /\
                zmem (pm_vlan pm) (vlans (dp s')) = true.
Proof.
  intros Hp Hm Hedge. pose proof Hm as Hm'.
  apply zmem_zget in Hm'. destruct Hm' as [v Hv].
  assert (Hlearn : forall lp,
    exists ms s',
      (vlan <- the_vlan (pm_vlan pm) ;;
       (let '(ofmsgs, hc) :=
          learn_host_on_vlan_port now lp vlan (pm_eth_src pm) in
        modify (put_vlan (pm_vlan pm) (set_host_cache hc vlan)) ;;;
        ret ofmsgs)) s = (Ok ms, s') /\
      zmem (pm_vlan pm) (vlans (dp s')) = true).
  { intros lp.
    cbv beta iota delta [bind the_vlan get_self subscript modify ret].
    rewrite Hv.
    destruct (learn_host_on_vlan_port now lp v (pm_eth_src pm)) as [ms hc].
    eexists _, _. split; [reflexivity|].
    apply zmem_zget. simpl. rewrite zget_zset_same. eauto. }
  unfold _learn_host, the_port.
  rewrite bind_assoc, bind_get_self. unfold subscript. rewrite Hp, bind_ret.
  destruct (port_stack port) as [st|] eqn:Hst; cbn [is_some].
  - destruct Hedge as [Hx|[r Hr]]; [discriminate Hx|]. rewrite Hr.
    destruct r as [edge|].
    + rewrite bind_get_self. apply Hlearn.
    + exists [], s. split; [reflexivity | exact Hm].
  - apply Hlearn.
Qed.

(** X8.  [rcv_packet] returns.  For a packet-in that passes the guards,
    on a configured port that is stored under its own number, the call
    returns a message list, provided the port is not a stack port or the
    search for the edge datapath of the host returns (every other Valve
    carries the VLAN of the packet). *)
Theorem rcv_packet_returns (now dpid : Z) (valves : dict Z Valve)
  (pm : PacketMeta) (self : Valve) (port : Port) :
  _known_up_dpid_and_port self dpid (pm_port pm) = true ->
  zmem (pm_vlan pm) (vlans (dp self)) = true ->
  zget (pm_port pm) (ports (dp self)) = Some port ->
  number port = pm_port pm ->
  port_stack port = None \/
  (exists r, _edge_dp_for_host valves dpid pm = Ok r) ->
  exists ofmsgs self',
    rcv_packet now dpid valves pm self = (Ok ofmsgs, self').
Proof.
  intros Hg Hv Hp Hn Hedge.
  destruct (rcv_packet_accepted now dpid valves pm self Hg Hv)
    as (h & reply & pm' & s1 & _ & Hr & Hh & ->).
  destruct (rate_limited now self); [eexists _, _; reflexivity|].
  set (s2 := set_packet_in (next_count now self) now s1).
  destruct Hh as (Hh1 & Hh2 & Hh3 & Hh4).
  assert (Hp2 : zget (pm_port pm') (ports (dp s2)) = Some port).
  { destruct Hr as [[vs ->] _]. simpl. now rewrite Hh1. }
  assert (Hv2 : zmem (pm_vlan pm') (vlans (dp s2)) = true).
  { rewrite Hh2. exact (route_only_zmem _ Hr Hv). }
  unfold rcv_bans_and_learn. unfold bind at 1.
  rewrite (@_port_learn_ban_rules_eq _ _ pm' s2 port Hp2)
    by (now rewrite Hh1).
  destruct (port_at_cap (dp s2) port); [eexists _, _; reflexivity|].
  cbn [nonempty]. unfold bind at 1.
  pose proof Hv2 as Hv2'. apply zmem_zget in Hv2'. destruct Hv2' as [v Hv2'].
  rewrite (@_vlan_learn_ban_rules_eq _ _ pm' s2 v Hv2').
  destruct (vlan_full v && negb (mmem (pm_eth_src pm') (host_cache v)));
    [eexists _, _; reflexivity|].
  cbn [nonempty]. unfold rcv_learn.
  destruct (@_learn_host_ok now valves dpid pm' s2 port Hp2 Hv2)
    as (ms & s3 & E & Hv3).
  { destruct Hedge as [Hs|[r Hr']]; [now left|right]. exists r.
    rewrite <- Hr'. apply _edge_dp_for_host_headers.
    unfold same_headers. auto. }
  unfold bind at 1. rewrite E. rewrite bind_get_self.
  destruct (L3 s3 && negb h).
  - destruct (add_host_fib_routes_ok pm' s3 Hv3) as (fib & s4 & E4).
    unfold bind. rewrite E4. eexists _, _. reflexivity.
  - eexists _, _. reflexivity.
Qed.

End PacketInTotal.

Section StackLearning.
Context {O : Opaque} {C : Collaborators}.

(** X24.  Learning on a stack port waits for the edge datapath.  A
    packet-in on a stack port passes the guards, is neither rate limited
    nor banned, and routing is off; no other Valve holds the source MAC
    as an edge host.  Then [rcv_packet] returns no message and learns
    nothing: the Valve is as it was, up to the packet-in counter. *)
Theorem stack_port_waits_for_edge (now dpid : Z) (valves : dict Z Valve)
  (pm : PacketMeta) (self : Valve) (port : Port) (vlan : VLAN) :
  _known_up_dpid_and_port self dpid (pm_port pm) = true ->
  zget (pm_vlan pm) (vlans (dp self)) = Some vlan ->
  zget (pm_port pm) (ports (dp self)) = Some port ->
  number port = pm_port pm ->
  port_stack port <> None ->
  _edge_dp_for_host valves dpid pm = Ok None ->
  L3 self = false ->
  rate_limited now self = false ->
  port_at_cap (dp self) port = false ->
  vlan_full vlan && negb (mmem (pm_eth_src pm) (host_cache vlan)) = false ->
  rcv_packet now dpid valves pm self
  = (Ok [], set_packet_in (next_count now self) now self).
Proof.
  intros Hg Hv Hp Hn Hstack Hedge HL3 Hrate Hcap Hfull.
  assert (Hm : zmem (pm_vlan pm) (vlans (dp self)) = true)
    by (apply zmem_zget; eauto).
  assert (Ecp : rcv_control_plane pm self = (Ok (false, [], pm), self)).
  { unfold rcv_control_plane. rewrite bind_get_self, HL3.
    destruct (mac_addr_is_unicast (pm_eth_src pm)); reflexivity. }
  unfold rcv_packet. rewrite bind_get_self, Hg, Hm. cbn [negb].
  rewrite (@bind_ok _ _ _ _ _ _ _ _ Ecp). cbv beta iota.
  rewrite (@bind_ok _ _ _ _ _ _ _ _ (_rate_limit_packet_ins_eq now self)).
  rewrite Hrate.
  set (s2 := set_packet_in (next_count now self) now self).
  unfold rcv_bans_and_learn.
  assert (Eport : _port_learn_ban_rules pm s2 = (Ok [], s2)).
  { rewrite (@_port_learn_ban_rules_eq _ _ pm s2 port Hp Hn).
    change (dp s2) with (dp self). now rewrite Hcap. }
  rewrite (@bind_ok _ _ _ _ _ _ _ _ Eport). cbn [nonempty].
  assert (Evlan : _vlan_learn_ban_rules pm s2 = (Ok [], s2)).
  { rewrite (@_vlan_learn_ban_rules_eq _ _ pm s2 vlan Hv). now rewrite Hfull. }
  rewrite (@bind_ok _ _ _ _ _ _ _ _ Evlan). cbn [nonempty].
  unfold rcv_learn.
  assert (Elearn : _learn_host now valves dpid pm s2 = (Ok [], s2)).
  { unfold _learn_host, the_port. rewrite bind_assoc, bind_get_self.
    unfold subscript. change (dp s2) with (dp self). rewrite Hp, bind_ret.
    destruct (port_stack port); [|congruence]. cbn [is_some].
    now rewrite Hedge. }
  rewrite (@bind_ok _ _ _ _ _ _ _ _ Elearn). rewrite bind_get_self.
  change (L3 s2) with (L3 self). rewrite HL3. reflexivity.
Qed.

End StackLearning.

Section LearnPath.
Context {O : Opaque} {C : Collaborators}.

(** X25.  The learning path of [rcv_packet].  A packet-in on a port that
    is not a stack port passes the guards, is neither rate limited nor
    banned, and routing is off.  Then [rcv_packet] returns exactly the
    messages of [learn_host_on_vlan_port] of the host manager for the
    ingress port, the VLAN and the source MAC, and stores the host cache
    the manager leaves; besides that only the packet-in counter
    changes. *)
Theorem rcv_packet_learns_host (now dpid : Z) (valves : dict Z Valve)
  (pm : PacketMeta) (self : Valve) (port : Port) (vlan : VLAN) :
  _known_up_dpid_and_port self dpid (pm_port pm) = true ->
  zget (pm_vlan pm) (vlans (dp self)) = Some vlan ->
  zget (pm_port pm) (ports (dp self)) = Some port ->
  number port = pm_port pm ->
  port_stack port = None ->
  L3 self = false ->
  rate_limited now self = false ->
  port_at_cap (dp self) port = false ->
  vlan_full vlan && negb (mmem (pm_eth_src pm) (host_cache vlan)) = false ->
  rcv_packet now dpid valves pm self
  = (Ok (fst (learn_host_on_vlan_port now (Some (number port)) vlan
                (pm_eth_src pm))),
     put_vlan (pm_vlan pm)
       (set_host_cache
          (snd (learn_host_on_vlan_port now (Some (number port)) vlan
                  (pm_eth_src pm)))
          vlan)
       (set_packet_in (next_count now self) now self)).
Proof.
  intros Hg Hv Hp Hn Hstack HL3 Hrate Hcap Hfull.
  assert (Hm : zmem (pm_vlan pm) (vlans (dp self)) = true)
    by (apply zmem_zget; eauto).
  assert (Ecp : rcv_control_plane pm self = (Ok (false, [], pm), self)).
  { unfold rcv_control_plane. rewrite bind_get_self, HL3.
    destruct (mac_addr_is_unicast (pm_eth_src pm)); reflexivity. }
  unfold rcv_packet. rewrite bind_get_self, Hg, Hm. cbn [negb].
  rewrite (@bind_ok _ _ _ _ _ _ _ _ Ecp). cbv beta iota.
  rewrite (@bind_ok _ _ _ _ _ _ _ _ (_rate_limit_packet_ins_eq now self)).
  rewrite Hrate.
  set (s2 := set_packet_in (next_count now self) now self).
  unfold rcv_bans_and_learn.
  assert (Eport : _port_learn_ban_rules pm s2 = (Ok [], s2)).
  { rewrite (@_port_learn_ban_rules_eq _ _ pm s2 port Hp Hn).
    change (dp s2) with (dp self). now rewrite Hcap. }
  rewrite (@bind_ok _ _ _ _ _ _ _ _ Eport). cbn [nonempty].
  assert (Evlan : _vlan_learn_ban_rules pm s2 = (Ok [], s2)).
  { rewrite (@_vlan_learn_ban_rules_eq _ _ pm s2 vlan Hv). now rewrite Hfull. }
  rewrite (@bind_ok _ _ _ _ _ _ _ _ Evlan). cbn [nonempty].
  unfold rcv_learn.
  assert (Elearn :
    _learn_host now valves dpid pm s2
    = (Ok (fst (learn_host_on_vlan_port now (Some (number port)) vlan
                  (pm_eth_src pm))),
       put_vlan (pm_vlan pm)
         (set_host_cache
            (snd (learn_host_on_vlan_port now (Some (number port)) vlan
                    (pm_eth_src pm)))
            vlan) s2)).
  { unfold _learn_host, the_port. rewrite bind_assoc, bind_get_self.
    unfold subscript. change (dp s2) with (dp self). rewrite Hp, bind_ret.
    rewrite Hstack. cbn [is_some].
    cbv beta iota delta [bind the_vlan get_self subscript modify ret].
    change (dp s2) with (dp self). rewrite Hv.
    destruct (learn_host_on_vlan_port now (Some (number port)) vlan
                (pm_eth_src pm)) as [ms hc]. reflexivity. }
  rewrite (@bind_ok _ _ _ _ _ _ _ _ Elearn). rewrite bind_get_self.
  change (L3 (put_vlan _ _ s2)) with (L3 self). rewrite HL3.
  cbn [andb]. unfold bind, ret. simpl. now rewrite app_nil_r.
Qed.

End LearnPath.

Section PortAdd.
Context {O : Opaque} {C : Collaborators}.

(** X26.  A port status ADD for an access port.  For a configured,
    enabled, non-reserved port with a native VLAN and no tagged VLAN,
    that is neither a stack port nor a mirror destination, mirrors
    nowhere and has no ACL bound, [port_add] marks the port up and
    returns, in this order: the default allow of table port_acl for the
    port, at the highest priority, towards the vlan table; the rule of
    the vlan table that pushes the native VLAN on the untagged packets
    of the port and sends them to the VLAN ACL table if the VLAN has an
    ACL, to eth_src otherwise; and the flood rules of the VLAN, rebuilt
    with the port up. *)
Theorem port_add_access_port (self : Valve) (n native : Z) (port : Port) :
  zget n (ports (dp self)) = Some port ->
  ignore_port n = false ->
  enabled port = true ->
  mirror_destination port = false ->
  port_stack port = None ->
  mirror port = None ->
  native_vlan port = Some native ->
  tagged_vlans port = [] ->
  zget n (port_acl_in (dp self)) = None ->
  port_add (dp_id (dp self)) n self
  = (Ok ([flowmod (port_acl_table (tables (dp self))) (match_in_port n)
            (highest_priority (dp self))
            [goto_table (vlan_table (tables (dp self)))];
          flowmod (vlan_table (tables (dp self)))
            (match_in_port_vlan (number port) OFPVID_NONE)
            (low_priority (dp self))
            [apply_actions [push_vlan native];
             goto_table (if zmem native (vlan_acl_in (dp self))
                         then vlan_acl_table (tables (dp self))
                         else eth_src_table (tables (dp self)))]]
         ++ build_flood_rules (dp (put_port n (set_phys_up true port) self))
              native false),
     put_port n (set_phys_up true port) self).
Proof.
  intros Hp Hig Hen Hmd Hst Hmi Hnat Htag Hacl.
  set (s1 := put_port n (set_phys_up true port) self).
  assert (Eacl : _port_add_acl n false s1
                 = (Ok [flowmod (port_acl_table (tables (dp self)))
                          (match_in_port n) (highest_priority (dp self))
                          [goto_table (vlan_table (tables (dp self)))]], s1)).
  { unfold _port_add_acl. rewrite bind_get_self.
    change (port_acl_in (dp s1)) with (port_acl_in (dp self)).
    rewrite Hacl. reflexivity. }
  assert (E : ports_add_port n [] self
              = (Ok ([flowmod (port_acl_table (tables (dp self)))
                        (match_in_port n) (highest_priority (dp self))
                        [goto_table (vlan_table (tables (dp self)))];
                      flowmod (vlan_table (tables (dp self)))
                        (match_in_port_vlan (number port) OFPVID_NONE)
                        (low_priority (dp self))
                        [apply_actions [push_vlan native];
                         goto_table
                           (if zmem native (vlan_acl_in (dp self))
                            then vlan_acl_table (tables (dp self))
                            else eth_src_table (tables (dp self)))]],
                     [native]), s1)).
  { unfold ports_add_port. rewrite bind_get_self, Hig, Hp.
    rewrite (@bind_ok _ _ _ (modify (put_port n (set_phys_up true port))) _
               self s1 tt eq_refl).
    unfold port_running. simpl. rewrite Hen, Hmd. cbn [andb negb].
    rewrite bind_get_self.
    rewrite (@bind_ok _ _ _ _ _ _ _ _ Eacl).
    simpl. rewrite Hst, Hmi, Hnat, Htag. simpl.
    unfold _port_add_vlans, _port_add_vlan_untagged, _port_add_vlan_rules,
      _find_forwarding_table, push_vlan_act. simpl.
    reflexivity. }
  unfold port_add, ports_add, _ignore_dpid.
  rewrite bind_get_self, Z.eqb_refl. cbn [negb]. simpl ports_add_loop.
  unfold bind. rewrite E. simpl. rewrite app_nil_r. reflexivity.
Qed.

End PortAdd.

(** ** The clock: rate limit, advertisements, expiry *)

Section RateLimit.
Context {O : Opaque} {C : Collaborators}.

Lemma packet_ins_same_second (now : Z) (m : nat) (s : Valve) :
  _last_packet_in_sec s = now ->
  packet_ins now m s
  = (map (fun k => Ok (truthy (ignore_learn_ins (dp s))
                       && ((_packet_in_count_sec s + Z.of_nat k)
                             mod ignore_learn_ins (dp s) =? 0)))
         (seq 1 m),
     set_packet_in (_packet_in_count_sec s + Z.of_nat m) now s).
Proof.
  revert s. induction m as [|m IH]; intros s Hlast.
  - simpl. rewrite Z.add_0_r. destruct s; simpl in *. subst. reflexivity.
  - cbn [packet_ins]. rewrite _rate_limit_packet_ins_eq.
    unfold rate_limited, next_count. rewrite Hlast, Z.eqb_refl.
    rewrite IH by reflexivity. cbn [seq map].
    rewrite <- (seq_shift m 1), map_map, Nat2Z.inj_succ.
    apply f_equal2.
    + f_equal. apply map_ext. intros k. rewrite Nat2Z.inj_succ.
      cbn -[Z.add Z.modulo Z.eqb Z.of_nat Z.succ].
      replace (_packet_in_count_sec s + 1 + Z.of_nat k)
        with (_packet_in_count_sec s + Z.succ (Z.of_nat k)) by lia.
      reflexivity.
    + unfold set_packet_in. cbn -[Z.add Z.of_nat Z.succ]. f_equal. lia.
Qed.

(** X9.  The packet-in rate limit, over one second.  When a new second
    starts, the k-th packet-in of that second is the one the counter
    counts as k, and [_rate_limit_packet_ins] answers True for it exactly
    when [ignore_learn_ins] is not 0 and divides k.  So with
    [ignore_learn_ins] = 0 no packet-in is dropped, and with
    [ignore_learn_ins] = 1 every packet-in is. *)
Theorem rate_limit_over_a_second (now : Z) (m : nat) (self : Valve) :
  _last_packet_in_sec self <> now ->
  packet_ins now m self
  = (map (fun k => Ok (truthy (ignore_learn_ins (dp self))
                       && (Z.of_nat k mod ignore_learn_ins (dp self) =? 0)))
         (seq 1 m),
     match m with
     | 0%nat => self
     | S _ => set_packet_in (Z.of_nat m) now self
     end).
Proof.
  intros Hlast. destruct m as [|m]; [reflexivity|].
  cbn [packet_ins]. rewrite _rate_limit_packet_ins_eq.
  unfold rate_limited, next_count.
  replace (_last_packet_in_sec self =? now) with false
    by (symmetry; now apply Z.eqb_neq).
  rewrite packet_ins_same_second by reflexivity.
  cbn [seq map].
  rewrite <- (seq_shift m 1), map_map, Nat2Z.inj_succ.
  apply f_equal2.
  - f_equal. apply map_ext. intros k. rewrite Nat2Z.inj_succ.
    cbn -[Z.add Z.modulo Z.eqb Z.of_nat Z.succ].
    replace (1 + Z.of_nat k) with (Z.succ (Z.of_nat k)) by lia.
    reflexivity.
  - unfold set_packet_in. cbn -[Z.add Z.of_nat Z.succ]. f_equal. lia.
Qed.

End RateLimit.

Section Advertise.
Context {O : Opaque} {C : Collaborators}.

(** X10.  [advertise] is paced by [advertise_interval].  A call at [now]
    more than the interval after the last advertisement returns what the
    route managers advertise for every VLAN, IPv4 manager first, and
    records [now]; a call that follows within the interval returns no
    message and changes nothing. *)
Theorem advertise_is_paced (now now' : Z) (self : Valve) :
  advertise_interval (dp self) <> 0 ->
  now - _last_advertise_sec self > advertise_interval (dp self) ->
  now' - now <= advertise_interval (dp self) ->
  advertise now self
  = (Ok (flat_map (fun vlan => rm_advertise 4 vlan ++ rm_advertise 6 vlan)
                  (dict_values (vlans (dp self)))),
     set_last_advertise_sec now self) /\
  advertise now' (set_last_advertise_sec now self)
  = (Ok [], set_last_advertise_sec now self).
Proof.
  intros Hint Hdue Hsoon. unfold advertise. rewrite !bind_get_self.
  unfold truthy. simpl.
  replace (advertise_interval (dp self) =? 0) with false
    by (symmetry; now apply Z.eqb_neq).
  replace (now - _last_advertise_sec self >? advertise_interval (dp self))
    with true by (symmetry; apply Z.gtb_lt; lia).
  replace (now' - now >? advertise_interval (dp self))
    with false by (symmetry; rewrite Z.gtb_ltb; apply Z.ltb_ge; lia).
  simpl. split; [|reflexivity].
  cbv beta iota delta [bind modify ret]. do 2 f_equal.
  apply flat_map_ext. intros vlan. now rewrite app_nil_r.
Qed.

End Advertise.

Section HostExpire.
Context {O : Opaque} {C : Collaborators}.

Lemma zget_app_notin {V} (k : Z) (pre post : list (Z * V)) :
  ~ In k (dict_keys pre) -> zget k (pre ++ post) = zget k post.
Proof.
  induction pre as [|[k' v'] pre IH]; intros Hn; simpl; [reflexivity|].
  destruct (Z.eqb_spec k k') as [->|Hne].
  - exfalso. apply Hn. now left.
  - apply IH. intros Hin. apply Hn. now right.
Qed.

Lemma zset_app_notin {V} (k : Z) (v : V) (pre post : list (Z * V)) :
  ~ In k (dict_keys pre) -> zset k v (pre ++ post) = pre ++ zset k v post.
Proof.
  induction pre as [|[k' v'] pre IH]; intros Hn; simpl; [reflexivity|].
  destruct (Z.eqb_spec k k') as [->|Hne].
  - exfalso. apply Hn. now left.
  - f_equal. apply IH. intros Hin. apply Hn. now right.
Qed.

Lemma with_vlans_id (s : Valve) : with_vlans (vlans (dp s)) s = s.
Proof. unfold with_vlans, set_vlans. now rewrite set_dyn_id, set_dp_id. Qed.

(** The loop of [host_expire] over the VLANs [post] that are still to be
    visited, the VLANs [pre] having been visited. *)
Lemma host_expire_loop (now : Z) (post pre : list (Z * VLAN)) (s : Valve) :
  vlans (dp s) = pre ++ post ->
  (forall k, In k (dict_keys post) -> ~ In k (dict_keys pre)) ->
  NoDup (dict_keys post) ->
  for_each (dict_keys post)
    (fun k =>
       vlan <- the_vlan k ;;
       modify (put_vlan k (set_host_cache (expire_hosts_from_vlan vlan now)
                             vlan))) s
  = (Ok tt,
     with_vlans
       (pre ++ map (fun item : Z * VLAN =>
                      (fst item,
                       set_host_cache
                         (expire_hosts_from_vlan (snd item) now) (snd item)))
                   post) s).
Proof.
  revert pre s. induction post as [|[k v] post IH]; intros pre s Hv Hfresh Hnd.
  - simpl. rewrite <- Hv, with_vlans_id. reflexivity.
  - inversion Hnd as [|x l Hnotin Hnd' Heq]; subst x l.
    assert (Hk : ~ In k (dict_keys pre)) by (apply Hfresh; now left).
    set (v' := set_host_cache (expire_hosts_from_vlan v now) v).
    assert (E : (vlan <- the_vlan k ;;
                 modify (put_vlan k (set_host_cache
                                       (expire_hosts_from_vlan vlan now) vlan)))
                  s = (Ok tt, put_vlan k v' s)).
    { cbv beta iota delta [bind the_vlan get_self subscript modify ret].
      rewrite Hv, (@zget_app_notin _ k pre ((k, v) :: post) Hk).
      unfold zget. simpl. rewrite Z.eqb_refl. reflexivity. }
    change (dict_keys ((k, v) :: post)) with (k :: dict_keys post).
    cbn [for_each]. rewrite (@bind_ok _ _ _ _ _ _ _ _ E).
    rewrite (IH (pre ++ [(k, v')]) (put_vlan k v' s)).
    + f_equal. unfold with_vlans, put_vlan. simpl.
      rewrite <- app_assoc. reflexivity.
    + simpl. rewrite Hv, (@zset_app_notin _ k v' pre ((k, v) :: post) Hk).
      unfold zset. simpl. rewrite Z.eqb_refl, <- app_assoc. reflexivity.
    + intros k' Hin Hin'. unfold dict_keys in Hin'.
      rewrite map_app in Hin'. apply in_app_or in Hin'.
      destruct Hin' as [Hin'|[<-|[]]].
      * apply (Hfresh k'); [now right | exact Hin'].
      * exact (Hnotin Hin).
    + exact Hnd'.
Qed.

(** X11.  [host_expire] on a running datapath returns, and replaces the
    host cache of every VLAN, in the order of the configuration, by what
    [expire_hosts_from_vlan] of the host manager keeps of it at [now];
    nothing else of the Valve changes, and no message is produced (the
    switch expires its own flows). *)
Theorem host_expire_effect (now : Z) (self : Valve) :
  running (dp self) = true ->
  NoDup (dict_keys (vlans (dp self))) ->
  host_expire now self
  = (Ok tt,
     with_vlans
       (map (fun item : Z * VLAN =>
               (fst item,
                set_host_cache (expire_hosts_from_vlan (snd item) now)
                               (snd item)))
            (vlans (dp self))) self).
Proof.
  intros Hrun Hnd. unfold host_expire. rewrite bind_get_self, Hrun.
  cbn [negb].
  exact (@host_expire_loop now (vlans (dp self)) [] self eq_refl
           (fun k _ H => H) Hnd).
Qed.

End HostExpire.

Section FlowTimeout.
Context {O : Opaque} {C : Collaborators}.

Lemma hosts_only_refl (s : Valve) : hosts_only s s.
Proof.
  split.
  - exists (vlans (dp s)). now rewrite with_vlans_id.
  - intros k. destruct (zget k (vlans (dp s))) as [v|]; simpl; [|exact I].
    now destruct v.
Qed.

Lemma hosts_only_put_vlan (k : Z) (v : VLAN) (hc : dict mac HostCacheEntry)
  (s : Valve) :
  zget k (vlans (dp s)) = Some v ->
  hosts_only s (put_vlan k (set_host_cache hc v) s).
Proof.
  intros Hk. split.
  - eexists. reflexivity.
  - intros k'. simpl. destruct (Z.eq_dec k' k) as [->|Hne].
    + rewrite zget_zset_same, Hk. reflexivity.
    + rewrite zget_zset_other by assumption.
      destruct (zget k' (vlans (dp s))) as [v'|]; simpl; [|exact I].
      now destruct v'.
Qed.

(** X12.  Whatever the table and the match of the removed flow, and
    whether it returns or raises, [flow_timeout] changes nothing of the
    Valve but host caches: the static configuration, the ports, the
    running flag, the routing flag and the packet-in counters are the
    same, the same VLANs are configured, and each VLAN is the same up to
    its host cache. *)
Theorem flow_timeout_touches_host_caches_only (table_id' : Z)
  (match_oxm_fields : list oxm_field) (self : Valve) :
  hosts_only self (snd (flow_timeout table_id' match_oxm_fields self)).
Proof.
  unfold flow_timeout. rewrite bind_get_self.
  destruct ((table_id' =? table_id (eth_src_table (tables (dp self))))
            || (table_id' =? table_id (eth_dst_table (tables (dp self)))));
    [|apply hosts_only_refl].
  destruct (flow_timeout_fields match_oxm_fields)
    as [[[in_port eth_src] eth_dst] vid'].
  assert (Hsrc : forall vid0 p a,
            hosts_only self
              (snd ((vlan <- the_vlan vid0 ;;
                     (let '(ofmsgs, hc) := src_rule_expire vlan p a in
                      modify (put_vlan vid0 (set_host_cache hc vlan)) ;;;
                      ret ofmsgs)) self))).
  { intros vid0 p a.
    cbv beta iota delta [bind the_vlan get_self subscript modify ret raise].
    destruct (zget vid0 (vlans (dp self))) as [v|] eqn:Hv;
      [|apply hosts_only_refl].
    destruct (src_rule_expire v p a) as [ms hc]. simpl.
    now apply hosts_only_put_vlan. }
  assert (Hdst : forall vid0 a,
            hosts_only self
              (snd ((vlan <- the_vlan vid0 ;;
                     (let '(ofmsgs, hc) := dst_rule_expire vlan a in
                      modify (put_vlan vid0 (set_host_cache hc vlan)) ;;;
                      ret ofmsgs)) self))).
  { intros vid0 a.
    cbv beta iota delta [bind the_vlan get_self subscript modify ret raise].
    destruct (zget vid0 (vlans (dp self))) as [v|] eqn:Hv;
      [|apply hosts_only_refl].
    destruct (dst_rule_expire v a) as [ms hc]. simpl.
    now apply hosts_only_put_vlan. }
  destruct (truthy_str eth_src && truthy_int vid' && truthy_int in_port).
  { destruct eth_src, vid', in_port;
      first [apply Hsrc | apply hosts_only_refl]. }
  destruct (truthy_str eth_dst && truthy_int vid');
    [|apply hosts_only_refl].
  destruct eth_dst, vid'; first [apply Hdst | apply hosts_only_refl].
Qed.

Lemma vid_without_present_bit (v : Z) :
  0 <= v < 4096 ->
  Z.land (Z.lor OFPVID_PRESENT v) (Z.lnot OFPVID_PRESENT) = v.
Proof.
  intros Hv. unfold OFPVID_PRESENT.
  apply Z.bits_inj'. intros i Hi.
  rewrite Z.land_spec, Z.lor_spec, Z.lnot_spec by exact Hi.
  change 4096 with (2 ^ 12). rewrite Z.pow2_bits_eqb by lia.
  destruct (Z.eqb_spec 12 i) as [<-|Hne]; cbn [orb andb negb].
  - symmetry.
    apply Z.bits_above_log2; [lia|].
    destruct (Z.eq_dec v 0) as [->|Hnz]; [simpl; lia|].
    apply Z.log2_lt_pow2; lia.
  - now rewrite andb_true_r.
Qed.

(** X13.  The expiry of a learned source flow.  For a flow of table
    eth_src or eth_dst whose match holds an in_port, the VLAN vid with
    the OFPVID_PRESENT bit set, and an eth_src, [flow_timeout] strips the
    present bit, and when that VLAN is configured returns the messages of
    [src_rule_expire] of the host manager for the VLAN, the port and the
    MAC, and stores the host cache it leaves. *)
Theorem flow_timeout_src_rule (self : Valve) (table_id' vlan_vid in_port : Z)
  (eth_src : mac) (vlan : VLAN) :
  table_id' = table_id (eth_src_table (tables (dp self))) \/
  table_id' = table_id (eth_dst_table (tables (dp self))) ->
  0 < vlan_vid < 4096 ->
  in_port <> 0 ->
  eth_src <> EmptyString ->
  zget vlan_vid (vlans (dp self)) = Some vlan ->
  flow_timeout table_id'
    [oxm_in_port in_port; oxm_vlan_vid (Z.lor OFPVID_PRESENT vlan_vid);
     oxm_eth_src eth_src] self
  = (Ok (fst (src_rule_expire vlan in_port eth_src)),
     put_vlan vlan_vid
       (set_host_cache (snd (src_rule_expire vlan in_port eth_src)) vlan)
       self).
Proof.
  intros Ht Hvid Hport Hsrc Hv. unfold flow_timeout. rewrite bind_get_self.
  replace ((table_id' =? table_id (eth_src_table (tables (dp self))))
           || (table_id' =? table_id (eth_dst_table (tables (dp self)))))
    with true.
  2:{ symmetry. apply orb_true_iff.
      destruct Ht as [->| ->]; [left|right]; apply Z.eqb_refl. }
  unfold flow_timeout_fields. cbn [fold_left].
  rewrite vid_without_present_bit by lia.
  unfold truthy_str, truthy_int, truthy.
  replace (String.eqb eth_src EmptyString) with false
    by (symmetry; now apply String.eqb_neq).
  replace (vlan_vid =? 0) with false by (symmetry; apply Z.eqb_neq; lia).
  replace (in_port =? 0) with false by (symmetry; now apply Z.eqb_neq).
  cbn [negb andb].
  cbv beta iota delta [bind the_vlan get_self subscript modify ret].
  rewrite Hv. destruct (src_rule_expire vlan in_port eth_src) as [ms hc].
  reflexivity.
Qed.

End FlowTimeout.

Section Reparse.
Context {O : Opaque} {C : Collaborators}.

(** X14.  Reparsing a packet twice with the same length is reparsing it
    once, and a reparse never touches the raw data, the port, the VLAN or
    the addresses of the packet; when the parser fails, the packet is
    left as it is. *)
Theorem reparse_idempotent (pm : PacketMeta) (max_len : Z) :
  reparse (reparse pm max_len) max_len = reparse pm max_len /\
  pm_data (reparse pm max_len) = pm_data pm /\
  same_headers pm (reparse pm max_len) /\
  (fst (parse_packet_in_pkt (pm_data pm) max_len) = None \/
   snd (parse_packet_in_pkt (pm_data pm) max_len) = None ->
   reparse pm max_len = pm).
Proof.
  unfold reparse, same_headers.
  destruct (parse_packet_in_pkt (pm_data pm) max_len) as [[p|] [v|]] eqn:E;
    simpl; rewrite ?E; repeat split; auto;
    intros [H|H]; discriminate H.
Qed.

End Reparse.

(** ** Cold start *)

Section ColdStartEdge.
Context {O : Opaque} {C : Collaborators}.

Lemma _add_vlan_acl_total (vid' : Z) (s : Valve) :
  (forall k a, zget k (vlan_acl_in (dp s)) = Some a ->
     exists acl, zget a (acls (dp s)) = Some acl) ->
  exists ms, _add_vlan_acl vid' s = (Ok ms, s).
Proof.
  intros Hacl. unfold _add_vlan_acl. rewrite bind_get_self.
  destruct (zget vid' (vlan_acl_in (dp s))) as [a|] eqn:E.
  - destruct (Hacl _ _ E) as [acl Ha]. unfold subscript.
    rewrite Ha, bind_ret. eexists. reflexivity.
  - exists []. reflexivity.
Qed.

Lemma _add_vlan_rejects (k : Z) (all : list Z) (s : Valve) (v : VLAN) :
  stack (dp s) <> None ->
  (forall k a, zget k (vlan_acl_in (dp s)) = Some a ->
     exists acl, zget a (acls (dp s)) = Some acl) ->
  zget k (vlans (dp s)) = Some v ->
  if nonempty (ipvs v)
  then _add_vlan k all s = (Raise AssertionError, s)
  else exists r, _add_vlan k all s = (Ok r, s).
Proof.
  intros Hstack Hacl Hk.
  destruct (@_add_vlan_acl_total (vid v) s Hacl) as (acl & Eacl).
  destruct (ipvs v) as [|ipv rest] eqn:Hipvs; cbn [nonempty];
    [eexists|]; unfold _add_vlan, the_vlan;
    rewrite bind_assoc, bind_get_self; unfold subscript;
    rewrite Hk, bind_ret, bind_get_self; unfold bind at 1; rewrite Eacl;
    rewrite Hipvs.
  - reflexivity.
  - assert (Hin : In ipv (ipvs v)) by (rewrite Hipvs; now left).
    unfold ipvs in Hin. apply filter_In in Hin. destruct Hin as [_ Hne].
    cbn [for_extend]. unfold bind.
    destruct (faucet_vips_by_ipv v ipv) as [|a l]; [discriminate Hne|].
    unfold _add_faucet_vips. cbn [for_extend]. unfold bind.
    cbv beta iota delta [get_self].
    destruct (stack (dp s)); [reflexivity | congruence].
Qed.

Lemma add_vlans_loop_rejects (ks : list Z) (all : list Z) (s : Valve) :
  stack (dp s) <> None ->
  (forall k a, zget k (vlan_acl_in (dp s)) = Some a ->
     exists acl, zget a (acls (dp s)) = Some acl) ->
  (forall k, In k ks -> exists v, zget k (vlans (dp s)) = Some v) ->
  (exists k v, In k ks /\ zget k (vlans (dp s)) = Some v /\ ipvs v <> []) ->
  add_vlans_loop ks all s = (Raise AssertionError, s).
Proof.
  intros Hstack Hacl. revert all.
  induction ks as [|k0 ks IH]; intros all Hkeys (k & v & Hin & Hk & Hne).
  - destruct Hin.
  - destruct (Hkeys k0 (or_introl eq_refl)) as [v0 Hk0].
    pose proof (@_add_vlan_rejects k0 all s v0 Hstack Hacl Hk0) as Hadd.
    cbn [add_vlans_loop].
    destruct (ipvs v0) as [|i l] eqn:Hi; cbn [nonempty] in Hadd.
    + destruct Hadd as [[ms all1] E]. rewrite (@bind_ok _ _ _ _ _ _ _ _ E).
      rewrite (@bind_raise _ _ _ _ _ s s AssertionError); [reflexivity|].
      apply IH.
      * intros k' Hin'. apply Hkeys. now right.
      * exists k, v. split; [|split; assumption].
        destruct Hin as [->|Hin]; [|exact Hin].
        rewrite Hk in Hk0. inversion Hk0; subst. congruence.
    + now rewrite (@bind_raise _ _ _ _ _ _ _ _ Hadd).
Qed.

(** X15.  Stacking and routing together abort the cold start.  On a
    datapath with a stack configuration, when a VLAN has a faucet VIP of
    IP version 4 or 6 (and the ACLs bound to VLANs exist),
    [datapath_connect] raises AssertionError; the Valve is left exactly
    as it was: no VLAN state is touched, [L3] stays as it was and
    [dp.running] is not set. *)
Theorem cold_start_rejects_stack_routing (self : Valve) (discovered : list Z)
  (k : Z) (vlan : VLAN) :
  stack (dp self) <> None ->
  (forall k a, zget k (vlan_acl_in (dp self)) = Some a ->
     exists acl, zget a (acls (dp self)) = Some acl) ->
  zget k (vlans (dp self)) = Some vlan ->
  ipvs vlan <> [] ->
  datapath_connect (dp_id (dp self)) discovered self
  = (Raise AssertionError, self).
Proof.
  intros Hstack Hacl Hk Hne.
  unfold datapath_connect, _ignore_dpid.
  rewrite bind_get_self, Z.eqb_refl. cbn [negb].
  apply bind_raise. unfold _add_ports_and_vlans. rewrite bind_get_self.
  apply bind_raise.
  apply add_vlans_loop_rejects; [exact Hstack|exact Hacl| |].
  - intros k' Hin. now apply zget_In_keys.
  - exists k, vlan. split; [|split; assumption].
    apply zget_In in Hk. unfold dict_keys.
    change k with (fst (k, vlan)). now apply in_map.
Qed.

End ColdStartEdge.

Section ColdStartPorts.
Context {O : Opaque} {C : Collaborators}.

Lemma set_add_In (x k : Z) (s : list Z) :
  In x s \/ x = k -> In x (set_add Z.eqb k s).
Proof.
  unfold set_add, set_mem. intros [Hin| ->].
  - destruct (existsb (Z.eqb k) s); [exact Hin|].
    apply in_or_app. now left.
  - destruct (existsb (Z.eqb k) s) eqn:E.
    + apply existsb_exists in E. destruct E as (y & Hy & Hk).
      apply Z.eqb_eq in Hk. now subst.
    + apply in_or_app. right. now left.
Qed.

Lemma set_add_all_In (x : Z) (ks s : list Z) :
  In x s \/ In x ks -> In x (set_add_all Z.eqb ks s).
Proof.
  unfold set_add_all. revert s.
  induction ks as [|k ks IH]; intros s [Hin|Hin]; simpl; auto.
  - destruct Hin.
  - apply IH. left. apply set_add_In. now left.
  - destruct Hin as [->|Hin].
    + apply IH. left. apply set_add_In. now right.
    + apply IH. now right.
Qed.

Lemma discovered_In (x : Z) (discovered all : list Z) :
  In x all \/ (In x discovered /\ ignore_port x = false) ->
  In x (fold_left
          (fun acc port_num =>
             if ignore_port port_num then acc
             else if negb (set_mem Z.eqb port_num acc)
                  then set_add Z.eqb port_num acc
                  else acc)
          discovered all).
Proof.
  revert all. induction discovered as [|k ks IH]; intros all H; simpl.
  - destruct H as [H|[[] _]]. exact H.
  - apply IH. destruct H as [H|[[->|H] Hig]].
    + left. destruct (ignore_port k); [exact H|].
      destruct (negb (set_mem Z.eqb k all)); [|exact H].
      apply set_add_In. now left.
    + left. rewrite Hig.
      destruct (set_mem Z.eqb x all) eqn:E; simpl.
      * unfold set_mem in E. apply existsb_exists in E.
        destruct E as (y & Hy & Hk). apply Z.eqb_eq in Hk. now subst.
      * apply set_add_In. now right.
    + right. auto.
Qed.

Lemma _add_faucet_vips_adds (ipv k : Z) (vips : list vip) :
  preserves vips_added (_add_faucet_vips ipv k vips).
Proof.
  unfold _add_faucet_vips.
  apply (preserves_for_extend (@vips_added_refl _) (@vips_added_trans _)).
  intros a s.
  cbv beta iota delta [bind get_self the_vlan subscript modify ret raise].
  destruct (is_some (stack (dp s))); [apply vips_added_refl|].
  destruct (zget k (vlans (dp s))) as [v|] eqn:Hk; [|apply vips_added_refl].
  destruct (rm_add_faucet_vip ipv v a) as [ms rs]. simpl.
  now apply vips_added_step.
Qed.

Lemma _add_vlan_adds (k : Z) (all : list Z) :
  preserves vips_added (_add_vlan k all).
Proof.
  unfold _add_vlan.
  pres_walk (@vips_added_refl _) (@vips_added_trans _).
  - apply frame__add_vlan_acl;
      [exact (@vips_added_refl _) | exact (@vips_added_trans _)].
  - apply _add_faucet_vips_adds.
Qed.

Lemma add_vlans_loop_adds (ks all : list Z) :
  preserves vips_added (add_vlans_loop ks all).
Proof.
  revert all. induction ks as [|k ks IH]; intros all; simpl.
  - intros s. apply vips_added_refl.
  - pres_walk (@vips_added_refl _) (@vips_added_trans _).
    + apply _add_vlan_adds.
    + apply IH.
Qed.

Lemma _add_vlan_ports (k : Z) (all all1 : list Z) (ms : list ofmsg)
  (s s1 : Valve) :
  _add_vlan k all s = (Ok (ms, all1), s1) ->
  exists v, zget k (vlans (dp s)) = Some v /\
            forall n, In n all \/ In n (get_ports v) -> In n all1.
Proof.
  unfold _add_vlan, the_vlan. rewrite bind_assoc, bind_get_self.
  unfold subscript. destruct (zget k (vlans (dp s))) as [v|];
    [|intros Hx; discriminate Hx].
  rewrite bind_ret, bind_get_self. intros E.
  apply bind_ok_inv in E. destruct E as (acl & s2 & _ & E).
  apply bind_ok_inv in E. destruct E as (vips & s3 & _ & E).
  apply ret_ok_inv in E. destruct E as [E _]. inversion E; subst.
  exists v. split; [reflexivity|]. intros n Hn.
  apply set_add_all_In. left. now apply set_add_all_In.
Qed.

Lemma add_vlans_loop_ports (ks all all' : list Z) (ms : list ofmsg)
  (s s' : Valve) :
  add_vlans_loop ks all s = (Ok (ms, all'), s') ->
  (forall n, In n all -> In n all') /\
  (forall k v n, In k ks -> zget k (vlans (dp s)) = Some v ->
                 In n (get_ports v) -> In n all').
Proof.
  revert all all' ms s s'.
  induction ks as [|k0 ks IH]; intros all all' ms s s' E; simpl in E.
  - apply ret_ok_inv in E. destruct E as [E _]. inversion E; subst.
    split; [auto | intros k v n []].
  - apply bind_ok_inv in E. destruct E as ([m1 all1] & s1 & E1 & E).
    apply bind_ok_inv in E. destruct E as ([m2 all2] & s2 & E2 & E).
    apply ret_ok_inv in E. destruct E as [E _]. inversion E; subst.
    pose proof E1 as X1. apply _add_vlan_ports in X1.
    destruct X1 as (v0 & Hk0 & Hall1).
    pose proof E2 as X2. apply IH in X2. destruct X2 as [Hkeep Hrest].
    pose proof (_add_vlan_adds k0 all s) as Hadd. rewrite E1 in Hadd.
    simpl in Hadd.
    split.
    + intros n Hn. apply Hkeep, Hall1. now left.
    + intros k v n [->|Hin] Hk Hn.
      * rewrite Hk in Hk0. inversion Hk0; subst.
        apply Hkeep, Hall1. now right.
      * destruct (@vips_added_zget _ s s1 k v Hadd Hk) as (v1 & Hk1 & Hsame).
        apply (Hrest k v1 n Hin Hk1).
        unfold get_ports. rewrite Hsame. exact Hn.
Qed.

Lemma ups_refl (s : Valve) : ups s s.
Proof. intros n port Hp. now left. Qed.

Lemma ups_trans (a b c : Valve) : ups a b -> ups b c -> ups a c.
Proof.
  intros Hab Hbc n port Hp.
  destruct (Hab n port Hp) as [H|H]; destruct (Hbc n _ H) as [H'|H']; auto.
Qed.

Lemma ups_ports_add_port (k : Z) (acc : list Z) (s : Valve) :
  ups s (snd (ports_add_port k acc s)).
Proof.
  rewrite ports_add_port_state.
  destruct (ignore_port k); [apply ups_refl|].
  destruct (zget k (ports (dp s))) as [p0|] eqn:Hk; [|apply ups_refl].
  intros n port Hp. simpl. destruct (Z.eq_dec n k) as [->|Hne].
  - right. rewrite zget_zset_same. congruence.
  - left. now rewrite zget_zset_other.
Qed.

Lemma ups_ports_add_loop (ns acc : list Z) (s : Valve) :
  ups s (snd (ports_add_loop ns acc s)).
Proof.
  revert acc s. induction ns as [|k ns IH]; intros acc s; simpl.
  - apply ups_refl.
  - pose proof (ups_ports_add_port k acc s) as H1. unfold bind.
    destruct (ports_add_port k acc s) as [[[m1 a1]|e] s1]; simpl in *;
      [|exact H1].
    pose proof (IH a1 s1) as H2.
    destruct (ports_add_loop ns a1 s1) as [[[m2 a2]|e] s2]; simpl in *;
      eapply ups_trans; eassumption.
Qed.

Lemma ports_add_loop_marks (ns acc : list Z) (s s' : Valve)
  (r : list ofmsg * list Z) (n : Z) (port : Port) :
  ports_add_loop ns acc s = (Ok r, s') ->
  In n ns -> ignore_port n = false ->
  zget n (ports (dp s)) = Some port ->
  zget n (ports (dp s')) = Some (set_phys_up true port).
Proof.
  revert acc s r port.
  induction ns as [|k ns IH]; intros acc s r port E Hin Hig Hp; [destruct Hin|].
  simpl in E.
  apply bind_ok_inv in E. destruct E as ([m1 a1] & s1 & E1 & E).
  apply bind_ok_inv in E. destruct E as ([m2 a2] & s2 & E2 & E).
  apply ret_ok_inv in E. destruct E as [_ ->].
  pose proof (ports_add_port_state k acc s) as Hs1. rewrite E1 in Hs1.
  simpl in Hs1.
  pose proof (ups_ports_add_loop ns a1 s1) as Hups. rewrite E2 in Hups.
  simpl in Hups.
  destruct (Z.eq_dec n k) as [->|Hne].
  - rewrite Hig, Hp in Hs1. subst s1.
    destruct (Hups k (set_phys_up true port)) as [H|H]; simpl;
      [apply zget_zset_same | exact H | exact H].
  - destruct Hin as [->|Hin]; [congruence|].
    pose proof (ups_ports_add_port k acc s) as H1. rewrite E1 in H1.
    simpl in H1. destruct (H1 n port Hp) as [H|H].
    + eapply IH; eassumption.
    + change (set_phys_up true port)
        with (set_phys_up true (set_phys_up true port)).
      eapply IH; eassumption.
Qed.

(** X16.  A cold start that returns has marked up every configured,
    non-reserved port that is a member of a configured VLAN, a stack
    port, or was discovered up: the member ports of the VLANs are marked
    up whether or not the switch reported them up. *)
Theorem cold_start_marks_ports_up (self self' : Valve)
  (discovered : list Z) (ofmsgs : list ofmsg) (n : Z) (port : Port) :
  datapath_connect (dp_id (dp self)) discovered self = (Ok ofmsgs, self') ->
  zget n (ports (dp self)) = Some port ->
  ignore_port n = false ->
  In n discovered \/ In n (stack_ports (dp self)) \/
  (exists k vlan, zget k (vlans (dp self)) = Some vlan /\
                  In n (get_ports vlan)) ->
  zget n (ports (dp self')) = Some (set_phys_up true port).
Proof.
  intros E Hp Hig Hmem.
  unfold datapath_connect, _ignore_dpid in E.
  rewrite bind_get_self, Z.eqb_refl in E. cbn [negb] in E.
  apply bind_ok_inv in E. destruct E as (ms & s1 & E1 & E).
  rewrite bind_get_self in E.
  apply bind_ok_inv in E. destruct E as ([] & s2 & E2 & E).
  apply ret_ok_inv in E. destruct E as [_ ->].
  inversion E2; subst s2. clear E2. simpl.
  unfold _add_ports_and_vlans in E1. rewrite bind_get_self in E1.
  apply bind_ok_inv in E1. destruct E1 as ([m1 all] & s3 & Eloop & E1).
  rewrite bind_get_self in E1.
  apply bind_ok_inv in E1. destruct E1 as (m2 & s4 & Eadd & E1).
  apply ret_ok_inv in E1. destruct E1 as [_ ->].
  pose proof Eloop as X. apply add_vlans_loop_ports in X.
  destruct X as [Hkeep Hvlans].
  pose proof (add_vlans_loop_adds (dict_keys (vlans (dp self)))
                (set_add_all Z.eqb (stack_ports (dp self)) []) self) as Hadd.
  rewrite Eloop in Hadd. simpl in Hadd. destruct Hadd as (Hst & Hports & _).
  assert (Hid : dp_id (dp s3) = dp_id (dp self))
    by exact (f_equal (@dp_id _) Hst).
  unfold ports_add, _ignore_dpid in Eadd.
  rewrite bind_get_self, Z.eqb_refl in Eadd. cbn [negb] in Eadd.
  apply bind_ok_inv in Eadd. destruct Eadd as ([m3 acc] & s5 & Eports & Eadd).
  rewrite bind_get_self in Eadd.
  apply ret_ok_inv in Eadd. destruct Eadd as [_ ->].
  eapply ports_add_loop_marks;
    [exact Eports| |exact Hig|now rewrite Hports].
  apply discovered_In.
  destruct Hmem as [Hd|[Hs|(k & vlan & Hk & Hn)]].
  - right. auto.
  - left. apply Hkeep. apply set_add_all_In. now right.
  - left. apply (Hvlans k vlan n); [|exact Hk|exact Hn].
    apply zget_In in Hk. unfold dict_keys.
    change k with (fst (k, vlan)). now apply in_map.
Qed.

End ColdStartPorts.

(** ** The configuration diff of a reload *)

Section ReloadDiff.
Context {O : Opaque} {C : Collaborators}.

Lemma set_add_In_iff (x k : Z) (s : list Z) :
  In x (set_add Z.eqb k s) <-> In x s \/ x = k.
Proof.
  split; [|apply set_add_In].
  unfold set_add. destruct (set_mem Z.eqb k s); [now left|].
  intros Hin. apply in_app_or in Hin.
  destruct Hin as [Hin|[<-|[]]]; auto.
Qed.

Lemma zmem_In_keys {V} (k : Z) (d : list (Z * V)) :
  zmem k d = true <-> In k (dict_keys d).
Proof.
  split.
  - intros Hm. apply zmem_zget in Hm. destruct Hm as [v Hv].
    apply zget_In in Hv. unfold dict_keys.
    change k with (fst (k, v)). now apply in_map.
  - intros Hin. apply zmem_zget. now apply zget_In_keys.
Qed.

(** The loops that collect the deleted VLANs and the deleted ports. *)
Lemma deleted_In {V} (new : list (Z * V)) (old acc : list Z) (x : Z) :
  In x (fold_left (fun acc k => if negb (zmem k new)
                                then set_add Z.eqb k acc else acc) old acc)
  <-> In x acc \/ (In x old /\ zmem x new = false).
Proof.
  revert acc. induction old as [|k old IH]; intros acc; simpl.
  - tauto.
  - rewrite IH. destruct (zmem k new) eqn:E; simpl.
    + split; [intros [H|[H1 H2]]; auto|].
      intros [H|[[->|H1] H2]]; auto. congruence.
    + rewrite set_add_In_iff. split.
      * intros [[H| ->]|[H1 H2]]; auto.
      * intros [H|[[->|H1] H2]]; auto.
Qed.

(** X17.  The deleted sets of a configuration diff: a VLAN (a port) is
    reported deleted exactly when it is configured in the current DP and
    not in the new one. *)
Theorem deleted_sets_of_config_changes (self : Valve) (new_dp : DP) :
  (forall vid',
     In vid' (deleted_vlans (fst (_get_config_changes self new_dp))) <->
     zmem vid' (vlans (dp self)) = true /\ zmem vid' (vlans new_dp) = false)
  /\
  (forall port_no,
     In port_no (deleted_ports (fst (_get_config_changes self new_dp))) <->
     zmem port_no (ports (dp self)) = true /\
     zmem port_no (ports new_dp) = false).
Proof.
  unfold _get_config_changes, _get_vlan_config_changes,
    _get_port_config_changes.
  destruct (vlan_changes_loop self (vlans new_dp) []) as [changed new_vlans].
  match goal with
  | |- context [fold_left ?f (ports (set_vlans new_vlans new_dp)) ([], [])] =>
      destruct (fold_left f (ports (set_vlans new_vlans new_dp)) ([], []))
        as [cp cap]
  end.
  simpl. split.
  - intros vid'. rewrite deleted_In, zmem_In_keys. simpl. tauto.
  - intros port_no. rewrite deleted_In, zmem_In_keys. simpl. tauto.
Qed.

Lemma vlan_changes_loop_eq (self : Valve) (items : list (Z * VLAN))
  (acc : list Z) :
  vlan_changes_loop self items acc
  = (fold_left (fun acc item =>
                  if vlan_changed self (fst item) (snd item)
                  then set_add Z.eqb (fst item) acc else acc) items acc,
     map (fun item => (fst item, vlan_carried self (fst item) (snd item)))
         items).
Proof.
  revert acc. induction items as [|[k v] items IH]; intros acc; simpl;
    [reflexivity|].
  unfold vlan_changed, vlan_carried. simpl.
  destruct (zget k (vlans (dp self))) as [old|].
  - destruct (vlan_eqb old v); simpl.
    + rewrite IH. reflexivity.
    + destruct (vlan_eqb (set_tagged_untagged (tagged v) (untagged v) old) v);
        simpl; rewrite IH; reflexivity.
  - rewrite IH. reflexivity.
Qed.

Lemma changed_In (self : Valve) (items : list (Z * VLAN)) (acc : list Z)
  (x : Z) :
  In x (fold_left (fun acc item =>
                     if vlan_changed self (fst item) (snd item)
                     then set_add Z.eqb (fst item) acc else acc) items acc)
  <-> In x acc \/
      exists new_vlan, In (x, new_vlan) items /\
                       vlan_changed self x new_vlan = true.
Proof.
  revert acc. induction items as [|[k v] items IH]; intros acc; simpl.
  - split; [auto|]. intros [H|(v & [] & _)]. exact H.
  - rewrite IH. destruct (vlan_changed self k v) eqn:E.
    + rewrite set_add_In_iff. split.
      * intros [[H| ->]|(nv & H1 & H2)]; eauto.
      * intros [H|(nv & [Heq|H1] & H2)]; eauto.
        inversion Heq; subst. auto.
    + split.
      * intros [H|(nv & H1 & H2)]; eauto.
      * intros [H|(nv & [Heq|H1] & H2)]; eauto.
        inversion Heq; subst. congruence.
Qed.

(** X18.  The changed set of a configuration diff.  A VLAN id is
    reported changed exactly when the new DP configures it and either the
    current DP does not, or the current VLAN differs from the new one and
    still differs once it is given the tagged and untagged ports of the
    new one.  A VLAN of which only the port lists changed is not reported
    (its ports are, by the port diff). *)
Theorem changed_vlans_of_config_changes (self : Valve) (new_dp : DP)
  (vid' : Z) :
  In vid' (changed_vlans (fst (_get_config_changes self new_dp))) <->
  exists new_vlan,
    In (vid', new_vlan) (vlans new_dp) /\
    match zget vid' (vlans (dp self)) with
    | None => True
    | Some old_vlan =>
        vlan_eqb old_vlan new_vlan = false /\
        vlan_eqb (set_tagged_untagged (tagged new_vlan) (untagged new_vlan)
                    old_vlan) new_vlan = false
    end.
Proof.
  unfold _get_config_changes, _get_vlan_config_changes,
    _get_port_config_changes.
  rewrite vlan_changes_loop_eq.
  match goal with
  | |- context [fold_left ?f (ports ?d) ([], [])] =>
      destruct (fold_left f (ports d) ([], [])) as [cp cap]
  end.
  simpl. rewrite changed_In. split.
  - intros [[]|(nv & Hin & Hch)]. exists nv. split; [exact Hin|].
    unfold vlan_changed in Hch.
    destruct (zget vid' (vlans (dp self))) as [old|]; [|exact I].
    apply andb_true_iff in Hch. destruct Hch as [H1 H2].
    apply negb_true_iff in H1, H2. auto.
  - intros (nv & Hin & Hch). right. exists nv. split; [exact Hin|].
    unfold vlan_changed.
    destruct (zget vid' (vlans (dp self))) as [old|]; [|reflexivity].
    destruct Hch as [-> ->]. reflexivity.
Qed.

(** X19.  What the diff leaves in the new DP.  The dynamic state of a
    VLAN (host cache, learn-ban count, route state) is carried over by
    [merge_dyn] exactly for the VLANs that compare equal to the current
    VLAN of the same vid; a VLAN that is new or differs, even in its port
    lists only, enters the new DP as it is configured.  The order and the
    keys of the VLANs of the new DP, and everything else of it, are as
    given. *)
Theorem vlans_of_new_dp_after_diff (self : Valve) (new_dp : DP) :
  snd (_get_config_changes self new_dp)
  = set_vlans
      (map (fun item : Z * VLAN =>
              (fst item,
               match zget (fst item) (vlans (dp self)) with
               | None => snd item
               | Some old_vlan =>
                   if vlan_eqb old_vlan (snd item)
                   then merge_dyn (snd item) old_vlan
                   else snd item
               end))
           (vlans new_dp))
      new_dp.
Proof.
  unfold _get_config_changes, _get_vlan_config_changes,
    _get_port_config_changes.
  rewrite vlan_changes_loop_eq.
  match goal with
  | |- context [fold_left ?f (ports ?d) ([], [])] =>
      destruct (fold_left f (ports d) ([], [])) as [cp cap]
  end.
  reflexivity.
Qed.

End ReloadDiff.

(** ** Hardware, VLAN deletion, control plane *)

Section Factory.


End Factory.

Section DelVlan.
Context {O : Opaque} {C : Collaborators}.

(** X21.  [_del_vlan] emits one flow-delete, matching the vid of the VLAN
    and nothing else, for each table of [vlan_match_tables()] other than
    the vlan table, and no other message: what the vlan table holds for
    the VLAN is not deleted. *)
Theorem del_vlan_spec (self : Valve) (vlan : VLAN) (m : ofmsg) :
  In m (_del_vlan self vlan) <->
  exists t,
    In t (vlan_match_tables (dp self)) /\
    table_eqb t (vlan_table (tables (dp self))) = false /\
    m = FlowDel t (match_vlan (vid vlan)) None.
Proof.
  unfold _del_vlan, flowdel. rewrite in_flat_map. split.
  - intros (t & Ht & Hm).
    destruct (table_eqb t (vlan_table (tables (dp self)))) eqn:E; simpl in Hm;
      [destruct Hm|].
    destruct Hm as [<-|[]]. exists t. auto.
  - intros (t & Ht & E & ->). exists t. split; [exact Ht|].
    rewrite E. simpl. now left.
Qed.

End DelVlan.

Section ControlPlane.
Context {O : Opaque} {C : Collaborators}.

(** X22.  Which packets reach the route managers in
    [control_plane_handler].  A packet whose destination is a unicast
    address other than the faucet MAC of its VLAN reaches none: no
    message, the packet is not reparsed, the Valve is untouched.
    Otherwise the IPv4 manager is asked first, on the packet reparsed for
    IPv4; when it answers with messages, these are returned, its route
    state is stored, and the IPv6 manager is not asked. *)
Theorem control_plane_handler_dispatch (pm : PacketMeta) (self : Valve)
  (vlan : VLAN) :
  zget (pm_vlan pm) (vlans (dp self)) = Some vlan ->
  (String.eqb (pm_eth_dst pm) (faucet_mac vlan) = false ->
   mac_addr_is_unicast (pm_eth_dst pm) = true ->
   control_plane_handler pm self = (Ok ([], pm), self)) /\
  (String.eqb (pm_eth_dst pm) (faucet_mac vlan) = true \/
   mac_addr_is_unicast (pm_eth_dst pm) = false ->
   nonempty (fst (rm_control_plane_handler 4
                    (reparse_ip pm (ETH_TYPE 4) 0) vlan)) = true ->
   control_plane_handler pm self
   = (Ok (fst (rm_control_plane_handler 4 (reparse_ip pm (ETH_TYPE 4) 0) vlan),
          reparse_ip pm (ETH_TYPE 4) 0),
      put_vlan (pm_vlan pm)
        (set_vlan_route_state
           (snd (rm_control_plane_handler 4 (reparse_ip pm (ETH_TYPE 4) 0)
                   vlan))
           vlan) self)).
Proof.
  intros Hv. unfold control_plane_handler, the_vlan.
  rewrite bind_assoc, bind_get_self. unfold subscript. rewrite Hv, bind_ret.
  split.
  - intros H1 H2. rewrite H1, H2. reflexivity.
  - intros Hus Hne.
    replace (String.eqb (pm_eth_dst pm) (faucet_mac vlan)
             || negb (mac_addr_is_unicast (pm_eth_dst pm))) with true
      by (symmetry; destruct Hus as [-> | ->];
          [reflexivity | apply orb_true_r]).
    unfold route_manager_by_ipv. cbn [control_plane_loop].
    pose proof (reparse_ip_headers pm (ETH_TYPE 4) 0) as (_ & Hh & _).
    cbv beta iota delta [bind the_vlan get_self subscript modify ret].
    rewrite Hh, Hv.
    destruct (rm_control_plane_handler 4 (reparse_ip pm (ETH_TYPE 4) 0) vlan)
      as [ms rs]. simpl in Hne. simpl. rewrite Hne. reflexivity.
Qed.

End ControlPlane.

Section ResolveGateways.
Context {O : Opaque} {C : Collaborators}.

(** X23.  [resolve_gateways] returns, and changes nothing of the Valve
    but the route state of its VLANs: host caches, learn-ban counts,
    ports, configuration, running flag, routing flag and packet-in
    counters are as they were. *)
Theorem resolve_gateways_touches_route_state_only (now : Z) (self : Valve) :
  exists ofmsgs self',
    resolve_gateways now self = (Ok ofmsgs, self') /\ route_only self self'.
Proof.
  unfold resolve_gateways. rewrite bind_get_self.
  destruct (negb (running (dp self)));
    [exists [], self; split; [reflexivity | apply route_only_refl]|].
  apply (@for_extend_ok _ Z (fun s => route_only self s));
    [|apply route_only_refl].
  intros k s Hk Hs.
  apply (@for_extend_ok _ Z (fun s0 => route_only self s0)); [|exact Hs].
  intros ipv s0 _ Hs0.
  apply zget_In_keys in Hk. destruct Hk as [v0 Hk].
  destruct (route_only_zget k Hs0 Hk) as (v & Hv & _).
  cbv beta iota delta [bind the_vlan get_self subscript modify ret raise].
  rewrite Hv. destruct (rm_resolve_gateways ipv v now) as [ms rs].
  eexists _, _. split; [reflexivity|].
  eapply route_only_trans; [exact Hs0|].
  now apply route_only_put_vlan.
Qed.

End ResolveGateways.

Section Disconnect.
Context {O : Opaque} {C : Collaborators}.

(** X27.  After [datapath_disconnect] for its own dp_id the Valve is as
    it was but for [dp.running], which is false, and until the datapath
    connects again every packet-in is dropped without being counted,
    [reload_config] returns (False, []) without installing the new
    configuration, and [host_expire] and [resolve_gateways] do nothing. *)
Theorem disconnected_datapath_is_idle (self : Valve) :
  let down := set_dp (set_running false (dp self)) self in
  datapath_disconnect (dp_id (dp self)) self = (Ok tt, down) /\
  (forall now dpid valves pm, rcv_packet now dpid valves pm down = (Ok [], down)) /\
  (forall new_dp, reload_config new_dp down = (Ok (false, []), down)) /\
  (forall now, host_expire now down = (Ok tt, down)) /\
  (forall now, resolve_gateways now down = (Ok [], down)).
Proof.
  intros down. split; [|split; [|split; [|split]]].
  - unfold datapath_disconnect, _ignore_dpid.
    rewrite bind_get_self, Z.eqb_refl. reflexivity.
  - intros now dpid valves pm. unfold rcv_packet, _known_up_dpid_and_port.
    rewrite bind_get_self. simpl.
    rewrite andb_false_r. reflexivity.
  - intros new_dp. unfold reload_config. rewrite bind_get_self. reflexivity.
  - intros now. now apply host_expire_not_running.
  - intros now. now apply resolve_gateways_not_running.
Qed.

End Disconnect.

Section AclPriorities.
Context {O : Opaque} {C : Collaborators}.

Lemma acl_rule_flows_from (d : DP) (acl_table : table)
  (allow : instruction) (port_num vlan_vid : option Z)
  (rules' : list rule_conf) (top : Z) (start : nat) :
  acl_rule_flows d acl_table allow port_num vlan_vid rules'
    (top - Z.of_nat start)
  = flat_map (fun ir => acl_rule_msgs d acl_table allow port_num vlan_vid
                          top (fst ir) (snd ir))
             (combine (seq start (List.length rules')) rules').
Proof.
  revert start. induction rules' as [|r rs IH]; intros start; simpl;
    [reflexivity|].
  unfold acl_rule_msgs at 1. simpl.
  destruct (build_acl_entry r allow (meters d) port_num vlan_vid)
    as [[m inst] extra].
  rewrite <- app_assoc. simpl. do 2 f_equal.
  replace (top - Z.of_nat start - 1) with (top - Z.of_nat (S start)) by lia.
  apply IH.
Qed.

(** X28.  The priorities of the rules of an ACL descend from the
    highest priority of the DP in steps of one: the ACL bound to a port
    is installed, after the delete of the port's flows in table port_acl
    on a cold start, as the messages of rule 0 at [highest_priority],
    those of rule 1 at [highest_priority - 1], and so on in the order of
    the rules, each flow towards the vlan table when the rule allows. *)
Theorem port_acl_priorities_descend (port_num acl_num : Z) (acl : ACL)
  (cold_start : bool) (self : Valve) :
  zget port_num (port_acl_in (dp self)) = Some acl_num ->
  zget acl_num (acls (dp self)) = Some acl ->
  _port_add_acl port_num cold_start self
  = (Ok ((if cold_start
          then [FlowDel (port_acl_table (tables (dp self)))
                  (match_in_port port_num) None]
          else [])
         ++ flat_map (fun ir =>
                        acl_rule_msgs (dp self)
                          (port_acl_table (tables (dp self)))
                          (goto_table (vlan_table (tables (dp self))))
                          (Some port_num) None
                          (highest_priority (dp self)) (fst ir) (snd ir))
                     (combine (seq 0 (List.length (rules acl)))
                              (rules acl))),
     self).
Proof.
  intros Hb Ha. unfold _port_add_acl. rewrite bind_get_self, Hb.
  unfold subscript. rewrite Ha, bind_ret. unfold ret. do 3 f_equal.
  rewrite <- acl_rule_flows_from. simpl. now rewrite Z.sub_0_r.
Qed.

(** X29.  A port bound to an ACL that the DP does not define.
    [port_add] for such a port (configured, enabled, not reserved, not a
    mirror destination) raises KeyError, and the port has already been
    marked up when the exception leaves the method. *)
Theorem port_add_dangling_acl (self : Valve) (n acl_num : Z) (port : Port) :
  zget n (ports (dp self)) = Some port ->
  ignore_port n = false ->
  enabled port = true ->
  mirror_destination port = false ->
  zget n (port_acl_in (dp self)) = Some acl_num ->
  zget acl_num (acls (dp self)) = None ->
  port_add (dp_id (dp self)) n self
  = (Raise KeyError, put_port n (set_phys_up true port) self).
Proof.
  intros Hp Hig Hen Hmd Hb Ha.
  set (s1 := put_port n (set_phys_up true port) self).
  assert (Eacl : _port_add_acl n false s1 = (Raise KeyError, s1)).
  { unfold _port_add_acl. rewrite bind_get_self.
    change (port_acl_in (dp s1)) with (port_acl_in (dp self)).
    change (acls (dp s1)) with (acls (dp self)).
    rewrite Hb. unfold subscript. rewrite Ha. reflexivity. }
  assert (E : ports_add_port n [] self = (Raise KeyError, s1)).
  { unfold ports_add_port. rewrite bind_get_self, Hig, Hp.
    rewrite (@bind_ok _ _ _ (modify (put_port n (set_phys_up true port))) _
               self s1 tt eq_refl).
    unfold port_running. simpl. rewrite Hen, Hmd. cbn [andb negb].
    rewrite bind_get_self.
    now rewrite (@bind_raise _ _ _ _ _ _ _ _ Eacl). }
  unfold port_add, ports_add, _ignore_dpid.
  rewrite bind_get_self, Z.eqb_refl. cbn [negb]. simpl ports_add_loop.
  unfold bind. rewrite E. reflexivity.
Qed.

End AclPriorities.

(** ** The properties on concrete datapaths *)

Section MoreConcrete.
#[local] Existing Instance Demo.opaque.
#[local] Existing Instance Demo.collaborators.

Lemma foreign_dpid_is_ignored_witness :
  2 <> dp_id (dp Demo.v_s1) /\
  datapath_connect 2 [1; 2] Demo.v_s1 = (Ok [], Demo.v_s1) /\
  rcv_packet 100 2 [] Demo.pkt_aa Demo.v_s1 = (Ok [], Demo.v_s1).
Proof.
  assert (H : 2 <> dp_id (dp Demo.v_s1)) by (vm_compute; lia).
  split; [exact H|].
  destruct (@foreign_dpid_is_ignored Demo.opaque Demo.collaborators
              Demo.v_s1 2 H) as (Hc & _ & _ & _ & _ & Hr).
  split; [apply Hc | apply Hr].
Defined.

(** Port 7 is not configured and port 0xfffffffe is reserved. *)
Lemma ports_skip_unconfigured_witness :
  ports_add 1 [7; 0xfffffffe] false Demo.v_s1 = (Ok [], Demo.v_s1) /\
  ports_delete 1 [7; 0xfffffffe] Demo.v_s1 = (Ok [], Demo.v_s1).
Proof.
  apply (@ports_skip_unconfigured Demo.opaque Demo.collaborators).
  intros n [<-|[<-|[]]]; [right | left]; vm_compute; reflexivity.
Defined.

Lemma ports_add_mirror_destination_witness :
  ports_add 1 [3] false Cases.v_mirror
  = (Ok [flowmod (Demo.T 0 "vlan") (match_in_port 3) 9099 []],
     put_port 3 (set_phys_up true Cases.mirror_destination_port)
       Cases.v_mirror).
Proof.
  apply (@ports_add_mirror_destination Demo.opaque Demo.collaborators
           Cases.v_mirror 3 Cases.mirror_destination_port false);
    vm_compute; reflexivity.
Defined.

Lemma ports_add_disabled_port_witness :
  ports_add 1 [4] false Cases.v_mirror
  = (Ok [], put_port 4 (set_phys_up true Cases.disabled_port) Cases.v_mirror).
Proof.
  apply (@ports_add_disabled_port Demo.opaque Demo.collaborators
           Cases.v_mirror 4 Cases.disabled_port false);
    vm_compute; reflexivity.
Defined.

(** Port 1 of the connected datapath is reported modified and down. *)
Lemma port_status_sets_phys_up_witness :
  zget 1 (ports (dp Demo.v_s1)) = Some (Cases.port_of 1 Demo.v_s1) /\
  phys_up (Cases.port_of 1 Demo.v_s1) = true /\
  zget 1 (ports (dp (snd (port_status_handler 1 1 OFPPR_MODIFY false
                            Demo.v_s1))))
  = Some (set_phys_up false (Cases.port_of 1 Demo.v_s1)).
Proof.
  split; [vm_compute; reflexivity|]. split; [vm_compute; reflexivity|].
  apply (@port_status_sets_phys_up Demo.opaque Demo.collaborators
           Demo.v_s1 1 OFPPR_MODIFY false (Cases.port_of 1 Demo.v_s1));
    vm_compute; reflexivity.
Defined.

Lemma rcv_packet_returns_witness :
  _known_up_dpid_and_port Demo.v_s1 1 (pm_port Demo.pkt_aa) = true /\
  exists ofmsgs self',
    rcv_packet 100 1 [] Demo.pkt_aa Demo.v_s1 = (Ok ofmsgs, self').
Proof.
  split; [vm_compute; reflexivity|].
  apply (@rcv_packet_returns Demo.opaque Demo.collaborators
           100 1 [] Demo.pkt_aa Demo.v_s1 (Cases.port_of 1 Demo.v_s1));
    try (vm_compute; reflexivity).
  left. vm_compute; reflexivity.
Defined.

(** With [ignore_learn_ins] = 2, of four packet-ins in second 100 the
    second and the fourth are dropped. *)
Lemma rate_limit_over_a_second_witness :
  ignore_learn_ins (dp Demo.v_caps) = 2 /\
  _last_packet_in_sec Demo.v_caps <> 100 /\
  fst (packet_ins 100 4 Demo.v_caps)
  = [Ok false; Ok true; Ok false; Ok true].
Proof.
  split; [vm_compute; reflexivity|].
  assert (H : _last_packet_in_sec Demo.v_caps <> 100) by (vm_compute; lia).
  split; [exact H|].
  rewrite (@rate_limit_over_a_second Demo.opaque 100 4 Demo.v_caps H).
  vm_compute; reflexivity.
Defined.

(** The routed datapath [Demo.v_ra] advertises at second 10 and not
    again at second 15. *)
Lemma advertise_is_paced_witness :
  advertise_interval (dp Demo.v_ra) = 5 /\
  fst (advertise 10 Demo.v_ra) = Ok [Ext "router advertisement"%string] /\
  advertise 15 (set_last_advertise_sec 10 Demo.v_ra)
  = (Ok [], set_last_advertise_sec 10 Demo.v_ra).
Proof.
  split; [vm_compute; reflexivity|].
  destruct (@advertise_is_paced Demo.opaque Demo.collaborators
              10 15 Demo.v_ra) as [H1 H2].
  - vm_compute; lia.
  - vm_compute; reflexivity.
  - vm_compute. intros H; discriminate H.
  - split; [rewrite H1; vm_compute; reflexivity | exact H2].
Defined.

(** The host learned at second 100 is expired at second 1000. *)
Lemma host_expire_effect_witness :
  host_cache (Demo.vlan_of 10 Demo.v_caps_full) <> [] /\
  host_cache (Demo.vlan_of 10 (snd (host_expire 1000 Demo.v_caps_full))) = [].
Proof.
  split; [vm_compute; intros H; discriminate H|].
  rewrite (@host_expire_effect Demo.opaque Demo.collaborators
             1000 Demo.v_caps_full).
  - vm_compute; reflexivity.
  - vm_compute; reflexivity.
  - vm_compute. repeat constructor. intros [].
Defined.

Lemma flow_timeout_src_rule_witness :
  fst (flow_timeout 3
         [oxm_in_port 1; oxm_vlan_vid (Z.lor OFPVID_PRESENT 10);
          oxm_eth_src "aa:aa:aa:aa:aa:aa"%string] Demo.v_s1) = Ok [].
Proof.
  rewrite (@flow_timeout_src_rule Demo.opaque Demo.collaborators
             Demo.v_s1 3 10 1 "aa:aa:aa:aa:aa:aa"%string
             (Demo.vlan_of 10 Demo.v_s1)).
  - vm_compute; reflexivity.
  - left. vm_compute; reflexivity.
  - lia.
  - lia.
  - intros H; discriminate H.
  - vm_compute; reflexivity.
Defined.

Lemma cold_start_rejects_stack_routing_witness :
  datapath_connect 1 [1; 2] Cases.v_stack_routed
  = (Raise AssertionError, Cases.v_stack_routed).
Proof.
  apply (@cold_start_rejects_stack_routing Demo.opaque Demo.collaborators
           Cases.v_stack_routed [1; 2] 10 Cases.routed_vlan).
  - vm_compute. intros H; discriminate H.
  - intros k a H. vm_compute in H. discriminate H.
  - vm_compute; reflexivity.
  - vm_compute. intros H; discriminate H.
Defined.

(** No port was discovered up; port 2 is a member of VLAN 10. *)
Lemma cold_start_marks_ports_up_witness :
  phys_up (Cases.port_of 2 (Valve_init Demo.dp_s1)) = false /\
  zget 2 (ports (dp (snd (datapath_connect 1 [] (Valve_init Demo.dp_s1)))))
  = Some (set_phys_up true (Cases.port_of 2 (Valve_init Demo.dp_s1))).
Proof.
  split; [vm_compute; reflexivity|].
  apply (@cold_start_marks_ports_up Demo.opaque Demo.collaborators
           (Valve_init Demo.dp_s1)
           (snd (datapath_connect 1 [] (Valve_init Demo.dp_s1))) []
           (match fst (datapath_connect 1 [] (Valve_init Demo.dp_s1)) with
            | Ok ms => ms | Raise _ => [] end)
           2 (Cases.port_of 2 (Valve_init Demo.dp_s1))).
  - vm_compute; reflexivity.
  - vm_compute; reflexivity.
  - vm_compute; reflexivity.
  - right. right. exists 10, (Demo.vlan_of 10 (Valve_init Demo.dp_s1)).
    split; [vm_compute; reflexivity|]. vm_compute. right. now left.
Defined.

(** An ARP for the faucet VIP of VLAN 10 is answered by the IPv4
    manager. *)
Lemma control_plane_handler_dispatch_witness :
  fst (control_plane_handler Cases.pkt_vip Demo.v_routed)
  = Ok ([Ext "arp reply"%string], Cases.pkt_vip).
Proof.
  destruct (@control_plane_handler_dispatch Demo.opaque Demo.collaborators
              Cases.pkt_vip Demo.v_routed (Demo.vlan_of 10 Demo.v_routed))
    as [_ H].
  - vm_compute; reflexivity.
  - rewrite H.
    + vm_compute; reflexivity.
    + left. vm_compute; reflexivity.
    + vm_compute; reflexivity.
Defined.

(** The first packet of a host on the stack port of sw1, which is the
    only Valve. *)
Lemma stack_port_waits_for_edge_witness :
  rcv_packet 100 1 [(1, Demo.v_stack1)] Demo.pkt_aa Demo.v_stack1
  = (Ok [], set_packet_in 1 100 Demo.v_stack1).
Proof.
  apply (@stack_port_waits_for_edge Demo.opaque Demo.collaborators
           100 1 [(1, Demo.v_stack1)] Demo.pkt_aa Demo.v_stack1
           (Cases.port_of 1 Demo.v_stack1) (Demo.vlan_of 10 Demo.v_stack1));
    try (vm_compute; reflexivity).
  vm_compute. intros H; discriminate H.
Defined.

Lemma rcv_packet_learns_host_witness :
  exists self',
    rcv_packet 100 1 [] Demo.pkt_aa Demo.v_s1
    = (Ok (fst (Demo.demo_learn 100 (Some 1) (Demo.vlan_of 10 Demo.v_s1)
                  "aa:aa:aa:aa:aa:aa"%string)), self') /\
    zmem 10 (vlans (dp self')) = true.
Proof.
  eexists. split.
  - apply (@rcv_packet_learns_host Demo.opaque Demo.collaborators
             100 1 [] Demo.pkt_aa Demo.v_s1
             (Cases.port_of 1 Demo.v_s1) (Demo.vlan_of 10 Demo.v_s1));
      vm_compute; reflexivity.
  - vm_compute; reflexivity.
Defined.

Lemma port_add_access_port_witness :
  exists ofmsgs,
    port_add 1 2 Demo.v_s1
    = (Ok ofmsgs,
       put_port 2 (set_phys_up true (Cases.port_of 2 Demo.v_s1)) Demo.v_s1) /\
    List.length ofmsgs = 3%nat.
Proof.
  eexists. split.
  - apply (@port_add_access_port Demo.opaque Demo.collaborators
             Demo.v_s1 2 10 (Cases.port_of 2 Demo.v_s1));
      vm_compute; reflexivity.
  - vm_compute; reflexivity.
Defined.

(** The two rules of ACL 5 on port 1, on a cold start. *)
Lemma port_acl_priorities_descend_witness :
  fst (_port_add_acl 1 true Cases.v_acl)
  = Ok [FlowDel (Demo.T 1 "port_acl") (match_in_port 1) None;
        flowmod (Demo.T 1 "port_acl") (Some (AclMatch "allow arp"%string))
          9099 [goto_table (Demo.T 0 "vlan")];
        flowmod (Demo.T 1 "port_acl") (Some (AclMatch "deny all"%string))
          9098 [goto_table (Demo.T 0 "vlan")]].
Proof.
  rewrite (@port_acl_priorities_descend Demo.opaque Demo.collaborators
             1 5 Cases.acl5 true Cases.v_acl).
  - vm_compute; reflexivity.
  - vm_compute; reflexivity.
  - vm_compute; reflexivity.
Defined.

Lemma port_add_dangling_acl_witness :
  port_add 1 2 Cases.v_acl
  = (Raise KeyError,
     put_port 2 (set_phys_up true (Cases.port_of 2 Cases.v_acl)) Cases.v_acl).
Proof.
  apply (@port_add_dangling_acl Demo.opaque Demo.collaborators
           Cases.v_acl 2 6 (Cases.port_of 2 Cases.v_acl));
    vm_compute; reflexivity.
Defined.

End MoreConcrete.
